(** * Studymate: persistence and derived-metrics layer

    A shallow embedding of the view controllers of the Studymate single-page
    application (Subjects, Dashboard, SubjectStats, Tasks, Analytics, Profile)
    as far as they read, update and aggregate the persisted collections, and
    the properties of that layer.

    Conventions of the embedding:
    - a JavaScript time value (milliseconds since the epoch) is a [Z];
      an Invalid Date is [None];
    - the local time zone is a fixed offset [tz] (local = UTC + tz, in
      milliseconds); daylight-saving changes are not modelled;
    - integer-valued numbers (minutes, streak counters) are [Z]; numbers that
      are divided are exact rationals extended with the IEEE special values
      ([JS.number]); rounding of doubles is not modelled, except where a
      number is printed: there an integer beyond 2^53 stands for the double
      nearest to it ([JSNum.toString]);
    - one handler call reads the clock once: [now] stands for each
      [new Date()] of that call;
    - a call that may throw returns a [JS.completion];
    - [localStorage] is a finite map from keys to strings. *)

From Stdlib Require Import ZArith List String Ascii Bool QArith Lia.
From Stdlib Require Import DecimalString DecimalN DecimalPos.
From stdpp Require Import gmap strings list fin_maps.
Open Scope string_scope.
Open Scope Z_scope.

(* ================================================================== *)
(** ** The JavaScript runtime values the code relies on *)
(* ================================================================== *)

Module JS.

(** Normal or abrupt (throw) completion of a call. *)
Inductive completion (A : Type) : Type :=
| Return (v : A)
| Throw (msg : string).
Arguments Return {A} v.
Arguments Throw {A} msg.

Definition throws {A} (c : completion A) : bool :=
  match c with Throw _ => true | Return _ => false end.

(** [try { body } catch (error) { handler }] *)
Definition try_catch {A} (body : completion A) (handler : string -> completion A)
  : completion A :=
  match body with
  | Return v => Return v
  | Throw e => handler e
  end.

(** Truthiness of a [string | null]: null and the empty string are falsy. *)
Definition truthy (s : option string) : bool :=
  match s with
  | None => false
  | Some EmptyString => false
  | Some (String _ _) => true
  end.

(** Numbers: exact rationals plus the three IEEE special values. *)
Inductive number : Type :=
| Fin (q : Q)
| PosInf
| NegInf
| NaN.

Definition isFinite (x : number) : bool :=
  match x with Fin _ => true | _ => false end.

Definition of_sign (s : comparison) : number :=
  match s with Gt => PosInf | Lt => NegInf | Eq => NaN end.

Definition sign (x : number) : option comparison :=
  match x with
  | Fin q => Some (q ?= 0)%Q
  | PosInf => Some Gt
  | NegInf => Some Lt
  | NaN => None
  end.

Definition sign_mul (a b : comparison) : comparison :=
  match a, b with
  | Eq, _ | _, Eq => Eq
  | Gt, s | s, Gt => s
  | Lt, Lt => Gt
  end.

(** [x / y]: a finite quotient when the divisor is a non-zero finite
    number; 0/0 is NaN and a non-zero finite number over 0 is an infinity. *)
Definition div (x y : number) : number :=
  match x, y with
  | NaN, _ | _, NaN => NaN
  | Fin a, Fin b =>
      if Qeq_bool b 0 then of_sign (a ?= 0)%Q else Fin (a / b)
  | Fin _, _ => Fin 0
  | _, Fin b => match sign x with
                | Some s => of_sign (sign_mul s (if Qeq_bool b 0 then Gt else (b ?= 0)%Q))
                | None => NaN
                end
  | _, _ => NaN
  end.

(** [x * y] *)
Definition mul (x y : number) : number :=
  match x, y with
  | NaN, _ | _, NaN => NaN
  | Fin a, Fin b => Fin (a * b)
  | _, _ => match sign x, sign y with
            | Some s, Some t => of_sign (sign_mul s t)
            | _, _ => NaN
            end
  end.

(** [Math.min(x, y)]: NaN when either argument is NaN. *)
Definition min (x y : number) : number :=
  match x, y with
  | NaN, _ | _, NaN => NaN
  | NegInf, _ | _, NegInf => NegInf
  | PosInf, z | z, PosInf => z
  | Fin a, Fin b => if Qle_bool a b then Fin a else Fin b
  end.

Definition of_Z (z : Z) : number := Fin (inject_Z z).

End JS.

(* ================================================================== *)
(** ** Dates: the [Date] object under a fixed time-zone offset *)
(* ================================================================== *)

Module JSDate.

(** [1000 * 60 * 60 * 24] *)
Definition msPerDay : Z := 1000 * 60 * 60 * 24.

(** Number of the local calendar day that contains time value [t]. *)
Definition localDay (tz t : Z) : Z := (t + tz) / msPerDay.

(** Milliseconds elapsed since local midnight. *)
Definition msIntoDay (tz t : Z) : Z := (t + tz) mod msPerDay.

(** [d.setHours(0, 0, 0, 0)]: the local midnight of [t]. Under the fixed
    offset two local midnights are a whole number of days apart; in a zone
    with daylight saving a local day can last 23 or 25 hours, which is not
    modelled. *)
Definition setHours0 (tz t : Z) : Z := t - msIntoDay tz t.

(** [d.setHours(23, 59, 59, 999)] *)
Definition setHoursEnd (tz t : Z) : Z := setHours0 tz t + (msPerDay - 1).

(** [d.getDay()]: 0 is Sunday; day 0 of the epoch was a Thursday. *)
Definition getDay (tz t : Z) : Z := (localDay tz t + 4) mod 7.

(** [d.setDate(d.getDate() + n)]: same wall-clock time, [n] days later. *)
Definition addDays (t n : Z) : Z := t + n * msPerDay.

(** Civil date (year, month 1..12, day 1..31) of a day number, proleptic
    Gregorian calendar; day 0 is 1970-01-01. *)
Record civil : Type := { year : Z; month : Z; mday : Z }.

(** Day within the 400-year cycle, counted from a 1 March. *)
Definition dayOfEra (n : Z) : Z := (n + 719468) mod 146097.

Definition yearOfEra (doe : Z) : Z :=
  (doe - doe / 1460 + doe / 36524 - doe / 146096) / 365.

Definition dayOfYear (doe : Z) : Z :=
  let yoe := yearOfEra doe in
  doe - (365 * yoe + yoe / 4 - yoe / 100).

Definition monthOfDoy (doy : Z) : Z :=
  let mp := (5 * doy + 2) / 153 in
  if mp <? 10 then mp + 3 else mp - 9.

Definition mdayOfDoy (doy : Z) : Z :=
  let mp := (5 * doy + 2) / 153 in
  doy - (153 * mp + 2) / 5 + 1.

Definition civil_of_day (n : Z) : civil :=
  let era := (n + 719468) / 146097 in
  let doe := dayOfEra n in
  let doy := dayOfYear doe in
  let m := monthOfDoy doy in
  {| year := yearOfEra doe + era * 400 + (if m <=? 2 then 1 else 0);
     month := m;
     mday := mdayOfDoy doy |}.

Definition day_of_civil (y m d : Z) : Z :=
  let y' := if m <=? 2 then y - 1 else y in
  let era := y' / 400 in
  let yoe := y' mod 400 in
  let mp := if m <=? 2 then m + 9 else m - 3 in
  let doy := (153 * mp + 2) / 5 + d - 1 in
  let doe := yoe * 365 + yoe / 4 - yoe / 100 + doy in
  era * 146097 + doe - 719468.

(** [d.getFullYear()], [d.getMonth() + 1], [d.getDate()] in local time. *)
Definition localCivil (tz t : Z) : civil := civil_of_day (localDay tz t).

(** Decimal digits of a natural number. *)
Definition decimal (n : Z) : string :=
  NilZero.string_of_uint (N.to_uint (Z.to_N n)).

Fixpoint zeros (k : nat) : string :=
  match k with O => "" | S k' => String "0" (zeros k') end.

(** [String(n).padStart(len, '0')] for [n >= 0]. *)
Definition padStart0 (n : Z) (len : nat) : string :=
  let s := decimal n in
  zeros (len - String.length s) ++ s.

(** [d.toISOString()] (UTC); the year takes four digits between 0 and
    9999, and a sign and six digits otherwise. *)
Definition isoYear (y : Z) : string :=
  if (0 <=? y) && (y <=? 9999) then padStart0 y 4
  else if y <? 0 then "-" ++ padStart0 (- y) 6
  else "+" ++ padStart0 y 6.

Definition toISOString (t : Z) : string :=
  let c := civil_of_day (t / msPerDay) in
  let ms := t mod msPerDay in
  isoYear c.(year) ++ "-" ++ padStart0 c.(month) 2 ++ "-" ++ padStart0 c.(mday) 2
    ++ "T" ++ padStart0 (ms / 3600000) 2
    ++ ":" ++ padStart0 (ms / 60000 mod 60) 2
    ++ ":" ++ padStart0 (ms / 1000 mod 60) 2
    ++ "." ++ padStart0 (ms mod 1000) 3 ++ "Z".

(** Reading back decimal fields. *)
Definition digit (c : ascii) : option Z :=
  let n := Z.of_nat (nat_of_ascii c) in
  if (48 <=? n) && (n <=? 57) then Some (n - 48) else None.

Fixpoint digits_acc (acc : Z) (s : string) : option Z :=
  match s with
  | EmptyString => Some acc
  | String c s' =>
      match digit c with
      | Some d => digits_acc (10 * acc + d) s'
      | None => None
      end
  end.

Definition number_of (s : string) : option Z :=
  match s with
  | EmptyString => None
  | _ => digits_acc 0 s
  end.

Definition field (s : string) (pos len : nat) : option Z :=
  number_of (String.substring pos len s).

Definition sep (s : string) (pos : nat) (c : string) : bool :=
  String.eqb (String.substring pos 1 s) c.

Definition valid_date (y m d : Z) : bool :=
  (1 <=? m) && (m <=? 12) && (1 <=? d) &&
  (day_of_civil y m d <? day_of_civil (if m =? 12 then y + 1 else y)
                                        (if m =? 12 then 1 else m + 1) 1).

(** The two ISO-8601 shapes the application writes and its sample data
    uses: [YYYY-MM-DD] (UTC midnight) and [YYYY-MM-DDTHH:mm:ss.sssZ].
    Every other string is an Invalid Date here; the runtime's parser
    accepts more, which is why the controllers below take the parser as a
    parameter and this one only instantiates it. *)
Definition parseISO (s : string) : option Z :=
  match field s 0 4, field s 5 2, field s 8 2 with
  | Some y, Some m, Some d =>
      if sep s 4 "-" && sep s 7 "-" && valid_date y m d then
        let day := day_of_civil y m d in
        if (String.length s =? 10)%nat then Some (day * msPerDay)
        else if (String.length s =? 24)%nat then
          match field s 11 2, field s 14 2, field s 17 2, field s 20 3 with
          | Some hh, Some mm, Some ss, Some ms =>
              if sep s 10 "T" && sep s 13 ":" && sep s 16 ":" && sep s 19 "."
                 && sep s 23 "Z" && (hh <? 24) && (mm <? 60) && (ss <? 60)
              then Some (day * msPerDay + hh * 3600000 + mm * 60000 + ss * 1000 + ms)
              else None
          | _, _, _, _ => None
          end
        else None
      else None
  | _, _, _ => None
  end.

End JSDate.

(* ================================================================== *)
(** ** date-fns: the four functions the pages import *)
(* ================================================================== *)

Module DateFns.
Import JSDate.

(** [startOfWeek(date)], with the library's default [weekStartsOn = 0]. *)
Definition startOfWeek (tz t : Z) : Z :=
  let weekStartsOn := 0 in
  let day := getDay tz t in
  let diff := (if day <? weekStartsOn then 7 else 0) + day - weekStartsOn in
  setHours0 tz (addDays t (- diff)).

(** [endOfWeek(date)], with the library's default [weekStartsOn = 0]. *)
Definition endOfWeek (tz t : Z) : Z :=
  let weekStartsOn := 0 in
  let day := getDay tz t in
  let diff := (if day <? weekStartsOn then -7 else 0) + 6 - (day - weekStartsOn) in
  setHoursEnd tz (addDays t diff).

(** [subDays(date, amount)] *)
Definition subDays (t amount : Z) : Z := addDays t (- amount).

(** The [y] token prints the year of the era: [y] when positive and
    [1 - y] otherwise. *)
Definition eraYear (y : Z) : Z := if 0 <? y then y else 1 - y.

(** [format(date, 'yyyy-MM-dd')] *)
Definition format_yyyy_MM_dd (tz t : Z) : string :=
  let c := localCivil tz t in
  padStart0 (eraYear c.(year)) 4 ++ "-" ++ padStart0 c.(month) 2
    ++ "-" ++ padStart0 c.(mday) 2.

Definition monthAbbr (m : Z) : string :=
  nth (Z.to_nat (m - 1))
      ["Jan"; "Feb"; "Mar"; "Apr"; "May"; "Jun";
       "Jul"; "Aug"; "Sep"; "Oct"; "Nov"; "Dec"] "".

(** [format(date, 'MMM d')] *)
Definition format_MMM_d (tz t : Z) : string :=
  let c := localCivil tz t in
  monthAbbr c.(month) ++ " " ++ decimal c.(mday).

End DateFns.

(* ================================================================== *)
(** ** Entities *)
(* ================================================================== *)

(** Modelled from the spec: [src/types] is not among the sources; the
    records below carry the fields the spec's data model lists and the pages
    use. *)
Module Types.

Record Subject : Type := {
  subject_id : string;
  name : string;
  description : option string;
  color : string;
  goalHoursPerWeek : Q
}.

Record StudySession : Type := {
  session_id : string;
  date : string;
  durationMinutes : Z;
  subject : string
}.

Record Task : Type := {
  task_id : string;
  title : string;
  task_description : string;
  dueDate : string;
  completed : bool
}.

Record StudyStreak : Type := {
  currentStreak : Z;
  bestStreak : Z;
  lastStudyDate : string
}.

End Types.

(** The value of [new Date(s)] compared with [>=] and [<=]: a comparison
    with an Invalid Date is false. *)
Definition date_ge (a : option Z) (b : Z) : bool :=
  match a with Some x => b <=? x | None => false end.

Definition date_le (a : option Z) (b : Z) : bool :=
  match a with Some x => x <=? b | None => false end.

(** [list.reduce((acc, s) => acc + s.durationMinutes, 0)] *)
Definition reduce_sum {A} (f : A -> Z) (l : list A) : Z :=
  fold_left (fun acc s => acc + f s) l 0.

(* ================================================================== *)
(** ** Persisted collection reads and writes *)
(* ================================================================== *)

Module Storage.

(** [localStorage.getItem(key)] *)
Definition getItem (ls : gmap string string) (key : string) : option string :=
  ls !! key.

(** [localStorage.setItem(key, value)] *)
Definition setItem (ls : gmap string string) (key value : string)
  : gmap string string :=
  <[key := value]> ls.

Section Typed.
Context {T : Type}.
(** [JSON.parse]: the parsed value, or a thrown SyntaxError. *)
Variable JSON_parse : string -> JS.completion T.
(** [JSON.stringify] *)
Variable JSON_stringify : T -> string.

(** [saved ? JSON.parse(saved) : fallback] *)
Definition parse_or (saved : option string) (fallback : T) : JS.completion T :=
  match saved with
  | Some s => if JS.truthy saved then JSON_parse s else JS.Return fallback
  | None => JS.Return fallback
  end.

(** Profile page, [storage.get]: the read sits in a [try], the handler
    returns the default. *)
Definition storage_get (ls : gmap string string) (key : string) (defaultValue : T)
  : JS.completion T :=
  JS.try_catch
    (let item := getItem ls key in
     parse_or item defaultValue)
    (fun error => JS.Return defaultValue).

(** Profile page, [storage.set]; a write that the browser refuses (quota)
    is not modelled. *)
Definition storage_set (ls : gmap string string) (key : string) (value : T)
  : gmap string string :=
  setItem ls key (JSON_stringify value).

(** The lazy initial state of [useState] in the Tasks and Subjects
    pages: [const saved = localStorage.getItem(key);
    return saved ? JSON.parse(saved) : []]; no [try] around it. *)
Definition initial_state (ls : gmap string string) (key : string) (empty : T)
  : JS.completion T :=
  let saved := getItem ls key in
  parse_or saved empty.

End Typed.

End Storage.

(* ================================================================== *)
(** ** Subjects page *)
(* ================================================================== *)

Module Subjects.
Import Types.

(** Component state: [subjects] has a setter, [studySessions] is read once
    ([useState(...)[0]]) and never set. *)
Record State : Type := {
  subjects : list Subject;
  studySessions : list StudySession
}.

Section Page.
(** [new Date(s).getTime()], [None] for an Invalid Date. *)
Variable Date_parse : string -> option Z.
Variable tz : Z.
Variable parse_subjects : string -> JS.completion (list Subject).
Variable parse_sessions : string -> JS.completion (list StudySession).
Variable stringify_subjects : list Subject -> string.

(** The two lazy initialisers, in the order the component runs them. *)
Definition init (ls : gmap string string) : JS.completion State :=
  match Storage.initial_state parse_subjects ls "subjects" [] with
  | JS.Throw e => JS.Throw e
  | JS.Return subs =>
      match Storage.initial_state parse_sessions ls "studyTime" [] with
      | JS.Throw e => JS.Throw e
      | JS.Return sess => JS.Return {| subjects := subs; studySessions := sess |}
      end
  end.

(** [useEffect(() => localStorage.setItem('subjects', ...), [subjects])] *)
Definition persist (st : State) (ls : gmap string string) : gmap string string :=
  Storage.setItem ls "subjects" (stringify_subjects st.(subjects)).

Definition inWeek (now : Z) (subjectName : string) (session : StudySession) : bool :=
  let weekStart := DateFns.startOfWeek tz now in
  let weekEnd := DateFns.endOfWeek tz now in
  let sessionDate := Date_parse session.(date) in
  String.eqb session.(subject) subjectName
  && date_ge sessionDate weekStart
  && date_le sessionDate weekEnd.

Definition weeklyMinutes (now : Z) (sessions : list StudySession)
           (subjectName : string) : Z :=
  reduce_sum durationMinutes (List.filter (inWeek now subjectName) sessions).

Definition getWeeklyProgress (now : Z) (sessions : list StudySession)
           (subjectName : string) : JS.number :=
  JS.div (JS.of_Z (weeklyMinutes now sessions subjectName)) (JS.of_Z 60).

(** [(weeklyHours / subject.goalHoursPerWeek) * 100] *)
Definition goalProgress (weeklyHours : JS.number) (goal : Q) : JS.number :=
  JS.mul (JS.div weeklyHours (JS.Fin goal)) (JS.Fin 100).

(** The [progress] of a subject card. *)
Definition cardProgress (now : Z) (st : State) (s : Subject) : JS.number :=
  goalProgress (getWeeklyProgress now st.(studySessions) s.(name))
               s.(goalHoursPerWeek).

(** The width of the bar: [Math.min(100, progress)]. *)
Definition barWidth (progress : JS.number) : JS.number :=
  JS.min (JS.Fin 100) progress.

Definition handleDeleteSubject (st : State) (id : string) : State :=
  {| subjects :=
       List.filter (fun s => negb (String.eqb s.(subject_id) id)) st.(subjects);
     studySessions := st.(studySessions) |}.

(** One user action followed by the effect that persists [subjects]. *)
Definition deleteSubject (st : State) (ls : gmap string string) (id : string)
  : State * gmap string string :=
  let st' := handleDeleteSubject st id in
  (st', persist st' ls).

End Page.
End Subjects.

(* ================================================================== *)
(** ** Dashboard page *)
(* ================================================================== *)

Module Dashboard.
Import Types.

Record State : Type := {
  studyTime : list StudySession;
  streak : StudyStreak;
  isStudyActive : bool;
  selectedSubject : string;
  isLoading : bool
}.

(** A call of a state setter; the functional form receives the pending
    state, the plain form is a constant function. *)
Inductive update : Type :=
| SetStudyTime (f : list StudySession -> list StudySession)
| SetStreak (f : StudyStreak -> StudyStreak)
| SetIsStudyActive (b : bool)
| SetSelectedSubject (s : string).

Definition apply (st : State) (u : update) : State :=
  match u with
  | SetStudyTime f =>
      {| studyTime := f st.(studyTime); streak := st.(streak);
         isStudyActive := st.(isStudyActive);
         selectedSubject := st.(selectedSubject); isLoading := st.(isLoading) |}
  | SetStreak f =>
      {| studyTime := st.(studyTime); streak := f st.(streak);
         isStudyActive := st.(isStudyActive);
         selectedSubject := st.(selectedSubject); isLoading := st.(isLoading) |}
  | SetIsStudyActive b =>
      {| studyTime := st.(studyTime); streak := st.(streak);
         isStudyActive := b;
         selectedSubject := st.(selectedSubject); isLoading := st.(isLoading) |}
  | SetSelectedSubject s =>
      {| studyTime := st.(studyTime); streak := st.(streak);
         isStudyActive := st.(isStudyActive);
         selectedSubject := s; isLoading := st.(isLoading) |}
  end.

(** The state of the next render. *)
Definition commit (st : State) (us : list update) : State :=
  fold_left apply us st.

Definition sets_studyTime (u : update) : bool :=
  match u with SetStudyTime _ => true | _ => false end.

Definition sets_streak (u : update) : bool :=
  match u with SetStreak _ => true | _ => false end.

Section Page.
Variable Date_parse : string -> option Z.
Variable tz : Z.
Variable stringify_sessions : list StudySession -> string.
Variable stringify_streak : StudyStreak -> string.

(** [Math.floor((today.getTime() - lastStudy.getTime()) / (1000*60*60*24))]
    after both dates were moved to local midnight; [None] is NaN. *)
Definition timeDiff (now : Z) (lastStudyDate : string) : option Z :=
  let today := JSDate.setHours0 tz now in
  match Date_parse lastStudyDate with
  | Some t =>
      let lastStudy := JSDate.setHours0 tz t in
      Some ((today - lastStudy) / JSDate.msPerDay)
  | None => None
  end.

(** [timeDiff <= 1]; false for NaN. *)
Definition continues (d : option Z) : bool :=
  match d with Some n => n <=? 1 | None => false end.

(** [st] is the state the handler closes over, [now] the clock and
    [uuid] the value of [crypto.randomUUID()]. The guard returns before the
    [try]; past it nothing in the body throws here, so the [catch] is never
    entered and the [finally] clears the two flags. *)
Definition handleStudySessionComplete
           (st : State) (now : Z) (uuid : string) (minutes : Z) : list update :=
  if minutes <=? 0 then []
  else
    let newSession :=
      {| session_id := uuid;
         date := JSDate.toISOString now;
         durationMinutes := minutes;
         subject := if JS.truthy (Some st.(selectedSubject))
                    then st.(selectedSubject) else "General" |} in
    let today := JSDate.setHours0 tz now in
    [ SetStudyTime (fun prev => (prev ++ [newSession])%list);
      (if continues (timeDiff now st.(streak).(lastStudyDate)) then
         SetStreak (fun prev =>
           {| currentStreak := prev.(currentStreak) + 1;
              bestStreak := Z.max prev.(bestStreak) (prev.(currentStreak) + 1);
              lastStudyDate := JSDate.toISOString today |})
       else
         SetStreak (fun _ =>
           {| currentStreak := 1;
              bestStreak := st.(streak).(bestStreak);
              lastStudyDate := JSDate.toISOString today |}));
      SetIsStudyActive false;
      SetSelectedSubject "" ].

(** Modelled from the spec: [utils/storage] is not among the sources;
    [setToStorage(key, value)] stores the serialised value under the
    key. The two effects run after a render in which their dependency
    was set, unless the page is still loading. *)
Definition runEffects (us : list update) (st : State) (ls : gmap string string)
  : gmap string string :=
  if st.(isLoading) then ls
  else
    let ls1 := if existsb sets_studyTime us
               then Storage.setItem ls "studyTime" (stringify_sessions st.(studyTime))
               else ls in
    if existsb sets_streak us
    then Storage.setItem ls1 "streak" (stringify_streak st.(streak))
    else ls1.

(** One call of the handler from a rendered state, the commit of its
    updates and the effects of the following render. *)
Definition completeSession (st : State) (ls : gmap string string)
           (now : Z) (uuid : string) (minutes : Z) : State * gmap string string :=
  let us := handleStudySessionComplete st now uuid minutes in
  let st' := commit st us in
  (st', runEffects us st' ls).

End Page.

(** The streak the page starts with when nothing is stored. *)
Definition defaultStreak (now : Z) : StudyStreak :=
  {| currentStreak := 0; bestStreak := 0;
     lastStudyDate := JSDate.toISOString now |}.

End Dashboard.

(* ================================================================== *)
(** ** SubjectStats component *)
(* ================================================================== *)

Module SubjectStats.

Record Subject : Type := {
  name : string;
  color : string;
  goalHoursPerWeek : Q
}.

Record StudySession : Type := {
  subject : string;
  durationMinutes : Z;
  date : string
}.

(** The module's sample data, [subject] and [sessions] in the source. *)
Definition the_subject : Subject :=
  {| name := "Math"; color := "#4F46E5"; goalHoursPerWeek := 10 |}.

Definition the_sessions : list StudySession :=
  [ {| subject := "Math"; durationMinutes := 120; date := "2025-04-12" |};
    {| subject := "Math"; durationMinutes := 60; date := "2025-04-13" |};
    {| subject := "Math"; durationMinutes := 45; date := "2025-04-06" |} ].

Inductive timeframe : Type := week | month | all.

(** [Array.prototype.sort] is stable; a comparator result of NaN counts
    as +0. Insertion from the right keeps equal elements in their order. *)
Section Sort.
Context {A : Type}.
Variable compareFn : A -> A -> option Z.

Definition sortCompare (x y : A) : comparison :=
  match compareFn x y with
  | Some v => v ?= 0
  | None => Eq
  end.

Fixpoint insert (x : A) (l : list A) : list A :=
  match l with
  | [] => [x]
  | y :: l' =>
      match sortCompare x y with
      | Gt => y :: insert x l'
      | _ => x :: l
      end
  end.

Definition sort (l : list A) : list A := fold_right insert [] l.
End Sort.

Section Component.
Variable Date_parse : string -> option Z.
Variable tz : Z.

Definition ofSubject (subj : Subject) (s : StudySession) : bool :=
  String.eqb s.(subject) subj.(name).

Definition sameMonth (now : Z) (s : StudySession) : bool :=
  match Date_parse s.(date) with
  | Some d =>
      let cd := JSDate.localCivil tz d in
      let cn := JSDate.localCivil tz now in
      (cd.(JSDate.month) =? cn.(JSDate.month))
      && (cd.(JSDate.year) =? cn.(JSDate.year))
  | None => false
  end.

Definition getFilteredSessions (tf : timeframe) (now : Z)
           (subj : Subject) (sessions : list StudySession) : list StudySession :=
  let subjectSessions := List.filter (ofSubject subj) sessions in
  match tf with
  | week =>
      List.filter
        (fun s =>
           let d := Date_parse s.(date) in
           date_ge d (DateFns.startOfWeek tz now)
           && date_le d (DateFns.endOfWeek tz now))
        subjectSessions
  | month => List.filter (sameMonth now) subjectSessions
  | all => subjectSessions
  end.

Definition totalMinutes (tf : timeframe) (now : Z)
           (subj : Subject) (sessions : list StudySession) : Z :=
  reduce_sum durationMinutes (getFilteredSessions tf now subj sessions).

Definition totalHours (tf : timeframe) (now : Z)
           (subj : Subject) (sessions : list StudySession) : JS.number :=
  JS.div (JS.of_Z (totalMinutes tf now subj sessions)) (JS.of_Z 60).

(** [(totalHours / subject.goalHoursPerWeek) * 100] *)
Definition goalProgress (tf : timeframe) (now : Z)
           (subj : Subject) (sessions : list StudySession) : JS.number :=
  JS.mul (JS.div (totalHours tf now subj sessions)
                 (JS.Fin subj.(goalHoursPerWeek)))
         (JS.Fin 100).

(** [new Date(b.date).getTime() - new Date(a.date).getTime()] *)
Definition byDateDesc (a b : StudySession) : option Z :=
  match Date_parse b.(date), Date_parse a.(date) with
  | Some tb, Some ta => Some (tb - ta)
  | _, _ => None
  end.

Definition previousSessions (subj : Subject) (sessions : list StudySession)
  : list StudySession :=
  sort byDateDesc (List.filter (ofSubject subj) sessions).

Definition trend (subj : Subject) (sessions : list StudySession) : Z :=
  let ps := previousSessions subj sessions in
  if (2 <=? length ps)%nat then
    match ps with
    | p0 :: p1 :: _ => p0.(durationMinutes) - p1.(durationMinutes)
    | _ => 0
    end
  else 0.

End Component.
End SubjectStats.

(* ================================================================== *)
(** ** Tasks page *)
(* ================================================================== *)

Module Tasks.
Import Types.

Section Page.
Variable parse_tasks : string -> JS.completion (list Task).
Variable stringify_tasks : list Task -> string.

(** [useState<Task[]>(() => ...)] *)
Definition init (ls : gmap string string) : JS.completion (list Task) :=
  Storage.initial_state parse_tasks ls "tasks" [].

(** [useEffect(() => localStorage.setItem('tasks', ...), [tasks])] *)
Definition persist (tasks : list Task) (ls : gmap string string)
  : gmap string string :=
  Storage.setItem ls "tasks" (stringify_tasks tasks).
End Page.

(** [{ ...task, completed: !task.completed }] *)
Definition toggled (task : Task) : Task :=
  {| task_id := task.(task_id);
     title := task.(title);
     task_description := task.(task_description);
     dueDate := task.(dueDate);
     completed := negb task.(completed) |}.

Definition handleTaskComplete (tasks : list Task) (taskId : string) : list Task :=
  List.map (fun task => if String.eqb task.(task_id) taskId then toggled task else task)
           tasks.

Definition handleDeleteTask (tasks : list Task) (taskId : string) : list Task :=
  List.filter (fun task => negb (String.eqb task.(task_id) taskId)) tasks.

End Tasks.

(* ================================================================== *)
(** ** Analytics page *)
(* ================================================================== *)

Module Analytics.

Record StudySession : Type := {
  date : string;
  durationMinutes : Z;
  subject : string
}.

Record Bar : Type := { label : string; minutes : Z }.

Section Page.
Variable tz : Z.

(** [getStudySessions]: the read of the [studyTime] key; [convert] is
    the [map] over the parsed array. The caller, [loadStudySessions],
    catches a throw and shows the error screen. *)
Definition getStudySessions {R S : Type}
           (parse : string -> JS.completion (list R)) (convert : R -> S)
           (ls : gmap string string) : JS.completion (list S) :=
  let raw := Storage.getItem ls "studyTime" in
  if negb (JS.truthy raw) then JS.Return []
  else
    match raw with
    | Some s =>
        match parse s with
        | JS.Return parsed => JS.Return (List.map convert parsed)
        | JS.Throw e => JS.Throw e
        end
    | None => JS.Return []
    end.

(** The body of the [Array.from] callback for index [i]. *)
Definition dayBar (now : Z) (studyTime : list StudySession) (i : Z) : Bar :=
  let day := DateFns.subDays now i in
  let dateStr := DateFns.format_yyyy_MM_dd tz day in
  let minutes :=
    reduce_sum durationMinutes
      (List.filter (fun session => String.eqb session.(date) dateStr) studyTime) in
  {| label := DateFns.format_MMM_d tz day; minutes := minutes |}.

(** [Array.from({ length: 7 }, (_, i) => ...).reverse()] *)
Definition last7Days (now : Z) (studyTime : list StudySession) : list Bar :=
  rev (List.map (fun i => dayBar now studyTime (Z.of_nat i)) (seq 0 7)).

Definition totalMinutes (studyTime : list StudySession) : Z :=
  reduce_sum durationMinutes studyTime.

End Page.
End Analytics.

(* ================================================================== *)
(** ** More of the runtime: numbers, strings, insertion-ordered sets *)
(* ================================================================== *)

Module JSNum.

(** [x + y] *)
Definition add (x y : JS.number) : JS.number :=
  match x, y with
  | JS.NaN, _ | _, JS.NaN => JS.NaN
  | JS.Fin a, JS.Fin b => JS.Fin (a + b)
  | JS.PosInf, JS.NegInf | JS.NegInf, JS.PosInf => JS.NaN
  | JS.PosInf, _ | _, JS.PosInf => JS.PosInf
  | JS.NegInf, _ | _, JS.NegInf => JS.NegInf
  end.

(** [- x] *)
Definition neg (x : JS.number) : JS.number :=
  match x with
  | JS.Fin a => JS.Fin (- a)
  | JS.PosInf => JS.NegInf
  | JS.NegInf => JS.PosInf
  | JS.NaN => JS.NaN
  end.

(** [x - y] *)
Definition sub (x y : JS.number) : JS.number := add x (neg y).

(** Truthiness of a number: 0 and NaN are falsy. *)
Definition truthy (x : JS.number) : bool :=
  match x with
  | JS.Fin a => negb (Qeq_bool a 0)
  | JS.NaN => false
  | _ => true
  end.

(** [x || d] *)
Definition or_else (x d : JS.number) : JS.number := if truthy x then x else d.

(** [Math.max(x, y)]: NaN when either argument is NaN. *)
Definition max (x y : JS.number) : JS.number :=
  match x, y with
  | JS.NaN, _ | _, JS.NaN => JS.NaN
  | JS.PosInf, _ | _, JS.PosInf => JS.PosInf
  | JS.NegInf, z | z, JS.NegInf => z
  | JS.Fin a, JS.Fin b => if Qle_bool a b then JS.Fin b else JS.Fin a
  end.

(** [Math.max(...l)]; -Infinity for the empty list. *)
Definition max_list (l : list JS.number) : JS.number := fold_left max l JS.NegInf.

(** What [Array.prototype.sort] makes of a comparator's result: its sign,
    none for NaN. *)
Definition sort_key (x : JS.number) : option Z :=
  match x with
  | JS.Fin a => Some (match (a ?= 0)%Q with Lt => -1 | Eq => 0 | Gt => 1 end)
  | JS.PosInf => Some 1
  | JS.NegInf => Some (-1)
  | JS.NaN => None
  end.

(** [Number.MAX_SAFE_INTEGER]: up to here every integer is a double. *)
Definition MAX_SAFE_INTEGER : Z := 2 ^ 53 - 1.

(** The distance between neighbouring doubles at [n > MAX_SAFE_INTEGER]. *)
Definition ulp (n : Z) : Z := 2 ^ (Z.log2 n - 52).

(** The double nearest to an integer [n >= 0], ties to the even mantissa:
    the number that an integer beyond [MAX_SAFE_INTEGER] stands for. *)
Definition toDouble (n : Z) : Z :=
  if n <=? MAX_SAFE_INTEGER then n
  else
    let u := ulp n in
    let q := n / u in
    let r := n mod u in
    let m := if 2 * r <? u then q
             else if u <? 2 * r then q + 1
             else if Z.even q then q else q + 1 in
    m * u.

(** Whether the decimal [v] reads back as the double [x > MAX_SAFE_INTEGER]:
    [v] is no further from [x] than half the way to the neighbouring
    doubles (a quarter of [ulp x] below a power of two), the end points
    counting for an even mantissa. Compared after scaling by 4. *)
Definition readsBack (x v : Z) : bool :=
  let u := ulp x in
  let lo4 := 4 * x - (if x =? 2 ^ Z.log2 x then u else 2 * u) in
  let hi4 := 4 * x + 2 * u in
  if Z.even (x / u) then (lo4 <=? 4 * v) && (4 * v <=? hi4)
  else (lo4 <? 4 * v) && (4 * v <? hi4).

Definition numDigits (n : Z) : nat := String.length (JSDate.decimal n).

(** The decimal with the most trailing zeros, at most [j], that reads back
    as [x]; of two such decimals the nearer to [x], of two equally near the
    one with the even last digit. *)
Fixpoint shortest_from (x : Z) (j : nat) : Z :=
  match j with
  | O => x
  | S j' =>
      let scale := 10 ^ Z.of_nat j in
      let a := (x / scale) * scale in
      let b := a + scale in
      match readsBack x a, readsBack x b with
      | true, true =>
          if x - a <? b - x then a
          else if b - x <? x - a then b
          else if Z.even (a / scale) then a else b
      | true, false => a
      | false, true => b
      | false, false => shortest_from x j'
      end
  end.

(** The decimal of the fewest significant digits that identifies the
    double [x]. *)
Definition shortest (x : Z) : Z := shortest_from x (numDigits x - 1).

Fixpoint dropZeros (fuel : nat) (v : Z) : Z :=
  match fuel with
  | O => v
  | S fuel' => if v mod 10 =? 0 then dropZeros fuel' (v / 10) else v
  end.

(** Exponent form, [d.ddde+n]: the significant digits of [v > 0] and the
    number of digits that follow the first. *)
Definition exponential (v : Z) : string :=
  let e := JSDate.decimal (Z.of_nat (numDigits v) - 1) in
  match JSDate.decimal (dropZeros (numDigits v) v) with
  | EmptyString => EmptyString
  | String d EmptyString => String d ("e+" ++ e)
  | String d rest => String d ("." ++ rest ++ "e+" ++ e)
  end.

(** [String(n)], also [`${n}`], for [n >= 0]. Up to [MAX_SAFE_INTEGER] the
    integer is printed in full. Beyond, the digits printed are the shortest
    that identify the double: followed by zeros below 10^21, in exponent
    form from 10^21 on. *)
Definition toStringAbs (n : Z) : string :=
  if n <=? MAX_SAFE_INTEGER then JSDate.decimal n
  else
    let x := toDouble n in
    if 2 ^ 1024 <=? x then "Infinity"
    else
      let v := shortest x in
      if v <? 10 ^ 21 then JSDate.decimal v else exponential v.

(** [String(n)] for an integer-valued number. *)
Definition toString (n : Z) : string :=
  if n <? 0 then "-" ++ toStringAbs (- n) else toStringAbs n.

End JSNum.

(** Strings are sequences of 8-bit code units (Latin-1). *)
Module JSString.

(** [String(n)] for an integer. *)
Definition of_int (n : Z) : string :=
  if n <? 0 then "-" ++ JSDate.decimal (- n) else JSDate.decimal n.

(** White space and line terminators among the first 256 code units:
    TAB, LF, VT, FF, CR, SP and NBSP. *)
Definition isWhiteSpace (c : ascii) : bool :=
  let n := nat_of_ascii c in
  ((9 <=? n) && (n <=? 13) || (n =? 32) || (n =? 160))%nat.

(** [!s.trim()]: the string is empty once trimmed. *)
Fixpoint isBlank (s : string) : bool :=
  match s with
  | EmptyString => true
  | String c s' => isWhiteSpace c && isBlank s'
  end.

Fixpoint startsWith (p s : string) : bool :=
  match p, s with
  | EmptyString, _ => true
  | String a p', String b s' => Ascii.eqb a b && startsWith p' s'
  | String _ _, EmptyString => false
  end.

(** [s.slice(n)] *)
Fixpoint drop (n : nat) (s : string) : string :=
  match n, s with
  | O, _ => s
  | S n', String _ s' => drop n' s'
  | S _, EmptyString => EmptyString
  end.

(** [s.includes(p)] *)
Fixpoint includes (s p : string) : bool :=
  startsWith p s ||
  match s with
  | EmptyString => false
  | String _ s' => includes s' p
  end.

(** The longest prefix of characters that satisfy [f], and the rest. *)
Fixpoint span (f : ascii -> bool) (s : string) : string * string :=
  match s with
  | EmptyString => (EmptyString, EmptyString)
  | String c s' =>
      if f c then let '(a, b) := span f s' in (String c a, b)
      else (EmptyString, s)
  end.

(** Leftmost match: the first suffix of [s] at which [attempt] succeeds. *)
Fixpoint search {R} (attempt : string -> option R) (s : string) : option R :=
  match attempt s with
  | Some r => Some r
  | None =>
      match s with
      | EmptyString => None
      | String _ s' => search attempt s'
      end
  end.

Definition isDigit (c : ascii) : bool :=
  match JSDate.digit c with Some _ => true | None => false end.

End JSString.

(** A [Set] of strings: its elements in insertion order, without
    repetition. *)
Module JSSet.

Definition has (s : list string) (x : string) : bool := bool_decide (x ∈ s).

Definition add (s : list string) (x : string) : list string :=
  if has s x then s else (s ++ [x])%list.

Definition delete (s : list string) (x : string) : list string :=
  List.filter (fun y => negb (String.eqb y x)) s.

(** [new Set(iterable)] *)
Definition of_list (l : list string) : list string := fold_left add l [].

Definition size (s : list string) : nat := length s.

End JSSet.

(* ================================================================== *)
(** ** Subjects page: the remaining handlers and derived values *)
(* ================================================================== *)

Module SubjectsOps.
Import Types.

(** [Omit<Subject, 'id'>], the shape of the manager's form data. *)
Record SubjectData : Type := {
  d_name : string;
  d_description : option string;
  d_color : string;
  d_goalHoursPerWeek : Q
}.

(** What the spread of a whole subject contributes besides its id. *)
Definition data_of (s : Subject) : SubjectData :=
  {| d_name := s.(name); d_description := s.(description);
     d_color := s.(color); d_goalHoursPerWeek := s.(goalHoursPerWeek) |}.

(** [{ ...subjectData, id: crypto.randomUUID() }] *)
Definition newSubject (uuid : string) (subjectData : SubjectData) : Subject :=
  {| subject_id := uuid;
     name := subjectData.(d_name);
     description := subjectData.(d_description);
     color := subjectData.(d_color);
     goalHoursPerWeek := subjectData.(d_goalHoursPerWeek) |}.

(** [setSubjects([...subjects, newSubject])]; [st] is the rendered state
    the handler closes over. *)
Definition handleAddSubject (st : Subjects.State) (uuid : string)
           (subjectData : SubjectData) : Subjects.State :=
  {| Subjects.subjects := (st.(Subjects.subjects) ++ [newSubject uuid subjectData])%list;
     Subjects.studySessions := st.(Subjects.studySessions) |}.

(** [{ ...subject, ...subjectData }] *)
Definition merged (s : Subject) (subjectData : SubjectData) : Subject :=
  {| subject_id := s.(subject_id);
     name := subjectData.(d_name);
     description := subjectData.(d_description);
     color := subjectData.(d_color);
     goalHoursPerWeek := subjectData.(d_goalHoursPerWeek) |}.

Definition handleEditSubject (st : Subjects.State) (id : string)
           (subjectData : SubjectData) : Subjects.State :=
  {| Subjects.subjects :=
       List.map (fun s => if String.eqb s.(subject_id) id then merged s subjectData else s)
                st.(Subjects.subjects);
     Subjects.studySessions := st.(Subjects.studySessions) |}.

(** Several calls of plain (non-functional) setters in one event all start
    from the same rendered state; the next render shows the value of the
    last call, or the old state when there was none. *)
Definition lastSet {A} (rendered : A) (calls : list A) : A := List.last calls rendered.

Inductive sortKey : Type := byName | byProgress.

Section Derived.
Variable Date_parse : string -> option Z.
Variable tz : Z.
(** [a.localeCompare(b)] *)
Variable localeCompare : string -> string -> Z.

(** [subjects.reduce((total, subject) => total + getWeeklyProgress(subject.name), 0)] *)
Definition totalWeeklyHours (now : Z) (st : Subjects.State) : JS.number :=
  fold_left
    (fun total s =>
       JSNum.add total
         (Subjects.getWeeklyProgress Date_parse tz now st.(Subjects.studySessions) s.(name)))
    st.(Subjects.subjects) (JS.Fin 0).

(** [!filterColor || subject.color === filterColor] *)
Definition colorMatches (filterColor : option string) (s : Subject) : bool :=
  negb (JS.truthy filterColor)
  || match filterColor with
     | Some c => String.eqb s.(color) c
     | None => false
     end.

Definition compareSubjects (sortBy : sortKey) (now : Z) (st : Subjects.State)
           (a b : Subject) : option Z :=
  match sortBy with
  | byName => Some (localeCompare a.(name) b.(name))
  | byProgress =>
      let progress s :=
        JS.div (Subjects.getWeeklyProgress Date_parse tz now
                  st.(Subjects.studySessions) s.(name))
               (JS.Fin s.(goalHoursPerWeek)) in
      JSNum.sort_key (JSNum.sub (progress b) (progress a))
  end.

(** [[...subjects].filter(...).sort(...)] *)
Definition sortedSubjects (filterColor : option string) (sortBy : sortKey)
           (now : Z) (st : Subjects.State) : list Subject :=
  SubjectStats.sort (compareSubjects sortBy now st)
                    (List.filter (colorMatches filterColor) st.(Subjects.subjects)).

End Derived.
End SubjectsOps.

(* ================================================================== *)
(** ** SubjectManager component *)
(* ================================================================== *)

Module SubjectManager.
Import Types.

Definition COLORS : list string :=
  ["#FF6B6B"; "#4ECDC4"; "#45B7D1"; "#96CEB4"; "#FFEEAD";
   "#D4A5A5"; "#9E9E9E"; "#58B19F"; "#FFB6B9"; "#BAD7DF"].

Record FormData : Type := {
  f_name : string;
  f_description : string;
  f_color : string;
  f_goalHoursPerWeek : Z
}.

(** [{ name: '', description: '', color: COLORS[0], goalHoursPerWeek: 5 }] *)
Definition emptyForm : FormData :=
  {| f_name := ""; f_description := ""; f_color := nth 0 COLORS "";
     f_goalHoursPerWeek := 5 |}.

Definition toData (f : FormData) : SubjectsOps.SubjectData :=
  {| SubjectsOps.d_name := f.(f_name);
     SubjectsOps.d_description := Some f.(f_description);
     SubjectsOps.d_color := f.(f_color);
     SubjectsOps.d_goalHoursPerWeek := inject_Z f.(f_goalHoursPerWeek) |}.

Record State : Type := {
  editingId : option string;
  formData : FormData;
  selectedSubjects : list string;
  deletedSubjects : list Subject;
  startTimes : gmap string Z;
  timers : gmap string Z;
  progressMap : gmap string Q
}.

Definition with_selection (m : State) (sel : list string) : State :=
  {| editingId := m.(editingId); formData := m.(formData);
     selectedSubjects := sel; deletedSubjects := m.(deletedSubjects);
     startTimes := m.(startTimes); timers := m.(timers);
     progressMap := m.(progressMap) |}.

(** [!startTimes[id]]: no entry, or an entry of 0. *)
Definition notStarted (startTimes : gmap string Z) (id : string) : bool :=
  match startTimes !! id with
  | Some t => t =? 0
  | None => true
  end.

(** Hours, minutes and seconds of [formatElapsed]; [%] is the remainder
    that takes the sign of the dividend. *)
Definition elapsedParts (elapsed : Z) : Z * Z * Z :=
  let totalSeconds := elapsed / 1000 in
  let hrs := totalSeconds / 3600 in
  let mins := Z.rem totalSeconds 3600 / 60 in
  let secs := Z.rem totalSeconds 60 in
  (hrs, mins, secs).

(** [formatElapsed(id)] at clock [now]; [None] is [null]. *)
Definition formatElapsed (m : State) (now : Z) (id : string) : option string :=
  if notStarted m.(startTimes) id then None
  else
    match m.(startTimes) !! id with
    | Some start =>
        let '(hrs, mins, secs) := elapsedParts (now - start) in
        Some (JSString.of_int hrs ++ "h " ++ JSString.of_int mins ++ "m "
                ++ JSString.of_int secs ++ "s")
    | None => None
    end.

Definition toggleSubjectSelection (m : State) (subjectId : string) : State :=
  let newSelection := m.(selectedSubjects) in
  with_selection m
    (if JSSet.has newSelection subjectId
     then JSSet.delete newSelection subjectId
     else JSSet.add newSelection subjectId).

(** [subjects] is the prop of the current render. *)
Definition toggleSelectAll (subjects : list Subject) (m : State) : State :=
  with_selection m
    (if (JSSet.size m.(selectedSubjects) =? length subjects)%nat
     then []
     else JSSet.of_list (List.map subject_id subjects)).

(** [handleBulkDelete]: every [onDeleteSubject(id)] is the parent's
    [handleDeleteSubject] of the same render, a plain [setSubjects]; none of
    them throws, so the selection is cleared afterwards. *)
Definition handleBulkDelete (parent : Subjects.State) (m : State)
  : Subjects.State * State :=
  let toDelete :=
    List.filter (fun s => JSSet.has m.(selectedSubjects) s.(subject_id))
                parent.(Subjects.subjects) in
  let calls := List.map (Subjects.handleDeleteSubject parent) m.(selectedSubjects) in
  (SubjectsOps.lastSet parent calls,
   {| editingId := m.(editingId); formData := m.(formData);
      selectedSubjects := []; deletedSubjects := toDelete;
      startTimes := m.(startTimes); timers := m.(timers);
      progressMap := m.(progressMap) |}).

(** [handleUndoBulkDelete] run from the render with parent state [parent]
    and manager state [m]; [uuids] are the successive values of
    [crypto.randomUUID()]. *)
Definition handleUndoBulkDelete (parent : Subjects.State) (m : State)
           (uuids : list string) : Subjects.State * State :=
  if (length m.(deletedSubjects) =? 0)%nat then (parent, m)
  else
    let calls :=
      List.map (fun '(s, uuid) =>
                  SubjectsOps.handleAddSubject parent uuid (SubjectsOps.data_of s))
               (zip m.(deletedSubjects) uuids) in
    (SubjectsOps.lastSet parent calls,
     {| editingId := m.(editingId); formData := m.(formData);
        selectedSubjects := m.(selectedSubjects); deletedSubjects := [];
        startTimes := m.(startTimes); timers := m.(timers);
        progressMap := m.(progressMap) |}).

(** The form's submit handler; [None] when the name is empty and the
    submission is refused with a message. *)
Definition handleSubmit (parent : Subjects.State) (m : State) (uuid : string)
  : option (Subjects.State * State) :=
  if negb (JS.truthy (Some m.(formData).(f_name))) then None
  else
    let reset e :=
      {| editingId := e; formData := emptyForm;
         selectedSubjects := m.(selectedSubjects);
         deletedSubjects := m.(deletedSubjects);
         startTimes := m.(startTimes); timers := m.(timers);
         progressMap := m.(progressMap) |} in
    if JS.truthy m.(editingId) then
      match m.(editingId) with
      | Some id =>
          Some (SubjectsOps.handleEditSubject parent id (toData m.(formData)), reset None)
      | None => None
      end
    else
      Some (SubjectsOps.handleAddSubject parent uuid (toData m.(formData)),
            reset m.(editingId)).

(** [Math.max(0, parseInt(e.target.value) || 0)] with the result of
    [parseInt] given ([None] is NaN). *)
Definition goalInput (parsed : option Z) : Z :=
  Z.max 0 (match parsed with
           | Some n => if n =? 0 then 0 else n
           | None => 0
           end).

Definition handleStart (m : State) (now : Z) (id : string) : State :=
  {| editingId := m.(editingId); formData := m.(formData);
     selectedSubjects := m.(selectedSubjects);
     deletedSubjects := m.(deletedSubjects);
     startTimes := <[id := now]> m.(startTimes);
     timers := <[id := 0]> m.(timers);
     progressMap := m.(progressMap) |}.

(** [handleStop]; [(prev[id] || 0) + elapsedHours] with
    [elapsedHours = elapsedMs / (1000 * 60 * 60)]. *)
Definition handleStop (m : State) (now : Z) (id : string) : State :=
  if notStarted m.(startTimes) id then m
  else
    match m.(startTimes) !! id with
    | Some start =>
        let elapsedMs := now - start in
        let elapsedHours := (inject_Z elapsedMs / inject_Z (1000 * 60 * 60))%Q in
        {| editingId := m.(editingId); formData := m.(formData);
           selectedSubjects := m.(selectedSubjects);
           deletedSubjects := m.(deletedSubjects);
           startTimes := delete id m.(startTimes);
           timers := delete id m.(timers);
           progressMap :=
             <[id := (default 0%Q (m.(progressMap) !! id) + elapsedHours)%Q]>
               m.(progressMap) |}
    | None => m
    end.

(** The card's [Math.min((progress / subject.goalHoursPerWeek) * 100, 100)]
    with [progress = progressMap[subject.id] || 0]. *)
Definition cardPercent (m : State) (s : Subject) : JS.number :=
  let progress := default 0%Q (m.(progressMap) !! s.(subject_id)) in
  JS.min (JS.mul (JS.div (JS.Fin progress) (JS.Fin s.(goalHoursPerWeek))) (JS.Fin 100))
         (JS.Fin 100).

End SubjectManager.

(* ================================================================== *)
(** ** Tasks page: the remaining handlers and the filtered view *)
(* ================================================================== *)

Module TasksOps.
Import Types.

(** [Omit<Task, 'id' | 'completed'>] *)
Record TaskData : Type := {
  t_title : string;
  t_description : string;
  t_dueDate : string
}.

Definition handleCreateTask (tasks : list Task) (uuid : string) (taskData : TaskData)
  : list Task :=
  (tasks ++ [ {| task_id := uuid;
                 title := taskData.(t_title);
                 task_description := taskData.(t_description);
                 dueDate := taskData.(t_dueDate);
                 completed := false |} ])%list.

(** [{ ...task, ...taskData, completed: task.completed }] *)
Definition updated (task : Task) (taskData : TaskData) : Task :=
  {| task_id := task.(task_id);
     title := taskData.(t_title);
     task_description := taskData.(t_description);
     dueDate := taskData.(t_dueDate);
     completed := task.(completed) |}.

(** [editingTask] is [None] for [null]: the handler returns at once. *)
Definition handleUpdateTask (tasks : list Task) (editingTask : option Task)
           (taskData : TaskData) : list Task :=
  match editingTask with
  | None => tasks
  | Some e =>
      List.map (fun task => if String.eqb task.(task_id) e.(task_id)
                            then updated task taskData else task)
               tasks
  end.

Inductive filterKey : Type := all | onlyCompleted | onlyPending.

Definition statusMatches (filter : filterKey) (task : Task) : bool :=
  match filter with
  | onlyCompleted => task.(completed)
  | onlyPending => negb task.(completed)
  | all => true
  end.

Definition completedCount (tasks : list Task) : nat :=
  length (List.filter completed tasks).

Section View.
Variable Date_parse : string -> option Z.
Variable tz : Z.
(** [s.toLowerCase()] *)
Variable toLowerCase : string -> string.

Definition searchMatches (search : string) (task : Task) : bool :=
  JSString.includes (toLowerCase task.(title)) (toLowerCase search).

(** [new Date(a.dueDate).getTime() - new Date(b.dueDate).getTime()] *)
Definition byDueDate (a b : Task) : option Z :=
  match Date_parse a.(dueDate), Date_parse b.(dueDate) with
  | Some ta, Some tb => Some (ta - tb)
  | _, _ => None
  end.

Definition filteredTasks (filter : filterKey) (search : string) (tasks : list Task)
  : list Task :=
  SubjectStats.sort byDueDate
    (List.filter (searchMatches search) (List.filter (statusMatches filter) tasks)).

(** [!task.completed && isPast(new Date(task.dueDate))
     && !isToday(new Date(task.dueDate))]; [isPast] is "before now" and
    [isToday] "on the local calendar day of now"; both are false for an
    Invalid Date. *)
Definition isOverdue (now : Z) (task : Task) : bool :=
  negb task.(completed)
  && match Date_parse task.(dueDate) with
     | Some t => (t <? now) && negb (JSDate.localDay tz t =? JSDate.localDay tz now)
     | None => false
     end.

End View.
End TasksOps.

(* ================================================================== *)
(** ** Dashboard page: the weekly streak row *)
(* ================================================================== *)

Module WeeklyStreak.
Import Types.

Definition dayLabels : list string :=
  ["Sun"; "Mon"; "Tue"; "Wed"; "Thu"; "Fri"; "Sat"].

(** [d.toDateString()], [Www Mmm dd yyyy] in local time. *)
Definition toDateString (tz : Z) (d : option Z) : string :=
  match d with
  | None => "Invalid Date"
  | Some t =>
      let c := JSDate.localCivil tz t in
      nth (Z.to_nat (JSDate.getDay tz t)) dayLabels "" ++ " "
        ++ DateFns.monthAbbr c.(JSDate.month) ++ " "
        ++ JSDate.padStart0 c.(JSDate.mday) 2 ++ " "
        ++ (if c.(JSDate.year) <? 0 then "-" else "")
        ++ JSDate.padStart0 (Z.abs c.(JSDate.year)) 4
  end.

Section Row.
Variable Date_parse : string -> option Z.
Variable tz : Z.

(** [startOfWeek.setDate(today.getDate() - today.getDay())]: the clock
    time of [today], moved back to Sunday. *)
Definition weekStart (today : Z) : Z :=
  JSDate.addDays today (- JSDate.getDay tz today).

(** The body of the [forEach]. *)
Definition mark (today : Z) (dailyStudyMap : list bool) (session : StudySession)
  : list bool :=
  let sessionDate := Date_parse session.(date) in
  match sessionDate with
  | Some t =>
      let dayIndex := Z.to_nat (JSDate.getDay tz t) in
      if date_ge sessionDate (weekStart today)
         && date_le sessionDate today
         && negb (default false (dailyStudyMap !! dayIndex))
      then <[dayIndex := true]> dailyStudyMap
      else dailyStudyMap
  | None => dailyStudyMap
  end.

Definition studiedToday (today : Z) (studyTime : list StudySession) : bool :=
  existsb (fun session =>
             String.eqb (toDateString tz (Date_parse session.(date)))
                        (toDateString tz (Some today)))
          studyTime.

(** The seven flags the row renders. *)
Definition dailyStudyMap (today : Z) (studyTime : list StudySession) : list bool :=
  let m := fold_left (mark today) studyTime (replicate 7 false) in
  let todayIndex := Z.to_nat (JSDate.getDay tz today) in
  if studiedToday today studyTime then <[todayIndex := true]> m else m.

End Row.
End WeeklyStreak.

(* ================================================================== *)
(** ** Analytics page: loading the sessions, average and bar heights *)
(* ================================================================== *)

Module AnalyticsLoad.

(** What [getStudySessions] makes of a stored session. *)
Record Note : Type := { content : string; created_at : string }.

Definition LF : string := String (ascii_of_nat 10) EmptyString.

(** [`Subject: ${session.subject}\nDuration: ${session.durationMinutes} minutes`]
    and [session.date || new Date().toISOString()] *)
Definition toNote (now : Z) (session : Types.StudySession) : Note :=
  {| content := "Subject: " ++ session.(Types.subject) ++ LF ++ "Duration: "
                  ++ JSNum.toString session.(Types.durationMinutes) ++ " minutes";
     created_at := if JS.truthy (Some session.(Types.date))
                   then session.(Types.date)
                   else JSDate.toISOString now |}.

(** One attempt of [/Duration: (\d+) minutes/] at the start of [s]: the
    digits are taken greedily, and giving some back cannot help because
    the next character must be a space. *)
Definition attemptDuration (s : string) : option string :=
  if JSString.startsWith "Duration: " s then
    let '(ds, rest) := JSString.span JSString.isDigit (JSString.drop 10 s) in
    if negb (String.eqb ds "") && JSString.startsWith " minutes" rest
    then Some ds else None
  else None.

(** [.] matches any character but a line terminator (LF and CR among the
    first 256). *)
Definition isDot (c : ascii) : bool :=
  negb ((nat_of_ascii c =? 10)%nat || (nat_of_ascii c =? 13)%nat).

(** One attempt of [/Subject: (.+?)(?:\n|$)/] at the start of [s]: the
    lazy group grows until a line feed or the end follows; it cannot grow
    over a carriage return. *)
Definition attemptSubject (s : string) : option string :=
  if JSString.startsWith "Subject: " s then
    let '(cs, rest) := JSString.span isDot (JSString.drop 9 s) in
    if negb (String.eqb cs "")
       && (String.eqb rest "" || JSString.startsWith LF rest)
    then Some cs else None
  else None.

(** The callback of [sessions.map] in [loadStudySessions]; [format] throws
    a RangeError on an Invalid Date. *)
Definition transform (Date_parse : string -> option Z) (tz : Z) (note : Note)
  : JS.completion Analytics.StudySession :=
  let durationMatch := JSString.search attemptDuration note.(content) in
  let subjectMatch := JSString.search attemptSubject note.(content) in
  match Date_parse note.(created_at) with
  | None => JS.Throw "RangeError: Invalid time value"
  | Some t =>
      JS.Return
        {| Analytics.date := DateFns.format_yyyy_MM_dd tz t;
           Analytics.durationMinutes :=
             match durationMatch with
             | Some ds => default 0 (JSDate.number_of ds)
             | None => 0
             end;
           Analytics.subject :=
             match subjectMatch with
             | Some subj => subj
             | None => "Unknown"
             end |}
  end.

(** [array.map(f)] for a callback that may throw. *)
Fixpoint map_throwing {A B} (f : A -> JS.completion B) (l : list A)
  : JS.completion (list B) :=
  match l with
  | [] => JS.Return []
  | x :: l' =>
      match f x with
      | JS.Throw e => JS.Throw e
      | JS.Return y =>
          match map_throwing f l' with
          | JS.Throw e => JS.Throw e
          | JS.Return ys => JS.Return (y :: ys)
          end
      end
  end.

Record PageState : Type := {
  studyTime : list Analytics.StudySession;
  isLoading : bool;
  error : option string
}.

(** The state the page starts with. *)
Definition initialState : PageState :=
  {| studyTime := []; isLoading := true; error := None |}.

(** [loadStudySessions], run once on mount. *)
Definition loadStudySessions (Date_parse : string -> option Z) (tz : Z)
           (parse : string -> JS.completion (list Types.StudySession))
           (now : Z) (ls : gmap string string) : PageState :=
  let attempt :=
    match Analytics.getStudySessions parse (toNote now) ls with
    | JS.Throw e => JS.Throw e
    | JS.Return sessions => map_throwing (transform Date_parse tz) sessions
    end in
  match attempt with
  | JS.Return transformedSessions =>
      {| studyTime := transformedSessions; isLoading := false; error := None |}
  | JS.Throw _ =>
      {| studyTime := []; isLoading := false;
         error := Some "Failed to load study data. Please try refreshing the page." |}
  end.

(** [Math.round(totalMinutes / 7)]: the nearest integer, halves upwards. *)
Definition averageMinutesPerDay (studyTime : list Analytics.StudySession) : Z :=
  (2 * Analytics.totalMinutes studyTime + 7) / 14.

(** The height of a bar, in percent:
    [(day.minutes / (Math.max(...last7Days.map(d => d.minutes)) || 1)) * 100] *)
Definition barHeight (bars : list Analytics.Bar) (day : Analytics.Bar) : JS.number :=
  JS.mul
    (JS.div (JS.of_Z day.(Analytics.minutes))
            (JSNum.or_else
               (JSNum.max_list (List.map (fun d => JS.of_Z d.(Analytics.minutes)) bars))
               (JS.Fin 1)))
    (JS.Fin 100).

End AnalyticsLoad.

(* ================================================================== *)
(** ** Profile page *)
(* ================================================================== *)

Module Profile.

Record Achievement : Type := { a_title : string; a_description : string }.

Inductive StudyTime : Type := morning | afternoon | evening | night.

Record StudyPreferences : Type := {
  preferredStudyTime : StudyTime;
  focusSessionDuration : Z;
  breakDuration : Z;
  dailyGoalHours : Z;
  notifications : bool;
  soundEffects : bool
}.

Record StudentProfile : Type := {
  name : string;
  email : string;
  bio : string;
  avatar : string;
  studyPreferences : StudyPreferences;
  achievements : list Achievement
}.

Definition defaultProfile : StudentProfile :=
  {| name := ""; email := ""; bio := ""; avatar := "";
     studyPreferences :=
       {| preferredStudyTime := morning; focusSessionDuration := 25;
          breakDuration := 5; dailyGoalHours := 4;
          notifications := true; soundEffects := true |};
     achievements := [] |}.

Record State : Type := {
  profile : StudentProfile;
  isEditing : bool;
  newAchievement : Achievement
}.

Definition with_achievements (p : StudentProfile) (l : list Achievement)
  : StudentProfile :=
  {| name := p.(name); email := p.(email); bio := p.(bio); avatar := p.(avatar);
     studyPreferences := p.(studyPreferences); achievements := l |}.

Definition addAchievement (st : State) : State :=
  if negb (JSString.isBlank st.(newAchievement).(a_title))
     && negb (JSString.isBlank st.(newAchievement).(a_description))
  then
    {| profile := with_achievements st.(profile)
                    (st.(profile).(achievements) ++ [st.(newAchievement)])%list;
       isEditing := st.(isEditing);
       newAchievement := {| a_title := ""; a_description := "" |} |}
  else st.

(** [list.filter((_, i) => i !== index)] *)
Definition filter_index {A} (index : nat) (l : list A) : list A :=
  List.map snd
    (List.filter (fun '(i, _) => negb (i =? index)%nat)
                 (List.combine (seq 0 (length l)) l)).

Definition removeAchievement (st : State) (index : nat) : State :=
  {| profile := with_achievements st.(profile)
                  (filter_index index st.(profile).(achievements));
     isEditing := st.(isEditing);
     newAchievement := st.(newAchievement) |}.

Section Persistence.
Variable JSON_parse : string -> JS.completion StudentProfile.
Variable JSON_stringify : StudentProfile -> string.

(** [saveProfile]; [refused] tells whether [localStorage.setItem] throws
    (quota exceeded, storage disabled): then [storage.set] rethrows, the
    [catch] reports it and the result is [false]. *)
Definition saveProfile (refused : bool) (updatedProfile : StudentProfile)
           (ls : gmap string string) : bool * gmap string string :=
  if refused then (false, ls)
  else (true, Storage.storage_set JSON_stringify ls "profile" updatedProfile).

(** [handleSaveChanges]: editing ends only when the save succeeded. *)
Definition handleSaveChanges (refused : bool) (st : State) (ls : gmap string string)
  : State * gmap string string :=
  let '(success, ls') := saveProfile refused st.(profile) ls in
  (if success
   then {| profile := st.(profile); isEditing := false;
           newAchievement := st.(newAchievement) |}
   else st,
   ls').

(** [handleCancelEdit]: the stored profile, or the default, replaces the
    edited one. *)
Definition handleCancelEdit (st : State) (ls : gmap string string) : State :=
  match Storage.storage_get JSON_parse ls "profile" defaultProfile with
  | JS.Return loadedProfile =>
      {| profile := loadedProfile; isEditing := false;
         newAchievement := st.(newAchievement) |}
  | JS.Throw _ => st
  end.

End Persistence.
End Profile.

(* ================================================================== *)
(** ** Notes hub *)
(* ================================================================== *)

Module NotesHub.

Record Note : Type := {
  id : string;
  title : string;
  content : string;
  lastUpdated : string
}.

Record State : Type := {
  notes : list Note;
  titleInput : string;
  contentInput : string;
  editingId : option string;
  editTitle : string;
  editContent : string
}.

(** [uuid] is [crypto.randomUUID()] and [stamp] is
    [new Date().toLocaleString()]; [None] when the input is refused. *)
Definition addNote (st : State) (uuid stamp : string) : option State :=
  if JSString.isBlank st.(titleInput) || JSString.isBlank st.(contentInput) then None
  else
    Some {| notes := {| id := uuid; title := st.(titleInput);
                        content := st.(contentInput); lastUpdated := stamp |}
                       :: st.(notes);
            titleInput := ""; contentInput := "";
            editingId := st.(editingId); editTitle := st.(editTitle);
            editContent := st.(editContent) |}.

Definition deleteNote (st : State) (noteId : string) : State :=
  {| notes := List.filter (fun note => negb (String.eqb note.(id) noteId)) st.(notes);
     titleInput := st.(titleInput); contentInput := st.(contentInput);
     editingId := st.(editingId); editTitle := st.(editTitle);
     editContent := st.(editContent) |}.

Definition clearAllNotes (st : State) : State :=
  {| notes := [];
     titleInput := st.(titleInput); contentInput := st.(contentInput);
     editingId := st.(editingId); editTitle := st.(editTitle);
     editContent := st.(editContent) |}.

Definition startEditing (st : State) (note : Note) : State :=
  {| notes := st.(notes);
     titleInput := st.(titleInput); contentInput := st.(contentInput);
     editingId := Some note.(id); editTitle := note.(title);
     editContent := note.(content) |}.

Definition saveEdit (st : State) (noteId stamp : string) : option State :=
  if JSString.isBlank st.(editTitle) || JSString.isBlank st.(editContent) then None
  else
    Some {| notes :=
              List.map (fun note =>
                          if String.eqb note.(id) noteId
                          then {| id := note.(id); title := st.(editTitle);
                                  content := st.(editContent); lastUpdated := stamp |}
                          else note)
                       st.(notes);
            titleInput := st.(titleInput); contentInput := st.(contentInput);
            editingId := None; editTitle := ""; editContent := "" |}.

End NotesHub.

(* ================================================================== *)
(** ** Definitions used to state the properties *)
(* ================================================================== *)

(** Sum of a list of integers. *)
Definition sumZ (l : list Z) : Z := foldr Z.add 0 l.

Module Spec.

Section WeeklyProgress.
Variable Date_parse : string -> option Z.
Variable tz : Z.

(** A session counts for [subjectName] in the week of [now] when its
    subject field is that name and its date lies in
    [[startOfWeek(now), endOfWeek(now)]], both ends included. *)
Definition InCurrentWeek (now : Z) (subjectName : string)
           (s : Types.StudySession) : Prop :=
  s.(Types.subject) = subjectName /\
  match Date_parse s.(Types.date) with
  | Some t => DateFns.startOfWeek tz now <= t <= DateFns.endOfWeek tz now
  | None => False
  end.

#[global] Instance InCurrentWeek_dec now subjectName s :
  Decision (InCurrentWeek now subjectName s).
Proof.
  unfold InCurrentWeek. destruct (Date_parse _); apply _.
Defined.

(** Weekly progress following the words of the specification: the sum of
    the minutes of the sessions that count, divided by 60. *)
Definition weeklyProgress (now : Z) (sessions : list Types.StudySession)
           (subjectName : string) : Q :=
  inject_Z (sumZ (Types.durationMinutes <$> filter (InCurrentWeek now subjectName) sessions))
  / 60.
End WeeklyProgress.

End Spec.

(** The tail [-MM-dd] of a formatted date, and the check that it has six
    characters from which month and day can be read back. *)
Definition monthDayText (m d : Z) : string :=
  "-" ++ JSDate.padStart0 m 2 ++ "-" ++ JSDate.padStart0 d 2.

Definition monthDayText_decodes (m d : Z) : bool :=
  (String.length (monthDayText m d) =? 6)%nat
  && bool_decide (JSDate.field (monthDayText m d) 1 2 = Some m)
  && bool_decide (JSDate.field (monthDayText m d) 4 2 = Some d).

Module Histogram.

(** The minutes of one calendar day, following the words of the
    specification: the sum of the minutes of the sessions whose date
    string is exactly that day's [yyyy-MM-dd] text. *)
Definition dayMinutes (tz day : Z) (studyTime : list Analytics.StudySession) : Z :=
  sumZ (Analytics.durationMinutes
          <$> filter (fun s => Analytics.date s = DateFns.format_yyyy_MM_dd tz day)
                     studyTime).

(** Seven (label, minutes) entries for the days [now - 6], ..., [now]. *)
Definition histogram (tz now : Z) (studyTime : list Analytics.StudySession)
  : list Analytics.Bar :=
  (fun i => {| Analytics.label := DateFns.format_MMM_d tz (DateFns.subDays now i);
               Analytics.minutes := dayMinutes tz (DateFns.subDays now i) studyTime |})
    <$> [6; 5; 4; 3; 2; 1; 0].

End Histogram.

(* ================================================================== *)
(** ** Sample data *)
(* ================================================================== *)

(** A subject with a weekly goal of 0 hours and one hour studied this week. *)
Definition zero_goal_subject : Types.Subject :=
  {| Types.subject_id := "s1"; Types.name := "Math"; Types.description := None;
     Types.color := "#4F46E5"; Types.goalHoursPerWeek := 0 |}.

Definition zero_goal_state : Subjects.State :=
  {| Subjects.subjects := [zero_goal_subject];
     Subjects.studySessions :=
       [ {| Types.session_id := "a"; Types.date := "2025-04-15T09:00:00.000Z";
            Types.durationMinutes := 60; Types.subject := "Math" |} ] |}.

(** Wednesday 2025-04-16, 12:00 UTC. *)
Definition mid_april : Z := 1744804800000.

(** The two sessions of the specification's example. *)
Definition earlier_60 : SubjectStats.StudySession :=
  {| SubjectStats.subject := "Math"; SubjectStats.durationMinutes := 60;
     SubjectStats.date := "2025-04-12" |}.

Definition later_90 : SubjectStats.StudySession :=
  {| SubjectStats.subject := "Math"; SubjectStats.durationMinutes := 90;
     SubjectStats.date := "2025-04-13" |}.

(** The same two sessions stored later first, with a session of another
    subject between them. *)
Definition later_first_mixed : list SubjectStats.StudySession :=
  [ later_90;
    {| SubjectStats.subject := "Physics"; SubjectStats.durationMinutes := 45;
       SubjectStats.date := "2025-04-14" |};
    earlier_60 ].

(** A dashboard that was opened on 13 April 2025 with nothing stored. *)
Definition fresh_dashboard : Dashboard.State :=
  {| Dashboard.studyTime := [];
     Dashboard.streak := Dashboard.defaultStreak 1744539045123;
     Dashboard.isStudyActive := true;
     Dashboard.selectedSubject := "";
     Dashboard.isLoading := false |}.

(** Two days later, 15 April 2025, 18:30 UTC. *)
Definition two_days_later : Z := 1744741800000.

(** A stand-in for [JSON.parse] on task lists that accepts the empty array
    only; enough to run the reads on a string no JSON parser accepts. *)
Definition parse_empty_array {A} (s : string) : JS.completion (list A) :=
  if String.eqb s "[]" then JS.Return [] else JS.Throw "SyntaxError".

Definition corrupt_store : gmap string string := {[ "tasks" := "{" ]}.

(** The sessions of the example, on 13 April 2025 (day 3 of the window that
    ends on 16 April). *)
Definition april_13_sessions : list Analytics.StudySession :=
  [ {| Analytics.date := "2025-04-13"; Analytics.durationMinutes := 30;
       Analytics.subject := "Math" |};
    {| Analytics.date := "2025-04-13"; Analytics.durationMinutes := 20;
       Analytics.subject := "Physics" |} ].

(** Sessions on both edges of the week of 13 to 19 April 2025, just outside
    of it, of another subject, and with a date that does not parse. *)
Definition edge_sessions : list Types.StudySession :=
  [ {| Types.session_id := "1"; Types.date := "2025-04-13T00:00:00.000Z";
       Types.durationMinutes := 30; Types.subject := "Math" |};
    {| Types.session_id := "2"; Types.date := "2025-04-19T23:59:59.999Z";
       Types.durationMinutes := 45; Types.subject := "Math" |};
    {| Types.session_id := "3"; Types.date := "2025-04-20T00:00:00.000Z";
       Types.durationMinutes := 100; Types.subject := "Math" |};
    {| Types.session_id := "4"; Types.date := "2025-04-12T23:59:59.999Z";
       Types.durationMinutes := 200; Types.subject := "Math" |};
    {| Types.session_id := "5"; Types.date := "2025-04-15T10:00:00.000Z";
       Types.durationMinutes := 400; Types.subject := "Physics" |};
    {| Types.session_id := "6"; Types.date := "yesterday";
       Types.durationMinutes := 800; Types.subject := "Math" |} ].


(** A small codec for integers, standing in for [JSON.stringify] and
    [JSON.parse] where a concrete pair is needed. *)
Definition stringify_int (n : Z) : string := JSString.of_int n.

Definition parse_int (s : string) : JS.completion Z :=
  match JSDate.number_of s with
  | Some n => JS.Return n
  | None => JS.Throw "SyntaxError"
  end.

Definition math : Types.Subject :=
  {| Types.subject_id := "s1"; Types.name := "Math"; Types.description := None;
     Types.color := "#4F46E5"; Types.goalHoursPerWeek := 10 |}.

Definition physics : Types.Subject :=
  {| Types.subject_id := "s2"; Types.name := "Physics"; Types.description := None;
     Types.color := "#FF6B6B"; Types.goalHoursPerWeek := 4 |}.

Definition art : Types.Subject :=
  {| Types.subject_id := "s3"; Types.name := "Art"; Types.description := None;
     Types.color := "#FF6B6B"; Types.goalHoursPerWeek := 2 |}.

Definition three_subjects : Subjects.State :=
  {| Subjects.subjects := [math; physics; art];
     Subjects.studySessions := edge_sessions |}.

Definition essay_data : SubjectsOps.SubjectData :=
  {| SubjectsOps.d_name := "Essay"; SubjectsOps.d_description := Some "";
     SubjectsOps.d_color := "#4ECDC4"; SubjectsOps.d_goalHoursPerWeek := 5 |}.

Definition idle_manager : SubjectManager.State :=
  {| SubjectManager.editingId := None;
     SubjectManager.formData := SubjectManager.emptyForm;
     SubjectManager.selectedSubjects := [];
     SubjectManager.deletedSubjects := [];
     SubjectManager.startTimes := ∅;
     SubjectManager.timers := ∅;
     SubjectManager.progressMap := ∅ |}.

Definition homework : Types.Task :=
  {| Types.task_id := "t1"; Types.title := "Homework";
     Types.task_description := "Sheet 3"; Types.dueDate := "2025-04-15";
     Types.completed := false |}.

Definition reading : Types.Task :=
  {| Types.task_id := "t2"; Types.title := "Reading";
     Types.task_description := "Chapter 2"; Types.dueDate := "2025-04-16";
     Types.completed := true |}.

Definition essay_task : TasksOps.TaskData :=
  {| TasksOps.t_title := "Essay"; TasksOps.t_description := "Draft";
     TasksOps.t_dueDate := "2025-04-20" |}.

(** One session on Sunday 13 April 2025 at 09:00 UTC. *)
Definition sunday_morning : list Types.StudySession :=
  [ {| Types.session_id := "a"; Types.date := "2025-04-13T09:00:00.000Z";
       Types.durationMinutes := 45; Types.subject := "Math" |} ].

Definition physics_session : Types.StudySession :=
  {| Types.session_id := "5"; Types.date := "2025-04-15T10:00:00.000Z";
     Types.durationMinutes := 400; Types.subject := "Physics" |}.

(** A duration of 10^21 minutes. *)
Definition endless_session : Types.StudySession :=
  {| Types.session_id := "6"; Types.date := "2025-04-15T10:00:00.000Z";
     Types.durationMinutes := 10 ^ 21; Types.subject := "Physics" |}.

(** A subject whose name contains the text of the duration line. *)
Definition confusing_session : Types.StudySession :=
  {| Types.session_id := "7"; Types.date := "2025-04-15T10:00:00.000Z";
     Types.durationMinutes := 30; Types.subject := "Duration: 99 minutes" |}.

Definition undated_session : Types.StudySession :=
  {| Types.session_id := "8"; Types.date := "last tuesday";
     Types.durationMinutes := 30; Types.subject := "Math" |}.

Definition some_store : gmap string string := {[ "studyTime" := "[...]" ]}.

Definition first_steps : Profile.Achievement :=
  {| Profile.a_title := "First steps"; Profile.a_description := "One week of study" |}.

Definition editing_profile : Profile.State :=
  {| Profile.profile := Profile.with_achievements Profile.defaultProfile [first_steps];
     Profile.isEditing := true;
     Profile.newAchievement := {| Profile.a_title := "  "; Profile.a_description := "x" |} |}.

Definition empty_hub : NotesHub.State :=
  {| NotesHub.notes := []; NotesHub.titleInput := "Limits";
     NotesHub.contentInput := "epsilon and delta";
     NotesHub.editingId := None; NotesHub.editTitle := ""; NotesHub.editContent := "" |}.

(** The year as [toDateString] prints it, and how to read it back. *)
Definition yearText (y : Z) : string :=
  (if y <? 0 then "-" else "") ++ JSDate.padStart0 (Z.abs y) 4.

Definition readYear (s : string) : option Z :=
  match s with
  | String "-" s' => option_map Z.opp (JSDate.number_of s')
  | _ => JSDate.number_of s
  end.


(** Every character of the string can be matched by [.]. *)
Fixpoint forallb_string_dot (s : string) : bool :=
  match s with
  | EmptyString => true
  | String c s' => AnalyticsLoad.isDot c && forallb_string_dot s'
  end.

(* ================================================================== *)
(** * Properties *)
(* ================================================================== *)

(** ** Sums *)

Lemma fold_left_add_shift {A} (f : A -> Z) (l : list A) (a : Z) :
  fold_left (fun acc s => acc + f s) l a = a + sumZ (f <$> l).
Proof.
  revert a; induction l as [|x l IH]; intros a.
  - unfold sumZ. simpl. lia.
  - cbn [fold_left]. rewrite IH, fmap_cons. unfold sumZ. cbn [foldr]. lia.
Qed.

Lemma reduce_sum_sumZ {A} (f : A -> Z) (l : list A) :
  reduce_sum f l = sumZ (f <$> l).
Proof. unfold reduce_sum. rewrite fold_left_add_shift. lia. Qed.

Lemma reduce_sum_nil {A} (f : A -> Z) : reduce_sum f [] = 0.
Proof. reflexivity. Qed.

Lemma reduce_sum_cons {A} (f : A -> Z) (x : A) (l : list A) :
  reduce_sum f (x :: l) = f x + reduce_sum f l.
Proof. rewrite !reduce_sum_sumZ, fmap_cons. reflexivity. Qed.

(** The boolean filter of the code against the filter on a decidable
    proposition. *)
Lemma filter_bool_prop {A} (b : A -> bool) (P : A -> Prop) `{!forall x, Decision (P x)}
      (l : list A) :
  (forall x, b x = true <-> P x) ->
  List.filter b l = filter P l.
Proof.
  intros Hb. induction l as [|x l IH]; [reflexivity|].
  simpl. rewrite filter_cons. destruct (decide (P x)) as [HP|HP].
  - apply Hb in HP. rewrite HP, IH. reflexivity.
  - destruct (b x) eqn:E; [apply Hb in E; contradiction|]. exact IH.
Qed.

(** ** The week of date-fns *)

Ltac div_mod_lia :=
  unfold JSDate.getDay, JSDate.localDay, JSDate.setHours0, JSDate.setHoursEnd,
         JSDate.msIntoDay, JSDate.addDays, JSDate.msPerDay in *;
  Z.div_mod_to_equations; lia.

Lemma getDay_range tz t : 0 <= JSDate.getDay tz t < 7.
Proof. div_mod_lia. Qed.

Lemma setHours0_addDays tz t n :
  JSDate.setHours0 tz (JSDate.addDays t n) = JSDate.addDays (JSDate.setHours0 tz t) n.
Proof.
  unfold JSDate.setHours0, JSDate.msIntoDay, JSDate.addDays.
  replace (t + n * JSDate.msPerDay + tz) with (t + tz + n * JSDate.msPerDay) by lia.
  rewrite Z_mod_plus_full. lia.
Qed.

Lemma startOfWeek_eq tz t :
  DateFns.startOfWeek tz t
  = JSDate.setHours0 tz t - JSDate.getDay tz t * JSDate.msPerDay.
Proof.
  unfold DateFns.startOfWeek.
  pose proof (getDay_range tz t) as Hd.
  destruct (JSDate.getDay tz t <? 0) eqn:E; [apply Z.ltb_lt in E; lia|].
  rewrite setHours0_addDays. unfold JSDate.addDays. lia.
Qed.

Lemma endOfWeek_eq tz t :
  DateFns.endOfWeek tz t = DateFns.startOfWeek tz t + 7 * JSDate.msPerDay - 1.
Proof.
  rewrite startOfWeek_eq. unfold DateFns.endOfWeek.
  pose proof (getDay_range tz t) as Hd.
  destruct (JSDate.getDay tz t <? 0) eqn:E; [apply Z.ltb_lt in E; lia|].
  unfold JSDate.setHoursEnd. rewrite setHours0_addDays. unfold JSDate.addDays. lia.
Qed.

Lemma startOfWeek_sunday tz t : JSDate.getDay tz (DateFns.startOfWeek tz t) = 0.
Proof. rewrite startOfWeek_eq. div_mod_lia. Qed.

Lemma startOfWeek_midnight tz t : JSDate.msIntoDay tz (DateFns.startOfWeek tz t) = 0.
Proof. rewrite startOfWeek_eq. div_mod_lia. Qed.

Lemma startOfWeek_le tz t :
  DateFns.startOfWeek tz t <= t <= DateFns.endOfWeek tz t.
Proof. rewrite endOfWeek_eq, startOfWeek_eq. div_mod_lia. Qed.

(** ** The civil calendar *)

Import JSDate.

Ltac div_lia := Z.div_mod_to_equations; lia.

Lemma dayOfEra_range n : 0 <= dayOfEra n < 146097.
Proof. unfold dayOfEra. div_lia. Qed.

Lemma yearOfEra_range doe : 0 <= doe < 146097 -> 0 <= yearOfEra doe <= 399.
Proof. intros H. unfold yearOfEra. div_lia. Qed.

Lemma dayOfYear_range doe : 0 <= doe < 146097 -> 0 <= dayOfYear doe <= 365.
Proof. intros H. unfold dayOfYear, yearOfEra. div_lia. Qed.

Lemma monthOfDoy_range doy : 0 <= doy <= 365 -> 1 <= monthOfDoy doy <= 12.
Proof.
  intros H. unfold monthOfDoy.
  destruct (Z.ltb_spec ((5 * doy + 2) / 153) 10); div_lia.
Qed.

Lemma mdayOfDoy_range doy : 0 <= doy <= 365 -> 1 <= mdayOfDoy doy <= 31.
Proof. intros H. unfold mdayOfDoy. div_lia. Qed.

Lemma civil_of_day_range n :
  1 <= month (civil_of_day n) <= 12 /\ 1 <= mday (civil_of_day n) <= 31.
Proof.
  unfold civil_of_day. simpl.
  pose proof (dayOfYear_range _ (dayOfEra_range n)).
  split; [apply monthOfDoy_range | apply mdayOfDoy_range]; assumption.
Qed.

(** [day_of_civil] inverts [civil_of_day]. *)
Lemma day_of_civil_of_day n :
  let c := civil_of_day n in day_of_civil (year c) (month c) (mday c) = n.
Proof.
  cbv zeta. unfold civil_of_day, day_of_civil. simpl.
  pose proof (dayOfEra_range n) as Hdoe.
  pose proof (yearOfEra_range _ Hdoe) as Hyoe.
  pose proof (dayOfYear_range _ Hdoe) as Hdoy.
  pose proof (monthOfDoy_range _ Hdoy) as Hm.
  set (doe := dayOfEra n) in *.
  set (yoe := yearOfEra doe) in *.
  set (doy := dayOfYear doe) in *.
  assert (Hdoy_eq : (153 * (if monthOfDoy doy <=? 2 then monthOfDoy doy + 9
                            else monthOfDoy doy - 3) + 2) / 5
                    + mdayOfDoy doy - 1 = doy).
  { unfold monthOfDoy, mdayOfDoy.
    destruct (Z.ltb_spec ((5 * doy + 2) / 153) 10);
      match goal with |- context [?a <=? 2] => destruct (Z.leb_spec a 2) end;
      div_lia. }
  assert (Hdoe_eq : yoe * 365 + yoe / 4 - yoe / 100 + doy = doe).
  { subst doy yoe. unfold dayOfYear. lia. }
  assert (Hn : n + 719468 = 146097 * ((n + 719468) / 146097) + doe).
  { subst doe. unfold dayOfEra. div_lia. }
  set (era := (n + 719468) / 146097) in *.
  set (m := monthOfDoy doy) in *.
  assert (Hy : (if m <=? 2
                then yoe + era * 400 + (if m <=? 2 then 1 else 0) - 1
                else yoe + era * 400 + (if m <=? 2 then 1 else 0))
               = yoe + era * 400).
  { destruct (m <=? 2); lia. }
  rewrite Hy.
  assert (He : (yoe + era * 400) / 400 = era) by div_lia.
  assert (Hr : (yoe + era * 400) mod 400 = yoe) by div_lia.
  rewrite He, Hr, Hdoy_eq. lia.
Qed.

(** The same month and day in a later year is at least 365 days later. *)
Lemma day_of_civil_year_gap y1 y2 m d :
  y1 < y2 -> 365 <= day_of_civil y2 m d - day_of_civil y1 m d.
Proof.
  intros H. unfold day_of_civil.
  destruct (m <=? 2); div_lia.
Qed.

(** Two different days less than a year apart differ in month or day. *)
Lemma month_day_distinct n1 n2 :
  n1 <> n2 -> -365 < n1 - n2 < 365 ->
  (month (civil_of_day n1), mday (civil_of_day n1))
  <> (month (civil_of_day n2), mday (civil_of_day n2)).
Proof.
  intros Hne Hclose Heq.
  pose proof (day_of_civil_of_day n1) as R1.
  pose proof (day_of_civil_of_day n2) as R2.
  cbv zeta in R1, R2.
  set (c1 := civil_of_day n1) in *. set (c2 := civil_of_day n2) in *.
  apply pair_equal_spec in Heq as [Hm Hd]. rewrite Hm, Hd in R1.
  destruct (Z.lt_trichotomy (year c1) (year c2)) as [Hlt | [Heqy | Hgt]].
  - pose proof (day_of_civil_year_gap _ _ (month c2) (mday c2) Hlt). lia.
  - rewrite Heqy in R1. lia.
  - pose proof (day_of_civil_year_gap _ _ (month c2) (mday c2) Hgt). lia.
Qed.

(** The ISO-8601 text of a time value and back. *)
Example iso_print_1 :
  JSDate.toISOString 1744539045123 = "2025-04-13T10:10:45.123Z".
Proof. vm_compute. reflexivity. Qed.

Example iso_parse_1 :
  JSDate.parseISO "2025-04-13T10:10:45.123Z" = Some 1744539045123.
Proof. vm_compute. reflexivity. Qed.

Example iso_parse_2 : JSDate.parseISO "2025-04-12" = Some 1744416000000.
Proof. vm_compute. reflexivity. Qed.

Example iso_print_2 : JSDate.toISOString (-1) = "1969-12-31T23:59:59.999Z".
Proof. vm_compute. reflexivity. Qed.

(** ** Weekly progress (Subjects page) *)

Lemma inWeek_spec Date_parse tz now subjectName (s : Types.StudySession) :
  Subjects.inWeek Date_parse tz now subjectName s = true
  <-> Spec.InCurrentWeek Date_parse tz now subjectName s.
Proof.
  unfold Subjects.inWeek, Spec.InCurrentWeek, date_ge, date_le.
  rewrite !andb_true_iff, String.eqb_eq.
  destruct (Date_parse (Types.date s)) as [t|].
  - rewrite !Z.leb_le. tauto.
  - intuition discriminate.
Qed.

Lemma div_of_Z_60 (m : Z) :
  JS.div (JS.of_Z m) (JS.of_Z 60) = JS.Fin (inject_Z m / 60).
Proof. reflexivity. Qed.

(** C3. For every list of sessions and every subject name, the weekly
    progress computed by [getWeeklyProgress] is the sum of [durationMinutes]
    over the sessions whose subject field equals the name and whose date lies
    in [[startOfWeek(now), endOfWeek(now)]], ends included, divided by 60;
    and that week starts on a Sunday at local midnight, lasts seven days and
    contains [now]. *)
Theorem weekly_progress_is_week_sum
        (Date_parse : string -> option Z) (tz now : Z)
        (sessions : list Types.StudySession) (subjectName : string) :
  Subjects.getWeeklyProgress Date_parse tz now sessions subjectName
  = JS.Fin (Spec.weeklyProgress Date_parse tz now sessions subjectName)
  /\ JSDate.getDay tz (DateFns.startOfWeek tz now) = 0
  /\ JSDate.msIntoDay tz (DateFns.startOfWeek tz now) = 0
  /\ DateFns.endOfWeek tz now = DateFns.startOfWeek tz now + 7 * JSDate.msPerDay - 1
  /\ DateFns.startOfWeek tz now <= now <= DateFns.endOfWeek tz now.
Proof.
  split; [|auto using startOfWeek_sunday, startOfWeek_midnight, endOfWeek_eq,
                     startOfWeek_le].
  unfold Subjects.getWeeklyProgress, Subjects.weeklyMinutes, Spec.weeklyProgress.
  rewrite div_of_Z_60, reduce_sum_sumZ.
  rewrite (filter_bool_prop _ (Spec.InCurrentWeek Date_parse tz now subjectName))
    by (intros x; apply inWeek_spec).
  reflexivity.
Qed.

Example weekly_progress_edges :
  DateFns.startOfWeek 0 mid_april = 1744502400000
  /\ JSDate.toISOString (DateFns.startOfWeek 0 mid_april) = "2025-04-13T00:00:00.000Z"
  /\ JSDate.toISOString (DateFns.endOfWeek 0 mid_april) = "2025-04-19T23:59:59.999Z"
  /\ Subjects.weeklyMinutes JSDate.parseISO 0 mid_april edge_sessions "Math" = 75
  /\ Subjects.getWeeklyProgress JSDate.parseISO 0 mid_april edge_sessions "Math"
     = JS.Fin (75 / 60).
Proof. vm_compute. repeat split; reflexivity. Qed.

(** ** Goal progress percentage (Subjects page and SubjectStats) *)

Lemma percent_finite (P G : Q) :
  ~ (G == 0)%Q ->
  JS.mul (JS.div (JS.Fin P) (JS.Fin G)) (JS.Fin 100) = JS.Fin (P / G * 100).
Proof.
  intros HG. unfold JS.div.
  destruct (Qeq_bool G 0) eqn:E; [apply Qeq_bool_iff in E; contradiction|].
  reflexivity.
Qed.

Lemma percent_zero_goal (P G : Q) :
  (G == 0)%Q ->
  JS.mul (JS.div (JS.Fin P) (JS.Fin G)) (JS.Fin 100)
  = match (P ?= 0)%Q with Eq => JS.NaN | Gt => JS.PosInf | Lt => JS.NegInf end.
Proof.
  intros HG. unfold JS.div.
  apply Qeq_bool_iff in HG. rewrite HG.
  destruct (P ?= 0)%Q; reflexivity.
Qed.

Lemma percent_cases (P G : Q) :
  let pct := JS.mul (JS.div (JS.Fin P) (JS.Fin G)) (JS.Fin 100) in
  ((0 < G -> pct = JS.Fin (P / G * 100))
   /\ (G == 0 -> P == 0 -> pct = JS.NaN)
   /\ (G == 0 -> 0 < P -> pct = JS.PosInf))%Q.
Proof.
  intros pct. subst pct. repeat split.
  - intros HG. apply percent_finite. intros E. rewrite E in HG.
    exact (Qlt_irrefl _ HG).
  - intros HG HP. rewrite (percent_zero_goal P G HG).
    apply Qeq_alt in HP. rewrite HP. reflexivity.
  - intros HG HP. rewrite (percent_zero_goal P G HG).
    apply Qgt_alt in HP. rewrite HP. reflexivity.
Qed.

(** C4, as stated, fails: with goal 0 and 60 minutes studied this week the
    card's percentage is +Infinity, not 0; with nothing studied it is NaN. *)
Lemma zero_goal_not_guarded :
  (Types.goalHoursPerWeek zero_goal_subject == 0)%Q
  /\ Subjects.getWeeklyProgress JSDate.parseISO 0 mid_april
       (Subjects.studySessions zero_goal_state) "Math" = JS.Fin (60 / 60)
  /\ Subjects.cardProgress JSDate.parseISO 0 mid_april zero_goal_state zero_goal_subject
     = JS.PosInf
  /\ Subjects.cardProgress JSDate.parseISO 0 mid_april zero_goal_state zero_goal_subject
     <> JS.Fin 0
  /\ Subjects.goalProgress (JS.Fin 0) 0 = JS.NaN
  /\ Subjects.barWidth (Subjects.goalProgress (JS.Fin 0) 0) = JS.NaN.
Proof.
  repeat split; try (vm_compute; reflexivity).
  vm_compute. discriminate.
Qed.

(** C4, amended. With weekly goal [G] and accumulated hours [P], the
    percentage of both call sites is [(P / G) * 100] when [G > 0]; when
    [G = 0] nothing guards the division: the percentage is NaN for [P = 0]
    and +Infinity for [P > 0]. *)
Theorem goal_progress_percentage
        (Date_parse : string -> option Z) (tz now : Z) :
  (forall (st : Subjects.State) (s : Types.Subject),
      let P := inject_Z (Subjects.weeklyMinutes Date_parse tz now
                           (Subjects.studySessions st) (Types.name s)) / 60 in
      let G := Types.goalHoursPerWeek s in
      let pct := Subjects.cardProgress Date_parse tz now st s in
      (0 < G -> pct = JS.Fin (P / G * 100))
      /\ (G == 0 -> P == 0 -> pct = JS.NaN)
      /\ (G == 0 -> 0 < P -> pct = JS.PosInf))%Q
  /\
  (forall (tf : SubjectStats.timeframe) (subj : SubjectStats.Subject)
          (sessions : list SubjectStats.StudySession),
      let P := inject_Z (SubjectStats.totalMinutes Date_parse tz tf now subj sessions) / 60 in
      let G := SubjectStats.goalHoursPerWeek subj in
      let pct := SubjectStats.goalProgress Date_parse tz tf now subj sessions in
      (0 < G -> pct = JS.Fin (P / G * 100))
      /\ (G == 0 -> P == 0 -> pct = JS.NaN)
      /\ (G == 0 -> 0 < P -> pct = JS.PosInf))%Q.
Proof.
  split.
  - intros st s. cbv zeta.
    unfold Subjects.cardProgress, Subjects.goalProgress, Subjects.getWeeklyProgress.
    rewrite div_of_Z_60. apply percent_cases.
  - intros tf subj sessions. cbv zeta.
    unfold SubjectStats.goalProgress, SubjectStats.totalHours.
    rewrite div_of_Z_60. apply percent_cases.
Qed.

Lemma goal_progress_percentage_witness :
  Subjects.cardProgress JSDate.parseISO 0 mid_april zero_goal_state zero_goal_subject
  = JS.PosInf
  /\ SubjectStats.goalProgress JSDate.parseISO 0 SubjectStats.all mid_april
       SubjectStats.the_subject SubjectStats.the_sessions
     = JS.Fin (inject_Z 225 / 60 / 10 * 100).
Proof.
  destruct (goal_progress_percentage JSDate.parseISO 0 mid_april) as [H1 H2].
  split.
  - apply (H1 zero_goal_state zero_goal_subject); reflexivity.
  - apply (H2 SubjectStats.all SubjectStats.the_subject SubjectStats.the_sessions).
    reflexivity.
Defined.

(** ** Trend (SubjectStats) *)

Lemma insert_length {A} (cmp : A -> A -> option Z) (x : A) (l : list A) :
  length (SubjectStats.insert cmp x l) = S (length l).
Proof.
  induction l as [|y l IH]; [reflexivity|].
  simpl. destruct (SubjectStats.sortCompare cmp x y); simpl; auto.
Qed.

Lemma sort_length {A} (cmp : A -> A -> option Z) (l : list A) :
  length (SubjectStats.sort cmp l) = length l.
Proof.
  induction l as [|x l IH]; [reflexivity|].
  unfold SubjectStats.sort in *. simpl. rewrite insert_length, IH. reflexivity.
Qed.

(** The sort only rearranges. *)
Lemma insert_perm {A} (cmp : A -> A -> option Z) (x : A) (l : list A) :
  SubjectStats.insert cmp x l ≡ₚ x :: l.
Proof.
  induction l as [|y l IH]; [reflexivity|].
  simpl. destruct (SubjectStats.sortCompare cmp x y); try reflexivity.
  rewrite IH. apply Permutation_swap.
Qed.

Lemma sort_perm {A} (cmp : A -> A -> option Z) (l : list A) :
  SubjectStats.sort cmp l ≡ₚ l.
Proof.
  induction l as [|x l IH]; [reflexivity|].
  unfold SubjectStats.sort in *. simpl. rewrite insert_perm, IH. reflexivity.
Qed.

(** Two sessions of one subject, the second one later, stored in either
    order and among any sessions of other subjects: the later one comes
    first and the trend is its minutes less the earlier one's. *)
Lemma trend_two_sessions (Date_parse : string -> option Z)
      (subj : SubjectStats.Subject) (sessions : list SubjectStats.StudySession)
      (s1 s2 : SubjectStats.StudySession) (t1 t2 : Z) :
  List.filter (SubjectStats.ofSubject subj) sessions = [s1; s2]
  \/ List.filter (SubjectStats.ofSubject subj) sessions = [s2; s1] ->
  Date_parse (SubjectStats.date s1) = Some t1 ->
  Date_parse (SubjectStats.date s2) = Some t2 ->
  t1 < t2 ->
  SubjectStats.previousSessions Date_parse subj sessions = [s2; s1]
  /\ SubjectStats.trend Date_parse subj sessions
     = SubjectStats.durationMinutes s2 - SubjectStats.durationMinutes s1.
Proof.
  intros Hf P1 P2 Hlt.
  assert (Hps : SubjectStats.previousSessions Date_parse subj sessions = [s2; s1]).
  { unfold SubjectStats.previousSessions.
    destruct Hf as [-> | ->]; unfold SubjectStats.sort; cbn [fold_right SubjectStats.insert];
      unfold SubjectStats.sortCompare, SubjectStats.byDateDesc; rewrite P1, P2.
    - destruct (Z.compare_spec (t2 - t1) 0); [lia | lia | reflexivity].
    - destruct (Z.compare_spec (t1 - t2) 0); [lia | reflexivity | lia]. }
  split; [exact Hps|].
  unfold SubjectStats.trend. rewrite Hps. reflexivity.
Qed.

(** C5, as stated, fails: for sessions of 60 minutes at [t1] and 90 minutes
    at [t2 > t1] the code's trend is 90 - 60 = 30, not -30. *)
Lemma trend_example_is_plus_30 :
  SubjectStats.previousSessions JSDate.parseISO SubjectStats.the_subject
    [earlier_60; later_90] = [later_90; earlier_60]
  /\ SubjectStats.trend JSDate.parseISO SubjectStats.the_subject [earlier_60; later_90] = 30
  /\ SubjectStats.trend JSDate.parseISO SubjectStats.the_subject [earlier_60; later_90]
     <> 60 - 90.
Proof.
  repeat split; try (vm_compute; reflexivity).
  vm_compute. discriminate.
Qed.

(** The component's own sample data: the latest session (13 April, 60
    minutes) against the one before (12 April, 120 minutes). *)
Example trend_of_sample_data :
  SubjectStats.trend JSDate.parseISO SubjectStats.the_subject SubjectStats.the_sessions
  = -60.
Proof. vm_compute. reflexivity. Qed.

(** C5, amended. For a subject with exactly two sessions of 60 and 90
    minutes at [t1] and [t2 > t1], stored in either order and among any
    sessions of other subjects, the sessions sorted by timestamp, newest
    first, are the later and then the earlier one, and the trend (latest
    session less the one before) is 90 - 60 = 30; for a subject with fewer
    than two sessions it is 0. *)
Theorem trend_latest_minus_previous
        (Date_parse : string -> option Z) (subj : SubjectStats.Subject) :
  (forall (sessions : list SubjectStats.StudySession)
          (s1 s2 : SubjectStats.StudySession) (t1 t2 : Z),
      List.filter (SubjectStats.ofSubject subj) sessions = [s1; s2]
      \/ List.filter (SubjectStats.ofSubject subj) sessions = [s2; s1] ->
      Date_parse (SubjectStats.date s1) = Some t1 ->
      Date_parse (SubjectStats.date s2) = Some t2 ->
      t1 < t2 ->
      SubjectStats.durationMinutes s1 = 60 ->
      SubjectStats.durationMinutes s2 = 90 ->
      SubjectStats.previousSessions Date_parse subj sessions = [s2; s1]
      /\ SubjectStats.trend Date_parse subj sessions = 90 - 60)
  /\
  (forall sessions : list SubjectStats.StudySession,
      (length (List.filter (SubjectStats.ofSubject subj) sessions) < 2)%nat ->
      SubjectStats.trend Date_parse subj sessions = 0).
Proof.
  split.
  - intros sessions s1 s2 t1 t2 Hf P1 P2 Hlt D1 D2.
    destruct (trend_two_sessions Date_parse subj sessions s1 s2 t1 t2 Hf P1 P2 Hlt)
      as [Hps Ht].
    split; [exact Hps|]. rewrite Ht, D1, D2. reflexivity.
  - intros sessions Hlen. unfold SubjectStats.trend, SubjectStats.previousSessions.
    rewrite sort_length.
    destruct (2 <=? length _)%nat eqn:E; [|reflexivity].
    apply Nat.leb_le in E. lia.
Qed.

Lemma trend_latest_minus_previous_witness :
  SubjectStats.trend JSDate.parseISO SubjectStats.the_subject [earlier_60; later_90]
  = 90 - 60
  /\ SubjectStats.trend JSDate.parseISO SubjectStats.the_subject later_first_mixed
     = 90 - 60
  /\ SubjectStats.trend JSDate.parseISO SubjectStats.the_subject [later_90] = 0.
Proof.
  destruct (trend_latest_minus_previous JSDate.parseISO SubjectStats.the_subject)
    as [H1 H2].
  split; [|split].
  - apply (H1 [earlier_60; later_90] earlier_60 later_90 1744416000000 1744502400000);
      first [reflexivity | left; reflexivity].
  - apply (H1 later_first_mixed earlier_60 later_90 1744416000000 1744502400000);
      first [reflexivity | right; reflexivity].
  - apply (H2 [later_90]). simpl. lia.
Defined.

(** ** Streak update rule and session validation (Dashboard page) *)

Section DashboardFacts.
Variable Date_parse : string -> option Z.
Variable tz : Z.

Let handler := Dashboard.handleStudySessionComplete Date_parse tz.

(** The streak committed after the handler ran from the rendered state. *)
Lemma streak_after_session st now uuid minutes :
  0 < minutes ->
  Dashboard.streak (Dashboard.commit st (handler st now uuid minutes))
  = let s := Dashboard.streak st in
    let today := JSDate.toISOString (JSDate.setHours0 tz now) in
    if Dashboard.continues (Dashboard.timeDiff Date_parse tz now (Types.lastStudyDate s))
    then {| Types.currentStreak := Types.currentStreak s + 1;
            Types.bestStreak := Z.max (Types.bestStreak s) (Types.currentStreak s + 1);
            Types.lastStudyDate := today |}
    else {| Types.currentStreak := 1;
            Types.bestStreak := Types.bestStreak s;
            Types.lastStudyDate := today |}.
Proof.
  intros Hpos. subst handler. unfold Dashboard.handleStudySessionComplete.
  destruct (minutes <=? 0) eqn:E; [apply Z.leb_le in E; lia|].
  cbv zeta.
  destruct (Dashboard.continues _); reflexivity.
Qed.

Lemma studyTime_after_session st now uuid minutes :
  0 < minutes ->
  Dashboard.studyTime (Dashboard.commit st (handler st now uuid minutes))
  = (Dashboard.studyTime st ++
     [ {| Types.session_id := uuid;
          Types.date := JSDate.toISOString now;
          Types.durationMinutes := minutes;
          Types.subject := if JS.truthy (Some (Dashboard.selectedSubject st))
                           then Dashboard.selectedSubject st else "General" |} ])%list.
Proof.
  intros Hpos. subst handler. unfold Dashboard.handleStudySessionComplete.
  destruct (minutes <=? 0) eqn:E; [apply Z.leb_le in E; lia|].
  cbv zeta.
  destruct (Dashboard.continues _); reflexivity.
Qed.

(** The continuing branch always leaves [currentStreak <= bestStreak]; the
    resetting branch does so exactly when a best streak of at least 1 was
    already recorded. *)
Lemma streak_order_after_session st now uuid minutes :
  0 < minutes ->
  let s := Dashboard.streak st in
  let s' := Dashboard.streak (Dashboard.commit st (handler st now uuid minutes)) in
  if Dashboard.continues (Dashboard.timeDiff Date_parse tz now (Types.lastStudyDate s))
  then Types.currentStreak s' <= Types.bestStreak s'
  else (Types.currentStreak s' <= Types.bestStreak s' <-> 1 <= Types.bestStreak s).
Proof.
  intros Hpos s s'. subst s s'. rewrite streak_after_session by assumption.
  cbv zeta. destruct (Dashboard.continues _); simpl; lia.
Qed.

End DashboardFacts.

(** C2. For every streak state and every completed session (a call of the
    handler with a positive duration from a rendered state), with
    [dayDiff = floor((today_midnight - lastStudyDate_midnight) / one_day)]:
    if [dayDiff <= 1] the new streak is
    [{currentStreak + 1, max(bestStreak, currentStreak + 1), today}];
    otherwise, which includes a stored date that does not parse, it is
    [{1, bestStreak, today}]. *)
Theorem streak_update_rule
        (Date_parse : string -> option Z) (tz : Z)
        (st : Dashboard.State) (now : Z) (uuid : string) (minutes : Z) :
  0 < minutes ->
  let s := Dashboard.streak st in
  let s' := Dashboard.streak
              (Dashboard.commit st
                 (Dashboard.handleStudySessionComplete Date_parse tz st now uuid minutes)) in
  let today := JSDate.toISOString (JSDate.setHours0 tz now) in
  let continued :=
    {| Types.currentStreak := Types.currentStreak s + 1;
       Types.bestStreak := Z.max (Types.bestStreak s) (Types.currentStreak s + 1);
       Types.lastStudyDate := today |} in
  let reset :=
    {| Types.currentStreak := 1;
       Types.bestStreak := Types.bestStreak s;
       Types.lastStudyDate := today |} in
  match Date_parse (Types.lastStudyDate s) with
  | Some last =>
      let dayDiff :=
        (JSDate.setHours0 tz now - JSDate.setHours0 tz last) / JSDate.msPerDay in
      (dayDiff <= 1 -> s' = continued) /\ (1 < dayDiff -> s' = reset)
  | None => s' = reset
  end.
Proof.
  intros Hpos. cbv zeta.
  rewrite streak_after_session by assumption. cbv zeta.
  unfold Dashboard.timeDiff.
  destruct (Date_parse (Types.lastStudyDate (Dashboard.streak st))) as [last|];
    [|reflexivity].
  simpl.
  destruct (Z.leb_spec ((JSDate.setHours0 tz now - JSDate.setHours0 tz last)
                          / JSDate.msPerDay) 1);
    split; intros; try reflexivity; lia.
Qed.

Lemma streak_update_rule_witness :
  Dashboard.streak
    (Dashboard.commit fresh_dashboard
       (Dashboard.handleStudySessionComplete JSDate.parseISO 0 fresh_dashboard
          two_days_later "u1" 25))
  = {| Types.currentStreak := 1; Types.bestStreak := 0;
       Types.lastStudyDate := "2025-04-15T00:00:00.000Z" |}.
Proof.
  pose proof (streak_update_rule JSDate.parseISO 0 fresh_dashboard two_days_later
                "u1" 25 ltac:(lia)) as H.
  vm_compute in H. destruct H as [_ H].
  vm_compute. exact (H eq_refl).
Defined.

(** The specification's worked example: from [{0, 0, D-2}] a session today
    gives [{1, 0, today}], and a session on the next day gives
    [{2, 2, tomorrow}]. *)
Example streak_worked_example :
  let step st now := fst (Dashboard.completeSession JSDate.parseISO 0
                            (fun _ => "") (fun _ => "") st ∅ now "u" 25) in
  let st1 := step fresh_dashboard two_days_later in
  let st2 := step st1 (two_days_later + JSDate.msPerDay) in
  Dashboard.streak st1
  = {| Types.currentStreak := 1; Types.bestStreak := 0;
       Types.lastStudyDate := "2025-04-15T00:00:00.000Z" |}
  /\ Dashboard.streak st2
     = {| Types.currentStreak := 2; Types.bestStreak := 2;
          Types.lastStudyDate := "2025-04-16T00:00:00.000Z" |}.
Proof. vm_compute. split; reflexivity. Qed.

(** C1. The order [currentStreak <= bestStreak] is broken by the resetting
    branch: the default streak [{0, 0, now}] of a fresh dashboard satisfies
    it, and one completed session two days later leaves [currentStreak = 1]
    above [bestStreak = 0]. *)
Theorem streak_order_broken_by_reset :
  let s := Dashboard.streak fresh_dashboard in
  let s' := Dashboard.streak
              (fst (Dashboard.completeSession JSDate.parseISO 0
                      (fun _ => "") (fun _ => "")
                      fresh_dashboard ∅ two_days_later "u1" 25)) in
  Types.currentStreak s <= Types.bestStreak s
  /\ Dashboard.timeDiff JSDate.parseISO 0 two_days_later (Types.lastStudyDate s) = Some 2
  /\ Types.currentStreak s' = 1
  /\ Types.bestStreak s' = 0
  /\ ~ (Types.currentStreak s' <= Types.bestStreak s').
Proof.
  vm_compute. repeat split; try discriminate. intros H. apply H. reflexivity.
Qed.

(** C8. A call of the handler with a duration of 0 or less returns before
    any setter is called: the component state, and with it the sessions and
    the streak, and the persisted store are unchanged. *)
Theorem non_positive_duration_rejected
        (Date_parse : string -> option Z) (tz : Z)
        (stringify_sessions : list Types.StudySession -> string)
        (stringify_streak : Types.StudyStreak -> string)
        (st : Dashboard.State) (ls : gmap string string)
        (now : Z) (uuid : string) (minutes : Z) :
  minutes <= 0 ->
  Dashboard.handleStudySessionComplete Date_parse tz st now uuid minutes = []
  /\ Dashboard.completeSession Date_parse tz stringify_sessions stringify_streak
       st ls now uuid minutes = (st, ls).
Proof.
  intros Hneg.
  assert (H : Dashboard.handleStudySessionComplete Date_parse tz st now uuid minutes = []).
  { unfold Dashboard.handleStudySessionComplete.
    destruct (Z.leb_spec minutes 0); [reflexivity | lia]. }
  split; [exact H|].
  unfold Dashboard.completeSession. rewrite H. cbv zeta.
  unfold Dashboard.commit, Dashboard.runEffects. simpl.
  destruct (Dashboard.isLoading st); reflexivity.
Qed.

Lemma non_positive_duration_rejected_witness :
  Dashboard.completeSession JSDate.parseISO 0 (fun _ => "[]") (fun _ => "{}")
    fresh_dashboard ∅ two_days_later "u1" 0 = (fresh_dashboard, ∅).
Proof.
  apply (non_positive_duration_rejected JSDate.parseISO 0 (fun _ => "[]") (fun _ => "{}")
           fresh_dashboard ∅ two_days_later "u1" 0).
  lia.
Defined.

(** ** Persisted collection reads *)

(** The guarded read of the Profile page never throws, and yields the
    default when the key is absent, empty or does not parse. *)
Lemma storage_get_total {T} (parse : string -> JS.completion T)
      (ls : gmap string string) (key : string) (d : T) :
  JS.throws (Storage.storage_get parse ls key d) = false
  /\ (ls !! key = None -> Storage.storage_get parse ls key d = JS.Return d)
  /\ (forall raw e, ls !! key = Some raw -> parse raw = JS.Throw e ->
                    Storage.storage_get parse ls key d = JS.Return d).
Proof.
  unfold Storage.storage_get, Storage.parse_or, Storage.getItem.
  repeat split.
  - destruct (ls !! key) as [raw|]; [|reflexivity].
    destruct (JS.truthy (Some raw)); [|reflexivity].
    destruct (parse raw); reflexivity.
  - intros ->. reflexivity.
  - intros raw e -> Hp. destruct (JS.truthy (Some raw)); [|reflexivity].
    rewrite Hp. reflexivity.
Qed.

Lemma truthy_nonempty (raw : string) : raw <> "" -> JS.truthy (Some raw) = true.
Proof. destruct raw; [congruence | reflexivity]. Qed.

Lemma initial_state_throws {T} (parse : string -> JS.completion T)
      (ls : gmap string string) (key : string) (empty : T) (raw e : string) :
  ls !! key = Some raw -> raw <> "" -> parse raw = JS.Throw e ->
  Storage.initial_state parse ls key empty = JS.Throw e.
Proof.
  intros Hk Hne Hp. unfold Storage.initial_state, Storage.parse_or, Storage.getItem.
  rewrite Hk, truthy_nonempty, Hp by assumption. reflexivity.
Qed.

(** C6. The reads of the Tasks and Subjects pages are not guarded: when the
    stored string is non-empty and [JSON.parse] throws on it, the lazy
    initialiser throws the same error to its caller instead of returning the
    empty default. *)
Theorem page_reads_throw_on_corrupt_value (raw e : string) (ls : gmap string string) :
  raw <> "" ->
  (forall parse_tasks,
      ls !! "tasks" = Some raw -> parse_tasks raw = JS.Throw e ->
      Tasks.init parse_tasks ls = JS.Throw e)
  /\ (forall parse_subjects parse_sessions,
         ls !! "subjects" = Some raw -> parse_subjects raw = JS.Throw e ->
         Subjects.init parse_subjects parse_sessions ls = JS.Throw e)
  /\ (forall (R S : Type) (parse : string -> JS.completion (list R)) (convert : R -> S),
         ls !! "studyTime" = Some raw -> parse raw = JS.Throw e ->
         Analytics.getStudySessions parse convert ls = JS.Throw e).
Proof.
  intros Hne. repeat split.
  - intros parse Hk Hp. unfold Tasks.init.
    eapply initial_state_throws; eassumption.
  - intros p1 p2 Hk Hp. unfold Subjects.init.
    erewrite initial_state_throws; [reflexivity | eassumption..].
  - intros R S parse convert Hk Hp.
    unfold Analytics.getStudySessions, Storage.getItem.
    rewrite Hk, truthy_nonempty, Hp by assumption. reflexivity.
Qed.

Lemma page_reads_throw_on_corrupt_value_witness :
  Tasks.init parse_empty_array corrupt_store = JS.Throw "SyntaxError"
  /\ Storage.storage_get (T := list Types.Task) parse_empty_array corrupt_store "tasks" []
     = JS.Return [].
Proof.
  split.
  - apply (page_reads_throw_on_corrupt_value "{" "SyntaxError" corrupt_store);
      [discriminate | reflexivity | reflexivity].
  - reflexivity.
Defined.

(** ** Deleting a subject (Subjects page) *)

(** C9. Deleting a subject keeps, in order, exactly the subjects whose id
    differs from the given one, and leaves the study sessions untouched: the
    component's sessions, each session's subject-name field, and the stored
    [studyTime] value are what they were. *)
Theorem delete_subject_keeps_sessions
        (stringify_subjects : list Types.Subject -> string)
        (st : Subjects.State) (ls : gmap string string) (id : string) :
  let st' := fst (Subjects.deleteSubject stringify_subjects st ls id) in
  let ls' := snd (Subjects.deleteSubject stringify_subjects st ls id) in
  Subjects.subjects st'
  = filter (fun s => Types.subject_id s <> id) (Subjects.subjects st)
  /\ (forall s, s ∈ Subjects.subjects st'
                <-> s ∈ Subjects.subjects st /\ Types.subject_id s <> id)
  /\ Subjects.studySessions st' = Subjects.studySessions st
  /\ Types.subject <$> Subjects.studySessions st'
     = Types.subject <$> Subjects.studySessions st
  /\ ls' !! "studyTime" = ls !! "studyTime"
  /\ ls' !! "subjects" = Some (stringify_subjects (Subjects.subjects st')).
Proof.
  cbv zeta. unfold Subjects.deleteSubject, Subjects.handleDeleteSubject,
              Subjects.persist, Storage.setItem. simpl.
  assert (Hf : List.filter (fun s => negb (String.eqb (Types.subject_id s) id))
                           (Subjects.subjects st)
               = filter (fun s => Types.subject_id s <> id) (Subjects.subjects st)).
  { apply filter_bool_prop. intros s. rewrite negb_true_iff.
    destruct (String.eqb_spec (Types.subject_id s) id); split; congruence. }
  rewrite Hf. repeat apply conj; try reflexivity.
  - intros s. rewrite list_elem_of_filter. tauto.
  - apply lookup_insert_ne. discriminate.
  - apply lookup_insert_eq.
Qed.

(** ** Completion toggle (Tasks page) *)

(** C10. The toggle keeps the length and order of the list, replaces each
    task that has the given id by the same task with only [completed]
    negated, leaves every other task as it is, and is undone by a second
    toggle of the same id. *)
Theorem toggle_changes_only_completed (tasks : list Types.Task) (taskId : string) :
  length (Tasks.handleTaskComplete tasks taskId) = length tasks
  /\ (forall i : nat,
         Tasks.handleTaskComplete tasks taskId !! i
         = (fun t => if decide (Types.task_id t = taskId)
                     then {| Types.task_id := Types.task_id t;
                             Types.title := Types.title t;
                             Types.task_description := Types.task_description t;
                             Types.dueDate := Types.dueDate t;
                             Types.completed := negb (Types.completed t) |}
                     else t) <$> tasks !! i)
  /\ Tasks.handleTaskComplete (Tasks.handleTaskComplete tasks taskId) taskId = tasks.
Proof.
  unfold Tasks.handleTaskComplete. repeat apply conj.
  - apply length_map.
  - intros i. change (List.map ?f tasks) with (f <$> tasks).
    rewrite list_lookup_fmap.
    destruct (tasks !! i) as [t|]; [|reflexivity]. simpl.
    destruct (String.eqb_spec (Types.task_id t) taskId), (decide (Types.task_id t = taskId));
      try contradiction; reflexivity.
  - rewrite List.map_map. rewrite <- (List.map_id tasks) at 2.
    apply List.map_ext. intros t.
    destruct (String.eqb (Types.task_id t) taskId) eqn:E.
    + simpl. rewrite E. destruct t as [i ti d du c]. unfold Tasks.toggled. simpl.
      rewrite negb_involutive. reflexivity.
    + rewrite E. reflexivity.
Qed.

(** ** Last-7-days histogram (Analytics page) *)

Lemma string_length_app (a b : string) :
  String.length (a ++ b) = (String.length a + String.length b)%nat.
Proof.
  induction a as [|c a IH]; [reflexivity|].
  change (S (String.length (a ++ b)) = S (String.length a + String.length b)).
  rewrite IH. reflexivity.
Qed.

(** Equal strings with tails of equal length have equal tails. *)
Lemma append_tail_inj (a b x y : string) :
  String.length x = String.length y -> a ++ x = b ++ y -> x = y.
Proof.
  revert b. induction a as [|c a IH]; intros b Hlen Heq.
  - change (x = b ++ y) in Heq.
    destruct b as [|c' b]; [exact Heq|].
    apply (f_equal String.length) in Heq. rewrite string_length_app in Heq.
    simpl in Heq. lia.
  - destruct b as [|c' b].
    + change (String c (a ++ x) = y) in Heq.
      apply (f_equal String.length) in Heq. simpl in Heq.
      rewrite string_length_app in Heq. lia.
    + change (String c (a ++ x) = String c' (b ++ y)) in Heq.
      injection Heq as _ Heq. exact (IH b Hlen Heq).
Qed.

Lemma monthDayText_table :
  forallb (fun m => forallb (monthDayText_decodes m) (seqZ 1 31)) (seqZ 1 12) = true.
Proof. vm_compute. reflexivity. Qed.

Lemma monthDayText_spec m d :
  1 <= m <= 12 -> 1 <= d <= 31 ->
  String.length (monthDayText m d) = 6%nat
  /\ JSDate.field (monthDayText m d) 1 2 = Some m
  /\ JSDate.field (monthDayText m d) 4 2 = Some d.
Proof.
  intros Hm Hd.
  pose proof monthDayText_table as T.
  rewrite forallb_forall in T.
  specialize (T m). rewrite forallb_forall in T.
  assert (Hdec : monthDayText_decodes m d = true).
  { apply T; apply list_elem_of_In, elem_of_seqZ; lia. }
  unfold monthDayText_decodes in Hdec.
  rewrite !andb_true_iff, !bool_decide_eq_true, Nat.eqb_eq in Hdec. tauto.
Qed.

Lemma format_yyyy_MM_dd_split tz t :
  DateFns.format_yyyy_MM_dd tz t
  = JSDate.padStart0 (DateFns.eraYear (JSDate.year (JSDate.localCivil tz t))) 4
    ++ monthDayText (JSDate.month (JSDate.localCivil tz t))
                    (JSDate.mday (JSDate.localCivil tz t)).
Proof. reflexivity. Qed.

Lemma localDay_subDays tz now i :
  JSDate.localDay tz (DateFns.subDays now i) = JSDate.localDay tz now - i.
Proof.
  unfold JSDate.localDay, DateFns.subDays, JSDate.addDays.
  replace (now + - i * JSDate.msPerDay + tz) with (now + tz + (- i) * JSDate.msPerDay) by lia.
  rewrite Z.div_add by (unfold JSDate.msPerDay; lia). lia.
Qed.

(** Different days of the seven-day window have different date strings. *)
Lemma window_dates_distinct tz now i j :
  0 <= i <= 6 -> 0 <= j <= 6 -> i <> j ->
  DateFns.format_yyyy_MM_dd tz (DateFns.subDays now i)
  <> DateFns.format_yyyy_MM_dd tz (DateFns.subDays now j).
Proof.
  intros Hi Hj Hne Heq.
  rewrite !format_yyyy_MM_dd_split in Heq.
  unfold JSDate.localCivil in Heq. rewrite !localDay_subDays in Heq.
  set (n := JSDate.localDay tz now) in *.
  destruct (civil_of_day_range (n - i)) as [Hmi Hdi].
  destruct (civil_of_day_range (n - j)) as [Hmj Hdj].
  destruct (monthDayText_spec _ _ Hmi Hdi) as (Li & Mi & Di).
  destruct (monthDayText_spec _ _ Hmj Hdj) as (Lj & Mj & Dj).
  apply append_tail_inj in Heq; [|congruence].
  rewrite Heq in Mi, Di.
  apply (month_day_distinct (n - i) (n - j)); [lia | lia |].
  f_equal; congruence.
Qed.

Lemma dayBar_spec tz now studyTime i :
  Analytics.dayBar tz now studyTime i
  = {| Analytics.label := DateFns.format_MMM_d tz (DateFns.subDays now i);
       Analytics.minutes := Histogram.dayMinutes tz (DateFns.subDays now i) studyTime |}.
Proof.
  unfold Analytics.dayBar, Histogram.dayMinutes. cbv zeta.
  rewrite reduce_sum_sumZ.
  rewrite (filter_bool_prop _
             (fun s => Analytics.date s
                       = DateFns.format_yyyy_MM_dd tz (DateFns.subDays now i)))
    by (intros s; apply String.eqb_eq).
  reflexivity.
Qed.

Lemma dayMinutes_none tz day (studyTime : list Analytics.StudySession) :
  (forall s, s ∈ studyTime -> Analytics.date s <> DateFns.format_yyyy_MM_dd tz day) ->
  Histogram.dayMinutes tz day studyTime = 0.
Proof.
  intros Hno. unfold Histogram.dayMinutes.
  induction studyTime as [|s l IH]; [reflexivity|].
  rewrite filter_cons, decide_False by (apply Hno; left).
  apply IH. intros s' Hin. apply Hno. right. exact Hin.
Qed.

(** Two sessions of 30 and 20 minutes on day [j] of the window. *)
Lemma dayMinutes_two_sessions tz now i j subj1 subj2 :
  0 <= i <= 6 -> 0 <= j <= 6 ->
  let d := DateFns.format_yyyy_MM_dd tz (DateFns.subDays now j) in
  Histogram.dayMinutes tz (DateFns.subDays now i)
    [ {| Analytics.date := d; Analytics.durationMinutes := 30;
         Analytics.subject := subj1 |};
      {| Analytics.date := d; Analytics.durationMinutes := 20;
         Analytics.subject := subj2 |} ]
  = if i =? j then 50 else 0.
Proof.
  intros Hi Hj d. subst d.
  destruct (Z.eqb_spec i j) as [->|Hne].
  - unfold Histogram.dayMinutes.
    rewrite filter_cons, decide_True by reflexivity.
    rewrite filter_cons, decide_True by reflexivity.
    reflexivity.
  - apply dayMinutes_none. intros s Hin.
    assert (Hd : Analytics.date s
                 = DateFns.format_yyyy_MM_dd tz (DateFns.subDays now j)).
    { apply elem_of_cons in Hin as [->|Hin]; [reflexivity|].
      apply elem_of_cons in Hin as [->|Hin]; [reflexivity|].
      apply elem_of_nil in Hin. contradiction. }
    rewrite Hd. intros Heq. symmetry in Heq.
    exact (window_dates_distinct tz now i j Hi Hj Hne Heq).
Qed.

(** C7. For every list of sessions the last-7-days histogram is the list of
    exactly seven (label, minutes) entries for the calendar days
    [today - 6], ..., [today], oldest first; each entry's minutes are the sum
    of [durationMinutes] over the sessions whose date string is exactly that
    day's; a day without sessions has 0; and two sessions of 30 and 20
    minutes on one day of the window, with no other session, give 50 for
    that day and 0 for the six others. *)
Theorem last7Days_is_daily_histogram
        (tz now : Z) (studyTime : list Analytics.StudySession) :
  Analytics.last7Days tz now studyTime = Histogram.histogram tz now studyTime
  /\ length (Analytics.last7Days tz now studyTime) = 7%nat
  /\ (fun i => JSDate.localDay tz (DateFns.subDays now i)) <$> [6; 5; 4; 3; 2; 1; 0]
     = (fun k => JSDate.localDay tz now - 6 + k) <$> [0; 1; 2; 3; 4; 5; 6]
  /\ (forall day,
         (forall s, s ∈ studyTime ->
                    Analytics.date s <> DateFns.format_yyyy_MM_dd tz day) ->
         Histogram.dayMinutes tz day studyTime = 0)
  /\ (forall (j : Z) (subj1 subj2 : string),
         0 <= j <= 6 ->
         let d := DateFns.format_yyyy_MM_dd tz (DateFns.subDays now j) in
         Analytics.minutes
           <$> Analytics.last7Days tz now
                 [ {| Analytics.date := d; Analytics.durationMinutes := 30;
                      Analytics.subject := subj1 |};
                   {| Analytics.date := d; Analytics.durationMinutes := 20;
                      Analytics.subject := subj2 |} ]
         = (fun i => if i =? j then 50 else 0) <$> [6; 5; 4; 3; 2; 1; 0]).
Proof.
  assert (Hmain : forall l, Analytics.last7Days tz now l = Histogram.histogram tz now l).
  { intros l. unfold Analytics.last7Days, Histogram.histogram.
    cbn [seq List.map rev app fmap list_fmap]. rewrite !dayBar_spec. reflexivity. }
  repeat apply conj.
  - apply Hmain.
  - rewrite Hmain. reflexivity.
  - cbn [fmap list_fmap]. rewrite !localDay_subDays.
    repeat f_equal; lia.
  - intros day. apply dayMinutes_none.
  - intros j subj1 subj2 Hj d. subst d. rewrite Hmain.
    unfold Histogram.histogram. rewrite <- list_fmap_compose.
    cbn [fmap list_fmap compose Analytics.minutes].
    rewrite !dayMinutes_two_sessions by lia. reflexivity.
Qed.

Lemma last7Days_is_daily_histogram_witness :
  Analytics.minutes <$> Analytics.last7Days 0 mid_april april_13_sessions
  = [0; 0; 0; 50; 0; 0; 0]
  /\ Analytics.label <$> Analytics.last7Days 0 mid_april april_13_sessions
     = ["Apr 10"; "Apr 11"; "Apr 12"; "Apr 13"; "Apr 14"; "Apr 15"; "Apr 16"].
Proof.
  destruct (last7Days_is_daily_histogram 0 mid_april april_13_sessions)
    as (_ & _ & _ & _ & H).
  split.
  - exact (H 3 "Math" "Physics" ltac:(lia)).
  - vm_compute. reflexivity.
Defined.

(* ================================================================== *)
(** * Further properties of the modelled code *)
(* ================================================================== *)

(** ** Storage round trips *)

Lemma storage_set_then_get_aux {T} (parse : string -> JS.completion T)
      (stringify : T -> string) (ls : gmap string string) (key : string) (v d : T) :
  stringify v <> "" ->
  parse (stringify v) = JS.Return v ->
  Storage.storage_get parse (Storage.storage_set stringify ls key v) key d = JS.Return v.
Proof.
  intros Hne Hp.
  unfold Storage.storage_get, Storage.storage_set, Storage.setItem, Storage.getItem,
         Storage.parse_or.
  rewrite lookup_insert_eq, truthy_nonempty, Hp by assumption. reflexivity.
Qed.

(** X1. What [storage.set] wrote, [storage.get] reads back, provided the
    serialised text is not empty and parses to the value; every other key
    reads as before. *)
Theorem storage_set_then_get {T} (parse : string -> JS.completion T)
        (stringify : T -> string) (ls : gmap string string)
        (key other : string) (v d : T) :
  stringify v <> "" ->
  parse (stringify v) = JS.Return v ->
  Storage.storage_get parse (Storage.storage_set stringify ls key v) key d = JS.Return v
  /\ (other <> key ->
      Storage.storage_get parse (Storage.storage_set stringify ls key v) other d
      = Storage.storage_get parse ls other d).
Proof.
  intros Hne Hp.
  unfold Storage.storage_get, Storage.storage_set, Storage.setItem, Storage.getItem,
         Storage.parse_or.
  split.
  - rewrite lookup_insert_eq, truthy_nonempty, Hp by assumption. reflexivity.
  - intros Hk. rewrite lookup_insert_ne by congruence. reflexivity.
Qed.

Lemma storage_set_then_get_witness :
  Storage.storage_get parse_int (Storage.storage_set stringify_int ∅ "n" 42) "n" 0
  = JS.Return 42.
Proof.
  apply (storage_set_then_get parse_int stringify_int ∅ "n" "m" 42 0).
  - discriminate.
  - reflexivity.
Defined.

Lemma deleteSubject_result
      (stringify_subjects : list Types.Subject -> string)
      (st : Subjects.State) (ls : gmap string string) (id : string) :
  let kept := filter (fun s => Types.subject_id s <> id) (Subjects.subjects st) in
  Subjects.deleteSubject stringify_subjects st ls id
  = ({| Subjects.subjects := kept;
        Subjects.studySessions := Subjects.studySessions st |},
     <["subjects" := stringify_subjects kept]> ls).
Proof.
  cbv zeta. unfold Subjects.deleteSubject, Subjects.handleDeleteSubject,
              Subjects.persist, Storage.setItem. simpl.
  rewrite (filter_bool_prop _ (fun s => Types.subject_id s <> id)); [reflexivity|].
  intros s. rewrite negb_true_iff.
  destruct (String.eqb_spec (Types.subject_id s) id); split; congruence.
Qed.

(** X2. A deletion survives a reload of the Subjects page: once the effect
    has stored the new list, the initialisers return the subjects without
    the deleted one, together with the stored sessions. *)
Theorem delete_subject_survives_reload
        (parse_subjects : string -> JS.completion (list Types.Subject))
        (parse_sessions : string -> JS.completion (list Types.StudySession))
        (stringify_subjects : list Types.Subject -> string)
        (st : Subjects.State) (ls : gmap string string) (id : string)
        (sessions : list Types.StudySession) :
  let kept := filter (fun s => Types.subject_id s <> id) (Subjects.subjects st) in
  stringify_subjects kept <> "" ->
  parse_subjects (stringify_subjects kept) = JS.Return kept ->
  Storage.initial_state parse_sessions ls "studyTime" [] = JS.Return sessions ->
  Subjects.init parse_subjects parse_sessions
    (snd (Subjects.deleteSubject stringify_subjects st ls id))
  = JS.Return {| Subjects.subjects := kept; Subjects.studySessions := sessions |}.
Proof.
  intros kept Hne Hp Hsess. subst kept.
  rewrite deleteSubject_result. simpl.
  unfold Subjects.init, Storage.initial_state, Storage.getItem in *.
  rewrite lookup_insert_eq, lookup_insert_ne by discriminate.
  unfold Storage.parse_or at 1.
  rewrite truthy_nonempty, Hp by assumption.
  rewrite Hsess. reflexivity.
Qed.

Lemma delete_subject_survives_reload_witness :
  Subjects.init
    (fun s => if String.eqb s "[math,art]" then JS.Return [math; art]
              else JS.Throw "SyntaxError")
    parse_empty_array
    (snd (Subjects.deleteSubject (fun _ => "[math,art]") three_subjects ∅ "s2"))
  = JS.Return {| Subjects.subjects := [math; art]; Subjects.studySessions := [] |}.
Proof.
  apply (delete_subject_survives_reload
           (fun s => if String.eqb s "[math,art]" then JS.Return [math; art]
                     else JS.Throw "SyntaxError")
           parse_empty_array (fun _ => "[math,art]") three_subjects ∅ "s2" []).
  - discriminate.
  - reflexivity.
  - reflexivity.
Defined.

(** X3. A key that is absent, or holds the empty string, reads as the
    default in every read of the program, whatever the parser would do: the
    parser is not consulted. *)
Theorem absent_or_empty_reads_default
        {T} (parse : string -> JS.completion T) (ls : gmap string string)
        (key : string) (d : T) :
  ls !! key = None \/ ls !! key = Some "" ->
  Storage.initial_state parse ls key d = JS.Return d
  /\ Storage.storage_get parse ls key d = JS.Return d.
Proof.
  intros H.
  unfold Storage.storage_get, Storage.initial_state, Storage.getItem, Storage.parse_or.
  destruct H as [-> | ->]; split; reflexivity.
Qed.

Lemma absent_or_empty_reads_default_witness :
  Storage.initial_state (T := list Types.Task) (fun _ => JS.Throw "SyntaxError")
    {[ "tasks" := "" ]} "tasks" [] = JS.Return [].
Proof.
  apply (absent_or_empty_reads_default (T := list Types.Task)
           (fun _ => JS.Throw "SyntaxError") {[ "tasks" := "" ]} "tasks" []).
  right. reflexivity.
Defined.

(** ** Subjects page: add, edit, sort, total *)

Lemma filter_id_absent {A} (key : A -> string) (id : string) (l : list A) :
  id ∉ key <$> l ->
  List.filter (fun x => negb (String.eqb (key x) id)) l = l.
Proof.
  induction l as [|x l IH]; intros Hnotin; [reflexivity|].
  rewrite fmap_cons in Hnotin. apply not_elem_of_cons in Hnotin as [Hx Hl].
  simpl. destruct (String.eqb_spec (key x) id) as [E|E]; [congruence|].
  simpl. rewrite IH by assumption. reflexivity.
Qed.

(** X4. Adding a subject under a fresh id keeps the ids free of
    repetitions, and deleting that id again gives back the state from before
    the addition. *)
Theorem add_then_delete_subject (st : Subjects.State) (uuid : string)
        (subjectData : SubjectsOps.SubjectData) :
  uuid ∉ Types.subject_id <$> Subjects.subjects st ->
  Subjects.handleDeleteSubject (SubjectsOps.handleAddSubject st uuid subjectData) uuid
  = st
  /\ (NoDup (Types.subject_id <$> Subjects.subjects st) ->
      NoDup (Types.subject_id
               <$> Subjects.subjects (SubjectsOps.handleAddSubject st uuid subjectData))).
Proof.
  intros Hfresh. split.
  - unfold Subjects.handleDeleteSubject, SubjectsOps.handleAddSubject. simpl.
    rewrite List.filter_app, filter_id_absent by assumption. simpl.
    rewrite String.eqb_refl. simpl. rewrite app_nil_r.
    destruct st; reflexivity.
  - intros Hnd. unfold SubjectsOps.handleAddSubject. simpl.
    rewrite fmap_app. apply NoDup_app. split; [exact Hnd|]. split.
    + intros x Hx Hin. simpl in Hin. apply list_elem_of_singleton in Hin. subst x.
      contradiction.
    + simpl. apply NoDup_singleton.
Qed.

Lemma add_then_delete_subject_witness :
  Subjects.handleDeleteSubject
    (SubjectsOps.handleAddSubject three_subjects "s4" essay_data) "s4"
  = three_subjects.
Proof.
  apply (add_then_delete_subject three_subjects "s4" essay_data).
  vm_compute. intros H.
  repeat (apply elem_of_cons in H as [H|H]; [discriminate|]).
  apply elem_of_nil in H. exact H.
Defined.

(** X5. Editing keeps the list of ids (and so its length and order) and the
    sessions; each subject with the given id takes the four fields of the
    form and keeps its id, every other subject is untouched; editing an id
    that no subject has changes nothing. *)
Theorem edit_subject_keeps_ids (st : Subjects.State) (id : string)
        (subjectData : SubjectsOps.SubjectData) :
  let st' := SubjectsOps.handleEditSubject st id subjectData in
  Types.subject_id <$> Subjects.subjects st' = Types.subject_id <$> Subjects.subjects st
  /\ Subjects.studySessions st' = Subjects.studySessions st
  /\ (forall i : nat,
         Subjects.subjects st' !! i
         = (fun s => if decide (Types.subject_id s = id)
                     then SubjectsOps.newSubject id subjectData else s)
             <$> Subjects.subjects st !! i)
  /\ (id ∉ Types.subject_id <$> Subjects.subjects st -> st' = st).
Proof.
  cbv zeta. unfold SubjectsOps.handleEditSubject. simpl.
  repeat apply conj.
  - change (List.map ?f ?l) with (f <$> l). rewrite <- list_fmap_compose.
    apply list_fmap_ext. intros i s _. simpl.
    destruct (String.eqb (Types.subject_id s) id); reflexivity.
  - reflexivity.
  - intros i. change (List.map ?f ?l) with (f <$> l). rewrite list_lookup_fmap.
    destruct (Subjects.subjects st !! i) as [s|]; [|reflexivity]. simpl.
    destruct (String.eqb_spec (Types.subject_id s) id) as [E|E],
             (decide (Types.subject_id s = id)); try contradiction; [|reflexivity].
    unfold SubjectsOps.merged, SubjectsOps.newSubject. rewrite E. reflexivity.
  - intros Hnotin. destruct st as [subs sess]. simpl in *. f_equal.
    induction subs as [|s l IH]; [reflexivity|].
    rewrite fmap_cons in Hnotin. apply not_elem_of_cons in Hnotin as [Hs Hl].
    simpl. destruct (String.eqb_spec (Types.subject_id s) id); [congruence|].
    rewrite IH by assumption. reflexivity.
Qed.

Lemma edit_subject_keeps_ids_witness :
  SubjectsOps.handleEditSubject three_subjects "s9" essay_data = three_subjects.
Proof.
  apply (edit_subject_keeps_ids three_subjects "s9" essay_data).
  vm_compute. intros H.
  repeat (apply elem_of_cons in H as [H|H]; [discriminate|]).
  apply elem_of_nil in H. exact H.
Defined.

Lemma colorMatches_spec (filterColor : option string) (s : Types.Subject) :
  SubjectsOps.colorMatches filterColor s = true
  <-> filterColor = None \/ filterColor = Some "" \/ filterColor = Some (Types.color s).
Proof.
  unfold SubjectsOps.colorMatches.
  destruct filterColor as [[|c f]|]; simpl.
  - intuition.
  - destruct (String.eqb_spec (Types.color s) (String c f)) as [E|E].
    + rewrite E. intuition.
    + split; [discriminate|]. intros [H|[H|H]]; congruence.
  - intuition.
Qed.

(** X6. The list the page shows is a rearrangement of the subjects that
    pass the colour filter, for either sort key and whatever the comparator
    returns (NaN included): nothing is dropped or repeated by the sort; with
    no filter, or the empty one, all subjects are shown. *)
Theorem sorted_subjects_rearranges
        (Date_parse : string -> option Z) (tz : Z)
        (localeCompare : string -> string -> Z)
        (filterColor : option string) (sortBy : SubjectsOps.sortKey)
        (now : Z) (st : Subjects.State) :
  let shown := SubjectsOps.sortedSubjects Date_parse tz localeCompare
                 filterColor sortBy now st in
  shown ≡ₚ filter (fun s => filterColor = None \/ filterColor = Some ""
                            \/ filterColor = Some (Types.color s))
                  (Subjects.subjects st)
  /\ (filterColor = None \/ filterColor = Some "" -> shown ≡ₚ Subjects.subjects st).
Proof.
  cbv zeta. unfold SubjectsOps.sortedSubjects.
  assert (Hf : List.filter (SubjectsOps.colorMatches filterColor) (Subjects.subjects st)
               = filter (fun s => filterColor = None \/ filterColor = Some ""
                                  \/ filterColor = Some (Types.color s))
                        (Subjects.subjects st)).
  { apply filter_bool_prop. intros s. apply colorMatches_spec. }
  split.
  - rewrite sort_perm, Hf. reflexivity.
  - intros Hnone. rewrite sort_perm, Hf. clear Hf.
    induction (Subjects.subjects st) as [|s l IH]; [reflexivity|].
    rewrite filter_cons. destruct (decide _) as [_|Hn]; [|tauto].
    apply Permutation_skip. exact IH.
Qed.

Lemma sorted_subjects_rearranges_witness :
  SubjectsOps.sortedSubjects JSDate.parseISO 0 (fun _ _ => 0) None
    SubjectsOps.byProgress mid_april three_subjects
  ≡ₚ [math; physics; art].
Proof.
  apply (sorted_subjects_rearranges JSDate.parseISO 0 (fun _ _ => 0) None
           SubjectsOps.byProgress mid_april three_subjects).
  left. reflexivity.
Defined.

Lemma sumZ_cons (x : Z) (l : list Z) : sumZ (x :: l) = x + sumZ l.
Proof. reflexivity. Qed.

Lemma sumZ_nil : sumZ [] = 0.
Proof. reflexivity. Qed.

Lemma weeklyMinutes_sumZ Date_parse tz now sessions subjectName :
  Subjects.weeklyMinutes Date_parse tz now sessions subjectName
  = sumZ (Types.durationMinutes
            <$> filter (Spec.InCurrentWeek Date_parse tz now subjectName) sessions).
Proof.
  unfold Subjects.weeklyMinutes. rewrite reduce_sum_sumZ.
  rewrite (filter_bool_prop _ (Spec.InCurrentWeek Date_parse tz now subjectName))
    by (intros x; apply inWeek_spec).
  reflexivity.
Qed.

Lemma totalWeeklyHours_fold Date_parse tz now sessions
      (l : list Types.Subject) (a : Q) :
  exists q : Q,
    fold_left
      (fun total s =>
         JSNum.add total
           (Subjects.getWeeklyProgress Date_parse tz now sessions (Types.name s)))
      l (JS.Fin a) = JS.Fin q
    /\ (q == a + inject_Z (sumZ ((fun s => Subjects.weeklyMinutes Date_parse tz now
                                              sessions (Types.name s)) <$> l)) / 60)%Q.
Proof.
  revert a. induction l as [|s l IH]; intros a.
  - exists a. split; [reflexivity|]. rewrite fmap_nil, sumZ_nil. field.
  - cbn [fold_left]. unfold Subjects.getWeeklyProgress at 2.
    rewrite div_of_Z_60. cbn [JSNum.add].
    destruct (IH (a + inject_Z (Subjects.weeklyMinutes Date_parse tz now sessions
                                  (Types.name s)) / 60)%Q) as (q & Hq & Heq).
    exists q. split; [exact Hq|].
    rewrite Heq, fmap_cons, sumZ_cons, inject_Z_plus. field.
Qed.

Lemma week_sum_by_names Date_parse tz now
      (sessions : list Types.StudySession) (names : list string) :
  NoDup names ->
  sumZ ((fun n => sumZ (Types.durationMinutes
                          <$> filter (Spec.InCurrentWeek Date_parse tz now n) sessions))
          <$> names)
  = sumZ (Types.durationMinutes
            <$> filter (fun s => Spec.InCurrentWeek Date_parse tz now (Types.subject s) s
                                 /\ Types.subject s ∈ names) sessions).
Proof.
  induction names as [|n ns IH]; intros Hnd.
  - simpl. induction sessions as [|s l IHl]; [reflexivity|].
    rewrite filter_cons, decide_False; [exact IHl|].
    intros [_ Hin]. apply elem_of_nil in Hin. exact Hin.
  - apply NoDup_cons in Hnd as [Hn Hnd]. rewrite fmap_cons, sumZ_cons.
    rewrite (IH Hnd). clear IH.
    induction sessions as [|s l IHl]; [reflexivity|].
    rewrite !filter_cons.
    destruct (decide (Spec.InCurrentWeek Date_parse tz now n s)) as [H1|H1];
      destruct (decide (Spec.InCurrentWeek Date_parse tz now (Types.subject s) s
                        /\ Types.subject s ∈ ns)) as [H2|H2];
      destruct (decide (Spec.InCurrentWeek Date_parse tz now (Types.subject s) s
                        /\ Types.subject s ∈ n :: ns)) as [H3|H3];
      rewrite ?fmap_cons, ?sumZ_cons; try lia; exfalso;
      unfold Spec.InCurrentWeek in *; rewrite ?elem_of_cons in *;
      destruct (Date_parse (Types.date s)); intuition congruence.
Qed.

(** X7. When no two subjects share a name, the total in the page header is
    a finite number and equals, in hours, the minutes of the sessions of this
    week whose subject field names one of the subjects; sessions of deleted
    or unknown subjects add nothing and no session is counted twice. *)
Theorem total_weekly_hours_counts_each_session_once
        (Date_parse : string -> option Z) (tz : Z) (now : Z) (st : Subjects.State) :
  NoDup (Types.name <$> Subjects.subjects st) ->
  exists q : Q,
    SubjectsOps.totalWeeklyHours Date_parse tz now st = JS.Fin q
    /\ (q == inject_Z
               (sumZ (Types.durationMinutes
                        <$> filter (fun s =>
                                      Spec.InCurrentWeek Date_parse tz now (Types.subject s) s
                                      /\ Types.subject s ∈ Types.name <$> Subjects.subjects st)
                                   (Subjects.studySessions st)))
             / 60)%Q.
Proof.
  intros Hnd. unfold SubjectsOps.totalWeeklyHours.
  destruct (totalWeeklyHours_fold Date_parse tz now (Subjects.studySessions st)
              (Subjects.subjects st) 0) as (q & Hq & Heq).
  exists q. split; [exact Hq|]. rewrite Heq.
  rewrite <- (week_sum_by_names Date_parse tz now _ _ Hnd).
  rewrite <- list_fmap_compose.
  erewrite (list_fmap_ext _ ((fun n => sumZ (Types.durationMinutes
                          <$> filter (Spec.InCurrentWeek Date_parse tz now n)
                                (Subjects.studySessions st))) ∘ Types.name));
    [field|].
  intros i s _. simpl. apply weeklyMinutes_sumZ.
Qed.

Lemma total_weekly_hours_counts_each_session_once_witness :
  exists q : Q,
    SubjectsOps.totalWeeklyHours JSDate.parseISO 0 mid_april three_subjects = JS.Fin q
    /\ (q == inject_Z
               (sumZ (Types.durationMinutes
                        <$> filter (fun s =>
                                      Spec.InCurrentWeek JSDate.parseISO 0 mid_april
                                        (Types.subject s) s
                                      /\ Types.subject s
                                         ∈ Types.name <$> Subjects.subjects three_subjects)
                                   (Subjects.studySessions three_subjects)))
             / 60)%Q.
Proof.
  apply (total_weekly_hours_counts_each_session_once JSDate.parseISO 0 mid_april
           three_subjects).
  vm_compute. repeat constructor; intros H;
    repeat (apply elem_of_cons in H as [H|H]; [discriminate|]);
    apply elem_of_nil in H; exact H.
Defined.

Example total_weekly_hours_sample :
  SubjectsOps.totalWeeklyHours JSDate.parseISO 0 mid_april three_subjects
  = JS.Fin (0 + 75 / 60 + 400 / 60 + 0 / 60).
Proof. vm_compute. reflexivity. Qed.

(** ** SubjectManager: selection, bulk delete, timers *)

Lemma filter_has_prop {A} (key : A -> string) (sel : list string) (l : list A) :
  List.filter (fun s => JSSet.has sel (key s)) l = filter (fun s => key s ∈ sel) l.
Proof.
  apply filter_bool_prop. intros s. unfold JSSet.has. apply bool_decide_eq_true.
Qed.

(** X8. A bulk delete reaches the subjects page as a series of plain
    [setSubjects] calls computed from one and the same rendered list, so only
    the last selected id is removed: every other subject, selected or not,
    is still there after the render, although all selected subjects are
    recorded as deleted and the selection is cleared. *)
Theorem bulk_delete_removes_only_last
        (parent : Subjects.State) (m : SubjectManager.State)
        (sel : list string) (lastId : string) :
  SubjectManager.selectedSubjects m = (sel ++ [lastId])%list ->
  let parent' := fst (SubjectManager.handleBulkDelete parent m) in
  let m' := snd (SubjectManager.handleBulkDelete parent m) in
  Subjects.subjects parent'
  = filter (fun s => Types.subject_id s <> lastId) (Subjects.subjects parent)
  /\ (forall s, s ∈ Subjects.subjects parent -> Types.subject_id s <> lastId ->
                s ∈ Subjects.subjects parent')
  /\ SubjectManager.deletedSubjects m'
     = filter (fun s => Types.subject_id s ∈ SubjectManager.selectedSubjects m)
              (Subjects.subjects parent)
  /\ SubjectManager.selectedSubjects m' = [].
Proof.
  intros Hsel. cbv zeta. unfold SubjectManager.handleBulkDelete. simpl.
  rewrite Hsel, List.map_app. simpl.
  unfold SubjectsOps.lastSet. rewrite last_last.
  assert (Hf : Subjects.subjects (Subjects.handleDeleteSubject parent lastId)
               = filter (fun s => Types.subject_id s <> lastId)
                        (Subjects.subjects parent)).
  { unfold Subjects.handleDeleteSubject. simpl.
    apply filter_bool_prop. intros s. rewrite negb_true_iff.
    destruct (String.eqb_spec (Types.subject_id s) lastId); split; congruence. }
  repeat apply conj.
  - exact Hf.
  - intros s Hin Hne. rewrite Hf. apply list_elem_of_filter. tauto.
  - apply filter_has_prop.
  - reflexivity.
Qed.

Lemma bulk_delete_removes_only_last_witness :
  Subjects.subjects
    (fst (SubjectManager.handleBulkDelete three_subjects
            (SubjectManager.with_selection idle_manager ["s1"; "s2"])))
  = [math; art].
Proof.
  apply (bulk_delete_removes_only_last three_subjects
           (SubjectManager.with_selection idle_manager ["s1"; "s2"]) ["s1"] "s2").
  reflexivity.
Defined.

Lemma elem_of_delete (sel : list string) (id x : string) :
  x ∈ JSSet.delete sel id <-> x ∈ sel /\ x <> id.
Proof.
  unfold JSSet.delete.
  rewrite (filter_bool_prop _ (fun y => y <> id)).
  - rewrite list_elem_of_filter. tauto.
  - intros y. rewrite negb_true_iff.
    destruct (String.eqb_spec y id); split; congruence.
Qed.

Lemma NoDup_delete (sel : list string) (id : string) :
  NoDup sel -> NoDup (JSSet.delete sel id).
Proof.
  intros H. unfold JSSet.delete.
  rewrite (filter_bool_prop _ (fun y => y <> id)).
  - apply NoDup_filter. exact H.
  - intros y. rewrite negb_true_iff.
    destruct (String.eqb_spec y id); split; congruence.
Qed.

Lemma elem_of_add (sel : list string) (id x : string) :
  x ∈ JSSet.add sel id <-> x ∈ sel \/ x = id.
Proof.
  unfold JSSet.add, JSSet.has. case_bool_decide as Hin.
  - split; [tauto|]. intros [H| ->]; assumption.
  - rewrite elem_of_app, list_elem_of_singleton. tauto.
Qed.

Lemma NoDup_add (sel : list string) (id : string) :
  NoDup sel -> NoDup (JSSet.add sel id).
Proof.
  intros H. unfold JSSet.add, JSSet.has. case_bool_decide as Hin; [exact H|].
  apply NoDup_app. split; [exact H|]. split.
  - intros x Hx Hx'. apply list_elem_of_singleton in Hx'. subst x. contradiction.
  - apply NoDup_singleton.
Qed.

Lemma toggle_selection_eq (m : SubjectManager.State) (id : string) :
  SubjectManager.selectedSubjects (SubjectManager.toggleSubjectSelection m id)
  = if bool_decide (id ∈ SubjectManager.selectedSubjects m)
    then JSSet.delete (SubjectManager.selectedSubjects m) id
    else JSSet.add (SubjectManager.selectedSubjects m) id.
Proof. reflexivity. Qed.

Lemma toggle_selection_spec (m : SubjectManager.State) (id : string) :
  NoDup (SubjectManager.selectedSubjects m) ->
  let sel' := SubjectManager.selectedSubjects
                (SubjectManager.toggleSubjectSelection m id) in
  NoDup sel'
  /\ (forall x, x ∈ sel'
                <-> (x <> id /\ x ∈ SubjectManager.selectedSubjects m)
                    \/ (x = id /\ id ∉ SubjectManager.selectedSubjects m)).
Proof.
  intros Hnd. cbv zeta. rewrite toggle_selection_eq.
  case_bool_decide as Hin.
  - split; [apply NoDup_delete; exact Hnd|].
    intros x. rewrite elem_of_delete. split; [tauto|].
    intros [[? ?]|[-> ?]]; [tauto | contradiction].
  - split; [apply NoDup_add; exact Hnd|].
    intros x. rewrite elem_of_add. split.
    + intros [H| ->]; [|tauto]. left. split; [|exact H]. intros ->. contradiction.
    + tauto.
Qed.

(** X9. Toggling a subject in the selection flips the membership of that id
    and of no other, keeps the set free of repetitions, and a second toggle
    of the same id restores the set (the id may have moved to the end of the
    iteration order). *)
Theorem toggle_selection_flips_one (m : SubjectManager.State) (id : string) :
  NoDup (SubjectManager.selectedSubjects m) ->
  let once := SubjectManager.toggleSubjectSelection m id in
  let twice := SubjectManager.toggleSubjectSelection once id in
  NoDup (SubjectManager.selectedSubjects once)
  /\ (id ∈ SubjectManager.selectedSubjects once
      <-> id ∉ SubjectManager.selectedSubjects m)
  /\ (forall x, x <> id ->
                (x ∈ SubjectManager.selectedSubjects once
                 <-> x ∈ SubjectManager.selectedSubjects m))
  /\ SubjectManager.selectedSubjects twice ≡ₚ SubjectManager.selectedSubjects m.
Proof.
  intros Hnd. cbv zeta.
  destruct (toggle_selection_spec m id Hnd) as [Hnd1 H1].
  destruct (toggle_selection_spec (SubjectManager.toggleSubjectSelection m id) id Hnd1)
    as [Hnd2 H2].
  split; [|split; [|split]].
  - exact Hnd1.
  - rewrite H1. tauto.
  - intros x Hx. rewrite H1. tauto.
  - apply NoDup_Permutation; [exact Hnd2 | exact Hnd |].
    intros x. rewrite H2, !H1.
    destruct (decide (x = id)) as [->|Hx];
      destruct (decide (id ∈ SubjectManager.selectedSubjects m)); tauto.
Qed.

Lemma toggle_selection_flips_one_witness :
  SubjectManager.selectedSubjects
    (SubjectManager.toggleSubjectSelection
       (SubjectManager.toggleSubjectSelection
          (SubjectManager.with_selection idle_manager ["s1"; "s2"]) "s1") "s1")
  ≡ₚ ["s1"; "s2"].
Proof.
  apply (toggle_selection_flips_one
           (SubjectManager.with_selection idle_manager ["s1"; "s2"]) "s1").
  simpl. repeat constructor; intros H;
    repeat (apply elem_of_cons in H as [H|H]; [discriminate|]);
    apply elem_of_nil in H; exact H.
Defined.

Lemma length_add (acc : list string) (y : string) :
  length (JSSet.add acc y)
  = if bool_decide (y ∈ acc) then length acc else S (length acc).
Proof.
  unfold JSSet.add, JSSet.has. case_bool_decide; [reflexivity|].
  rewrite length_app. simpl. lia.
Qed.

Lemma of_list_acc (l acc : list string) :
  NoDup acc ->
  let r := fold_left JSSet.add l acc in
  NoDup r
  /\ (forall x, x ∈ r <-> x ∈ acc \/ x ∈ l)
  /\ (length r <= length acc + length l)%nat.
Proof.
  revert acc. induction l as [|y l IH]; intros acc Hnd; cbv zeta.
  - simpl. repeat apply conj; [exact Hnd | | lia].
    intros x. rewrite elem_of_nil. tauto.
  - cbn [fold_left].
    destruct (IH (JSSet.add acc y) (NoDup_add acc y Hnd)) as (N & M & L).
    rewrite length_add in L.
    repeat apply conj.
    + exact N.
    + intros x. rewrite M, elem_of_add, elem_of_cons. tauto.
    + simpl. case_bool_decide; lia.
Qed.

Lemma of_list_full_length (l acc : list string) :
  NoDup acc ->
  length (fold_left JSSet.add l acc) = (length acc + length l)%nat ->
  NoDup l /\ (forall x, x ∈ l -> x ∉ acc).
Proof.
  revert acc. induction l as [|y l IH]; intros acc Hnd Hlen.
  - split; [constructor|]. intros x Hx. apply elem_of_nil in Hx. contradiction.
  - cbn [fold_left] in Hlen.
    destruct (of_list_acc l (JSSet.add acc y) (NoDup_add acc y Hnd)) as (_ & _ & L).
    rewrite length_add in L. simpl in Hlen.
    case_bool_decide as Hy; [lia|].
    destruct (IH (JSSet.add acc y) (NoDup_add acc y Hnd)) as [Nl Dl].
    { rewrite length_add, bool_decide_eq_false_2 by assumption. lia. }
    split.
    + apply NoDup_cons. split; [|exact Nl].
      intros Hin. apply (Dl y Hin). apply elem_of_add. right. reflexivity.
    + intros x Hx. apply elem_of_cons in Hx as [->|Hx]; [exact Hy|].
      intros Hacc. apply (Dl x Hx). apply elem_of_add. left. exact Hacc.
Qed.

(** X10. "Select all" compares sizes only. When the number of selected ids
    differs from the number of subjects, every subject id becomes selected,
    once each; when it is equal, the selection is cleared. If two subjects
    share an id the two numbers can never agree after a "select all", so a
    further toggle selects everything again instead of clearing. *)
Theorem select_all_compares_sizes
        (subjects : list Types.Subject) (m : SubjectManager.State) :
  let ids := Types.subject_id <$> subjects in
  let sel' := SubjectManager.selectedSubjects
                (SubjectManager.toggleSelectAll subjects m) in
  (length (SubjectManager.selectedSubjects m) = length subjects -> sel' = [])
  /\ (length (SubjectManager.selectedSubjects m) <> length subjects ->
      NoDup sel' /\ (forall x, x ∈ sel' <-> x ∈ ids)
      /\ (~ NoDup ids ->
          SubjectManager.selectedSubjects
            (SubjectManager.toggleSelectAll subjects
               (SubjectManager.toggleSelectAll subjects m))
          = sel')).
Proof.
  cbv zeta. unfold SubjectManager.toggleSelectAll, JSSet.size. simpl.
  split.
  - intros Hlen. rewrite Hlen, Nat.eqb_refl. reflexivity.
  - intros Hlen. apply Nat.eqb_neq in Hlen. rewrite Hlen.
    change (List.map Types.subject_id subjects) with (Types.subject_id <$> subjects).
    unfold JSSet.of_list.
    destruct (of_list_acc (Types.subject_id <$> subjects) [] (NoDup_nil_2))
      as (N & M & L).
    repeat apply conj.
    + exact N.
    + intros x. rewrite M, elem_of_nil. tauto.
    + intros Hdup.
      destruct (Nat.eqb_spec
                  (length (fold_left JSSet.add (Types.subject_id <$> subjects) []))
                  (length subjects)) as [E|E]; [|reflexivity].
      exfalso. apply Hdup.
      apply (of_list_full_length (Types.subject_id <$> subjects) [] NoDup_nil_2).
      rewrite E, length_fmap. reflexivity.
Qed.

Lemma select_all_compares_sizes_witness :
  SubjectManager.selectedSubjects
    (SubjectManager.toggleSelectAll (Subjects.subjects three_subjects)
       (SubjectManager.with_selection idle_manager ["s1"; "gone"; "s3"]))
  = [].
Proof.
  apply (select_all_compares_sizes (Subjects.subjects three_subjects)
           (SubjectManager.with_selection idle_manager ["s1"; "gone"; "s3"])).
  reflexivity.
Defined.

(** X11. For a running timer that started at or before [now], the text of
    [formatElapsed] shows hours, minutes and seconds that add up to the whole
    seconds elapsed, with minutes and seconds below 60; for a subject with no
    start time, or a start time of 0, there is no text. *)
Theorem format_elapsed_adds_up (m : SubjectManager.State) (now : Z) (id : string) :
  (SubjectManager.startTimes m !! id = None
   \/ SubjectManager.startTimes m !! id = Some 0 ->
   SubjectManager.formatElapsed m now id = None)
  /\ (forall start,
         SubjectManager.startTimes m !! id = Some start -> start <> 0 -> start <= now ->
         exists hrs mins secs,
           SubjectManager.formatElapsed m now id
           = Some (JSDate.decimal hrs ++ "h " ++ JSDate.decimal mins ++ "m "
                     ++ JSDate.decimal secs ++ "s")
           /\ hrs * 3600 + mins * 60 + secs = (now - start) / 1000
           /\ 0 <= hrs /\ 0 <= mins < 60 /\ 0 <= secs < 60).
Proof.
  unfold SubjectManager.formatElapsed, SubjectManager.notStarted. split.
  - intros [-> | ->]; reflexivity.
  - intros start Hs Hne Hle. rewrite Hs.
    destruct (Z.eqb_spec start 0) as [E|_]; [contradiction|].
    unfold SubjectManager.elapsedParts.
    set (total := (now - start) / 1000).
    assert (Ht : 0 <= total) by (subst total; apply Z.div_pos; lia).
    exists (total / 3600), (Z.rem total 3600 / 60), (Z.rem total 60).
    rewrite !Z.rem_mod_nonneg by lia.
    assert (H1 : 0 <= total / 3600) by (apply Z.div_pos; lia).
    assert (H2 : 0 <= total mod 3600 / 60 < 60) by (Z.div_mod_to_equations; lia).
    assert (H3 : 0 <= total mod 60 < 60) by (Z.div_mod_to_equations; lia).
    repeat apply conj; try lia.
    + unfold JSString.of_int.
      destruct (Z.ltb_spec (total / 3600) 0); [lia|].
      destruct (Z.ltb_spec (total mod 3600 / 60) 0); [lia|].
      destruct (Z.ltb_spec (total mod 60) 0); [lia|].
      reflexivity.
    + Z.div_mod_to_equations; lia.
Qed.

Lemma format_elapsed_adds_up_witness :
  exists hrs mins secs,
    SubjectManager.formatElapsed
      (SubjectManager.handleStart idle_manager 1000 "s1") 3726500 "s1"
    = Some (JSDate.decimal hrs ++ "h " ++ JSDate.decimal mins ++ "m "
              ++ JSDate.decimal secs ++ "s")
    /\ hrs * 3600 + mins * 60 + secs = (3726500 - 1000) / 1000
    /\ 0 <= hrs /\ 0 <= mins < 60 /\ 0 <= secs < 60.
Proof.
  destruct (format_elapsed_adds_up
              (SubjectManager.handleStart idle_manager 1000 "s1") 3726500 "s1")
    as [_ H].
  exact (H 1000 eq_refl ltac:(lia) ltac:(lia)).
Defined.

Example format_elapsed_sample :
  SubjectManager.formatElapsed
    (SubjectManager.handleStart idle_manager 1000 "s1") 3726500 "s1"
  = Some "1h 2m 5s".
Proof. vm_compute. reflexivity. Qed.

(** X12. Starting a timer and stopping it later adds the elapsed time, in
    hours, to the tracked progress of that subject and of no other, and
    leaves the subject without a running timer; stopping a subject that was
    never started changes nothing. *)
Theorem start_then_stop_accumulates
        (m : SubjectManager.State) (t1 t2 : Z) (id other : string) :
  t1 <> 0 ->
  let m' := SubjectManager.handleStop (SubjectManager.handleStart m t1 id) t2 id in
  SubjectManager.progressMap m' !! id
  = Some (default 0 (SubjectManager.progressMap m !! id)
          + inject_Z (t2 - t1) / inject_Z 3600000)%Q
  /\ SubjectManager.startTimes m' !! id = None
  /\ (other <> id ->
      SubjectManager.progressMap m' !! other = SubjectManager.progressMap m !! other
      /\ SubjectManager.startTimes m' !! other = SubjectManager.startTimes m !! other)
  /\ (SubjectManager.startTimes m !! id = None ->
      SubjectManager.handleStop m t2 id = m).
Proof.
  intros Hne. cbv zeta.
  unfold SubjectManager.handleStop, SubjectManager.handleStart,
         SubjectManager.notStarted. simpl.
  rewrite lookup_insert_eq.
  destruct (Z.eqb_spec t1 0) as [E|_]; [contradiction|]. simpl.
  repeat apply conj.
  - rewrite lookup_insert_eq. reflexivity.
  - apply lookup_delete_eq.
  - intros Ho. split.
    + rewrite lookup_insert_ne by congruence. reflexivity.
    + rewrite lookup_delete_ne, lookup_insert_ne by congruence. reflexivity.
  - intros ->. reflexivity.
Qed.

Lemma start_then_stop_accumulates_witness :
  SubjectManager.progressMap
    (SubjectManager.handleStop (SubjectManager.handleStart idle_manager 1000 "s1")
       3601000 "s1") !! "s1"
  = Some (0 + inject_Z (3601000 - 1000) / inject_Z 3600000)%Q.
Proof.
  apply (start_then_stop_accumulates idle_manager 1000 3601000 "s1" "s2").
  lia.
Defined.

(** X13. The percentage on a manager card never exceeds 100 when it is a
    number: with a positive goal and no negative progress it lies between 0
    and 100; with a goal of 0 it is NaN while nothing is tracked and 100 as
    soon as something is. *)
Theorem card_percent_capped (m : SubjectManager.State) (s : Types.Subject) :
  let progress := default 0%Q (SubjectManager.progressMap m !! Types.subject_id s) in
  let goal := Types.goalHoursPerWeek s in
  ((0 < goal -> 0 <= progress ->
    exists q, SubjectManager.cardPercent m s = JS.Fin q /\ 0 <= q <= 100)
   /\ (goal == 0 -> progress == 0 -> SubjectManager.cardPercent m s = JS.NaN)
   /\ (goal == 0 -> 0 < progress -> SubjectManager.cardPercent m s = JS.Fin 100))%Q.
Proof.
  cbv zeta. unfold SubjectManager.cardPercent.
  set (progress := default 0%Q (SubjectManager.progressMap m !! Types.subject_id s)).
  destruct (percent_cases progress (Types.goalHoursPerWeek s)) as (H1 & H2 & H3).
  repeat apply conj.
  - intros Hg Hp. rewrite (H1 Hg). cbn [JS.min].
    assert (Hq : (0 <= progress / Types.goalHoursPerWeek s * 100)%Q).
    { apply Qmult_le_0_compat; [|discriminate].
      apply Qle_shift_div_l; [exact Hg|]. rewrite Qmult_0_l. exact Hp. }
    destruct (Qle_bool (progress / Types.goalHoursPerWeek s * 100) 100) eqn:E.
    + eexists. split; [reflexivity|]. split; [exact Hq|].
      apply Qle_bool_iff. exact E.
    + exists 100%Q. split; [reflexivity|]. split; discriminate.
  - intros Hg Hp. rewrite (H2 Hg Hp). reflexivity.
  - intros Hg Hp. rewrite (H3 Hg Hp). reflexivity.
Qed.

Lemma card_percent_capped_witness :
  SubjectManager.cardPercent
    (SubjectManager.handleStop (SubjectManager.handleStart idle_manager 1000 "s1")
       3601000 "s1")
    zero_goal_subject
  = JS.Fin 100.
Proof.
  apply (card_percent_capped
           (SubjectManager.handleStop (SubjectManager.handleStart idle_manager 1000 "s1")
              3601000 "s1")
           zero_goal_subject); reflexivity.
Defined.

(** ** Tasks page: create, update, delete, filtered view *)

(** X14. Deleting removes every task with the given id and nothing else,
    and is idempotent; creating a task under a fresh id and deleting that id
    gives back the list from before. *)
Theorem create_then_delete_task (tasks : list Types.Task) (uuid id : string)
        (taskData : TasksOps.TaskData) :
  Tasks.handleDeleteTask tasks id = filter (fun t => Types.task_id t <> id) tasks
  /\ (id ∉ Types.task_id <$> Tasks.handleDeleteTask tasks id)
  /\ Tasks.handleDeleteTask (Tasks.handleDeleteTask tasks id) id
     = Tasks.handleDeleteTask tasks id
  /\ (uuid ∉ Types.task_id <$> tasks ->
      Tasks.handleDeleteTask (TasksOps.handleCreateTask tasks uuid taskData) uuid
      = tasks).
Proof.
  assert (Hf : forall l, Tasks.handleDeleteTask l id
                         = filter (fun t => Types.task_id t <> id) l).
  { intros l. unfold Tasks.handleDeleteTask. apply filter_bool_prop.
    intros t. rewrite negb_true_iff.
    destruct (String.eqb_spec (Types.task_id t) id); split; congruence. }
  assert (Hnot : id ∉ (Types.task_id <$> Tasks.handleDeleteTask tasks id)).
  { rewrite Hf. intros Hin. apply list_elem_of_fmap in Hin as (t & E & Hin).
    apply list_elem_of_filter in Hin as [Hne _]. congruence. }
  split; [apply Hf|]. split; [exact Hnot|]. split.
  - unfold Tasks.handleDeleteTask at 1. apply filter_id_absent. exact Hnot.
  - intros Hfresh. unfold Tasks.handleDeleteTask, TasksOps.handleCreateTask.
    rewrite List.filter_app, filter_id_absent by assumption. simpl.
    rewrite String.eqb_refl. simpl. apply app_nil_r.
Qed.

Lemma create_then_delete_task_witness :
  Tasks.handleDeleteTask (TasksOps.handleCreateTask [homework; reading] "t3" essay_task)
    "t3"
  = [homework; reading].
Proof.
  apply (create_then_delete_task [homework; reading] "t3" "t3" essay_task).
  simpl. intros H.
  repeat (apply elem_of_cons in H as [H|H]; [discriminate|]).
  apply elem_of_nil in H. exact H.
Defined.

(** X15. Updating a task keeps the ids, the completion flags and therefore
    the completed count; the task being edited takes the three fields of the
    form; and with no task being edited the list is returned as it is. *)
Theorem update_task_keeps_id_and_completion
        (tasks : list Types.Task) (editingTask : option Types.Task)
        (taskData : TasksOps.TaskData) :
  let tasks' := TasksOps.handleUpdateTask tasks editingTask taskData in
  Types.task_id <$> tasks' = Types.task_id <$> tasks
  /\ Types.completed <$> tasks' = Types.completed <$> tasks
  /\ TasksOps.completedCount tasks' = TasksOps.completedCount tasks
  /\ (editingTask = None -> tasks' = tasks)
  /\ (forall e t, editingTask = Some e -> t ∈ tasks' ->
                  Types.task_id t = Types.task_id e ->
                  Types.title t = TasksOps.t_title taskData
                  /\ Types.task_description t = TasksOps.t_description taskData
                  /\ Types.dueDate t = TasksOps.t_dueDate taskData).
Proof.
  cbv zeta.
  assert (Hc : Types.completed <$> TasksOps.handleUpdateTask tasks editingTask taskData
               = Types.completed <$> tasks).
  { destruct editingTask as [e|]; [|reflexivity]. simpl.
    change (List.map ?f ?l) with (f <$> l). rewrite <- list_fmap_compose.
    apply list_fmap_ext. intros i t _. simpl.
    destruct (String.eqb (Types.task_id t) (Types.task_id e)); reflexivity. }
  split; [|split; [exact Hc|split; [|split]]].
  - destruct editingTask as [e|]; [|reflexivity]. simpl.
    change (List.map ?f ?l) with (f <$> l). rewrite <- list_fmap_compose.
    apply list_fmap_ext. intros i t _. simpl.
    destruct (String.eqb (Types.task_id t) (Types.task_id e)); reflexivity.
  - unfold TasksOps.completedCount.
    assert (Hgen : forall l : list Types.Task,
               length (List.filter Types.completed l)
               = length (List.filter (fun b : bool => b) (Types.completed <$> l))).
    { induction l as [|t l IH]; [reflexivity|]. rewrite fmap_cons. simpl.
      destruct (Types.completed t); simpl; rewrite IH; reflexivity. }
    rewrite !Hgen, Hc. reflexivity.
  - intros ->. reflexivity.
  - intros e t -> Hin Hid. simpl in Hin.
    change (List.map ?f ?l) with (f <$> l) in Hin.
    apply list_elem_of_fmap in Hin as (t0 & -> & _).
    destruct (String.eqb_spec (Types.task_id t0) (Types.task_id e)) as [E|E].
    + repeat split.
    + contradiction.
Qed.

Lemma update_task_keeps_id_and_completion_witness :
  TasksOps.handleUpdateTask [homework; reading] None essay_task = [homework; reading].
Proof.
  apply (update_task_keeps_id_and_completion [homework; reading] None essay_task).
  reflexivity.
Defined.

(** X16. For one search text, the "completed" and the "pending" view split
    the "all" view between them: each view is a rearrangement of the matching
    tasks of its kind, and their lengths add up. *)
Theorem filtered_views_partition
        (Date_parse : string -> option Z) (toLowerCase : string -> string)
        (search : string) (tasks : list Types.Task) :
  let view f := TasksOps.filteredTasks Date_parse toLowerCase f search tasks in
  let hit t := TasksOps.searchMatches toLowerCase search t = true in
  view TasksOps.all ≡ₚ filter hit tasks
  /\ view TasksOps.onlyCompleted
     ≡ₚ filter (fun t => hit t /\ Types.completed t = true) tasks
  /\ view TasksOps.onlyPending
     ≡ₚ filter (fun t => hit t /\ Types.completed t = false) tasks
  /\ (length (view TasksOps.onlyCompleted) + length (view TasksOps.onlyPending)
      = length (view TasksOps.all))%nat.
Proof.
  cbv zeta. unfold TasksOps.filteredTasks.
  rewrite !sort_length.
  assert (Hall : List.filter (TasksOps.searchMatches toLowerCase search)
                   (List.filter (TasksOps.statusMatches TasksOps.all) tasks)
                 = filter (fun t => TasksOps.searchMatches toLowerCase search t = true)
                          tasks).
  { rewrite (filter_bool_prop (TasksOps.statusMatches TasksOps.all) (fun _ => True))
      by (intros; simpl; tauto).
    rewrite (filter_bool_prop _ (fun t => TasksOps.searchMatches toLowerCase search t
                                          = true)) by (intros; tauto).
    f_equal. induction tasks as [|t l IH]; [reflexivity|].
    rewrite filter_cons, decide_True by exact I. rewrite IH. reflexivity. }
  assert (Hst : forall (k : TasksOps.filterKey) (b : bool),
             (forall t, TasksOps.statusMatches k t = true <-> Types.completed t = b) ->
             List.filter (TasksOps.searchMatches toLowerCase search)
               (List.filter (TasksOps.statusMatches k) tasks)
             = filter (fun t => TasksOps.searchMatches toLowerCase search t = true
                                /\ Types.completed t = b) tasks).
  { intros k b Hk.
    rewrite (filter_bool_prop (TasksOps.statusMatches k)
               (fun t => Types.completed t = b)) by exact Hk.
    rewrite (filter_bool_prop _ (fun t => TasksOps.searchMatches toLowerCase search t
                                          = true)) by (intros; tauto).
    clear Hall. induction tasks as [|t l IH]; [reflexivity|].
    rewrite !filter_cons.
    destruct (decide (Types.completed t = b)) as [Hb|Hb];
      [rewrite filter_cons|];
      destruct (decide (TasksOps.searchMatches toLowerCase search t = true)) as [Hs|Hs];
      destruct (decide (TasksOps.searchMatches toLowerCase search t = true
                        /\ Types.completed t = b)) as [Hc|Hc];
      rewrite ?IH; try reflexivity; tauto. }
  rewrite Hall.
  rewrite (Hst TasksOps.onlyCompleted true) by (intros; simpl; tauto).
  rewrite (Hst TasksOps.onlyPending false)
    by (intros t; simpl; destruct (Types.completed t); simpl; split; congruence).
  repeat apply conj; try apply sort_perm.
  clear Hall Hst. induction tasks as [|t l IH]; [reflexivity|].
  rewrite !filter_cons.
  destruct (decide (TasksOps.searchMatches toLowerCase search t = true)) as [Hs|Hs];
    destruct (decide (TasksOps.searchMatches toLowerCase search t = true
                      /\ Types.completed t = true)) as [Hc|Hc];
    destruct (decide (TasksOps.searchMatches toLowerCase search t = true
                      /\ Types.completed t = false)) as [Hp|Hp];
    simpl; try lia; exfalso; destruct (Types.completed t); intuition congruence.
Qed.

Lemma toggle_absent_id (tasks : list Types.Task) (id : string) :
  id ∉ Types.task_id <$> tasks ->
  Tasks.handleTaskComplete tasks id = tasks.
Proof.
  intros Hnotin. unfold Tasks.handleTaskComplete.
  induction tasks as [|t l IH]; [reflexivity|].
  rewrite fmap_cons in Hnotin. apply not_elem_of_cons in Hnotin as [Ht Hl].
  simpl. destruct (String.eqb_spec (Types.task_id t) id); [congruence|].
  rewrite IH by assumption. reflexivity.
Qed.

(** X17. When task ids are unique, completing a pending task raises the
    completed count by one and undoing a completed task lowers it by one. *)
Theorem toggle_moves_count_by_one (tasks : list Types.Task) (t : Types.Task) :
  NoDup (Types.task_id <$> tasks) ->
  t ∈ tasks ->
  Z.of_nat (TasksOps.completedCount (Tasks.handleTaskComplete tasks (Types.task_id t)))
  = Z.of_nat (TasksOps.completedCount tasks)
    + (if Types.completed t then -1 else 1).
Proof.
  intros Hnd Hin. unfold TasksOps.completedCount.
  induction tasks as [|x l IH]; [apply elem_of_nil in Hin; contradiction|].
  rewrite fmap_cons in Hnd. apply NoDup_cons in Hnd as [Hx Hnd].
  apply elem_of_cons in Hin as [->|Hin].
  - change (Tasks.handleTaskComplete (x :: l) (Types.task_id x))
      with ((if String.eqb (Types.task_id x) (Types.task_id x)
             then Tasks.toggled x else x)
              :: Tasks.handleTaskComplete l (Types.task_id x)).
    rewrite String.eqb_refl, toggle_absent_id by assumption.
    simpl. destruct (Types.completed x); simpl; lia.
  - assert (Hne : Types.task_id x <> Types.task_id t).
    { intros E. apply Hx. rewrite E. apply list_elem_of_fmap. eauto. }
    change (Tasks.handleTaskComplete (x :: l) (Types.task_id t))
      with ((if String.eqb (Types.task_id x) (Types.task_id t)
             then Tasks.toggled x else x)
              :: Tasks.handleTaskComplete l (Types.task_id t)).
    destruct (String.eqb_spec (Types.task_id x) (Types.task_id t)); [contradiction|].
    specialize (IH Hnd Hin). simpl.
    destruct (Types.completed x); simpl in *; lia.
Qed.

Lemma toggle_moves_count_by_one_witness :
  Z.of_nat (TasksOps.completedCount
              (Tasks.handleTaskComplete [homework; reading] (Types.task_id homework)))
  = Z.of_nat (TasksOps.completedCount [homework; reading])
    + (if Types.completed homework then -1 else 1).
Proof.
  apply (toggle_moves_count_by_one [homework; reading] homework).
  - simpl. repeat constructor; intros H;
      repeat (apply elem_of_cons in H as [H|H]; [discriminate|]);
      apply elem_of_nil in H; exact H.
  - left.
Defined.

(** X18. A task is flagged overdue exactly when it is pending and its due
    date falls on a local calendar day before today: a task due earlier
    today, a completed task and a task whose due date does not parse are
    never overdue. *)
Theorem overdue_means_due_before_today
        (Date_parse : string -> option Z) (tz now : Z) (task : Types.Task) :
  TasksOps.isOverdue Date_parse tz now task = true
  <-> Types.completed task = false
      /\ exists t, Date_parse (Types.dueDate task) = Some t
                   /\ JSDate.localDay tz t < JSDate.localDay tz now.
Proof.
  unfold TasksOps.isOverdue.
  rewrite andb_true_iff, negb_true_iff.
  destruct (Date_parse (Types.dueDate task)) as [t|].
  - rewrite andb_true_iff, negb_true_iff, Z.ltb_lt, Z.eqb_neq.
    assert (Hiff : t < now /\ JSDate.localDay tz t <> JSDate.localDay tz now
                   <-> JSDate.localDay tz t < JSDate.localDay tz now).
    { unfold JSDate.localDay, JSDate.msPerDay. split.
      - intros [Hlt Hne]. Z.div_mod_to_equations. lia.
      - intros H. Z.div_mod_to_equations. lia. }
    split.
    + intros [Hc Hd]. split; [exact Hc|]. exists t. split; [reflexivity|].
      apply Hiff. exact Hd.
    + intros [Hc (t' & E & Hd)]. injection E as <-. split; [exact Hc|].
      apply Hiff. exact Hd.
  - split; [intros [_ H]; discriminate|]. intros [_ (t & E & _)]. discriminate.
Qed.

(** ** Decimal text and back *)

Lemma digits_acc_of_uint_acc (d : Decimal.uint) (acc : positive) :
  JSDate.digits_acc (Z.pos acc) (NilEmpty.string_of_uint d)
  = Some (Z.pos (Pos.of_uint_acc d acc)).
Proof.
  revert acc. induction d as [|d IH|d IH|d IH|d IH|d IH|d IH|d IH|d IH|d IH|d IH];
    intros acc; [reflexivity|..];
    cbn [NilEmpty.string_of_uint JSDate.digits_acc Pos.of_uint_acc];
    match goal with
    | |- context [JSDate.digit ?c] =>
        let v := eval vm_compute in (JSDate.digit c) in
        change (JSDate.digit c) with v
    end;
    cbv iota beta;
    rewrite <- IH; f_equal; lia.
Qed.

Lemma digits_acc_of_uint (d : Decimal.uint) :
  JSDate.digits_acc 0 (NilEmpty.string_of_uint d) = Some (Z.of_N (Pos.of_uint d)).
Proof.
  induction d as [|d IH|d IH|d IH|d IH|d IH|d IH|d IH|d IH|d IH|d IH];
    [reflexivity|exact IH|..];
    cbn [NilEmpty.string_of_uint JSDate.digits_acc Pos.of_uint];
    match goal with
    | |- context [JSDate.digit ?c] =>
        let v := eval vm_compute in (JSDate.digit c) in
        change (JSDate.digit c) with v
    end;
    cbv iota beta;
    match goal with
    | |- JSDate.digits_acc ?k _ = _ =>
        let p := eval vm_compute in (Z.to_pos k) in
        change k with (Z.pos p)
    end;
    rewrite digits_acc_of_uint_acc; reflexivity.
Qed.

Lemma decimal_nonempty (n : Z) : JSDate.decimal n <> "".
Proof.
  unfold JSDate.decimal, NilZero.string_of_uint.
  destruct (N.to_uint (Z.to_N n)); discriminate.
Qed.

(** Reading the decimal text of a natural number gives the number back. *)
Lemma number_of_decimal (n : Z) :
  0 <= n -> JSDate.number_of (JSDate.decimal n) = Some n.
Proof.
  intros Hn.
  pose proof (decimal_nonempty n) as Hne.
  unfold JSDate.number_of. destruct (JSDate.decimal n) eqn:E; [congruence|].
  rewrite <- E. unfold JSDate.decimal, NilZero.string_of_uint.
  destruct (N.to_uint (Z.to_N n)) eqn:Eu;
    try (rewrite <- Eu, digits_acc_of_uint;
         change (Pos.of_uint (N.to_uint (Z.to_N n)))
           with (N.of_uint (N.to_uint (Z.to_N n)));
         rewrite DecimalN.Unsigned.of_to; f_equal; lia).
  exfalso. destruct (Z.to_N n); [discriminate|].
  simpl in Eu. exact (DecimalPos.Unsigned.to_uint_nonnil p Eu).
Qed.

Lemma digits_acc_zeros (k : nat) (s : string) :
  JSDate.digits_acc 0 (JSDate.zeros k ++ s) = JSDate.digits_acc 0 s.
Proof.
  induction k as [|k IH]; [reflexivity|].
  change (JSDate.digits_acc 0 (String "0" (JSDate.zeros k ++ s))
          = JSDate.digits_acc 0 s).
  cbn [JSDate.digits_acc].
  change (JSDate.digit "0") with (Some 0). cbv iota beta.
  change (10 * 0 + 0) with 0. exact IH.
Qed.

Lemma number_of_padStart0 (n : Z) (len : nat) :
  0 <= n -> JSDate.number_of (JSDate.padStart0 n len) = Some n.
Proof.
  intros Hn. unfold JSDate.padStart0.
  pose proof (number_of_decimal n Hn) as Hd.
  pose proof (decimal_nonempty n) as Hne.
  unfold JSDate.number_of in *.
  destruct (JSDate.decimal n) as [|c s] eqn:E; [congruence|].
  destruct (JSDate.zeros (len - String.length (String c s)) ++ String c s) eqn:Ez.
  - exfalso. apply (f_equal String.length) in Ez.
    rewrite string_length_app in Ez. simpl in Ez. lia.
  - rewrite <- Ez, digits_acc_zeros. exact Hd.
Qed.

(** A text that reads as a number consists of digits only. *)
Lemma digits_acc_all_digits (s : string) (acc v : Z) :
  JSDate.digits_acc acc s = Some v ->
  forall rest, (match rest with
                | EmptyString => True
                | String c _ => JSString.isDigit c = false
                end) ->
  JSString.span JSString.isDigit (s ++ rest) = (s, rest).
Proof.
  revert acc. induction s as [|c s IH]; intros acc Hv rest Hrest.
  - change ("" ++ rest) with rest. destruct rest as [|c r]; [reflexivity|].
    simpl. rewrite Hrest. reflexivity.
  - change (String c s ++ rest) with (String c (s ++ rest)).
    cbn [JSDate.digits_acc] in Hv. cbn [JSString.span].
    unfold JSString.isDigit at 1.
    destruct (JSDate.digit c) as [d|]; [|discriminate].
    rewrite (IH _ Hv rest Hrest). reflexivity.
Qed.

(** ** Dashboard: the weekly streak row *)

Lemma append_head_inj (a b x y : string) :
  String.length a = String.length b -> a ++ x = b ++ y -> a = b /\ x = y.
Proof.
  revert b. induction a as [|c a IH]; intros [|c' b] Hlen Heq;
    try discriminate.
  - split; [reflexivity|exact Heq].
  - change (String c (a ++ x) = String c' (b ++ y)) in Heq.
    injection Heq as -> Heq. injection Hlen as Hlen.
    destruct (IH b Hlen Heq) as [-> ->]. split; reflexivity.
Qed.

Lemma readYear_yearText (y : Z) : readYear (yearText y) = Some y.
Proof.
  unfold yearText. destruct (Z.ltb_spec y 0) as [Hy|Hy].
  - change ("-" ++ ?s) with (String "-" s). cbn [readYear].
    rewrite number_of_padStart0 by lia. simpl. f_equal. lia.
  - change ("" ++ ?s) with s.
    pose proof (number_of_padStart0 (Z.abs y) 4 ltac:(lia)) as Hn.
    destruct (JSDate.padStart0 (Z.abs y) 4) as [|c s] eqn:E; [discriminate|].
    assert (Hc : c <> "-"%char).
    { intros ->. cbn in Hn. discriminate. }
    replace (readYear (String c s)) with (JSDate.number_of (String c s)).
    + rewrite Hn. f_equal. lia.
    + unfold readYear.
      destruct c as [[] [] [] [] [] [] [] []]; first [reflexivity | congruence].
Qed.

Lemma monthAbbr_spec (m : Z) :
  1 <= m <= 12 ->
  String.length (DateFns.monthAbbr m) = 3%nat
  /\ forall m', 1 <= m' <= 12 -> DateFns.monthAbbr m = DateFns.monthAbbr m' -> m = m'.
Proof.
  intros Hm.
  assert (Hc : m = 1 \/ m = 2 \/ m = 3 \/ m = 4 \/ m = 5 \/ m = 6 \/ m = 7 \/ m = 8
               \/ m = 9 \/ m = 10 \/ m = 11 \/ m = 12) by lia.
  split.
  - repeat (destruct Hc as [->|Hc]; [reflexivity|]). subst. reflexivity.
  - intros m' Hm' Heq.
    assert (Hc' : m' = 1 \/ m' = 2 \/ m' = 3 \/ m' = 4 \/ m' = 5 \/ m' = 6 \/ m' = 7
                  \/ m' = 8 \/ m' = 9 \/ m' = 10 \/ m' = 11 \/ m' = 12) by lia.
    repeat (destruct Hc as [->|Hc]);
      repeat (destruct Hc' as [->|Hc']); subst;
      first [reflexivity | vm_compute in Heq; discriminate].
Qed.

Lemma dayLabel_length (d : Z) :
  0 <= d < 7 ->
  String.length (nth (Z.to_nat d) WeeklyStreak.dayLabels "") = 3%nat.
Proof.
  intros Hd.
  assert (Hc : d = 0 \/ d = 1 \/ d = 2 \/ d = 3 \/ d = 4 \/ d = 5 \/ d = 6) by lia.
  repeat (destruct Hc as [->|Hc]; [reflexivity|]). subst. reflexivity.
Qed.

Lemma padStart0_2_length (d : Z) :
  1 <= d <= 31 -> String.length (JSDate.padStart0 d 2) = 2%nat.
Proof.
  intros Hd.
  assert (Hall : forallb (fun d => (String.length (JSDate.padStart0 d 2) =? 2)%nat)
                         (seqZ 1 31) = true) by (vm_compute; reflexivity).
  rewrite forallb_forall in Hall.
  apply Nat.eqb_eq, Hall, list_elem_of_In, elem_of_seqZ. lia.
Qed.

Lemma toDateString_text tz t :
  WeeklyStreak.toDateString tz (Some t)
  = nth (Z.to_nat (JSDate.getDay tz t)) WeeklyStreak.dayLabels ""
    ++ " " ++ DateFns.monthAbbr (JSDate.month (JSDate.localCivil tz t))
    ++ " " ++ JSDate.padStart0 (JSDate.mday (JSDate.localCivil tz t)) 2
    ++ " " ++ yearText (JSDate.year (JSDate.localCivil tz t)).
Proof. reflexivity. Qed.

(** Two valid dates print the same date text exactly when they fall on the
    same local calendar day. *)
Lemma toDateString_same_day tz a b :
  WeeklyStreak.toDateString tz (Some a) = WeeklyStreak.toDateString tz (Some b)
  <-> JSDate.localDay tz a = JSDate.localDay tz b.
Proof.
  split.
  - rewrite !toDateString_text. intros Heq.
    unfold JSDate.localCivil in *.
    set (na := JSDate.localDay tz a) in *. set (nb := JSDate.localDay tz b) in *.
    destruct (civil_of_day_range na) as [Hma Hda].
    destruct (civil_of_day_range nb) as [Hmb Hdb].
    apply append_head_inj in Heq as [_ Heq];
      [|rewrite !dayLabel_length by apply getDay_range; reflexivity].
    change (" " ++ ?s) with (String " " s) in Heq. injection Heq as Heq.
    destruct (monthAbbr_spec _ Hma) as [Lma Ima].
    destruct (monthAbbr_spec _ Hmb) as [Lmb _].
    apply append_head_inj in Heq as [Hm Heq];
      [|etransitivity; [exact Lma | symmetry; exact Lmb]].
    change (" " ++ ?s) with (String " " s) in Heq. injection Heq as Heq.
    apply append_head_inj in Heq as [Hd Heq];
      [|etransitivity; [exact (padStart0_2_length _ Hda)
                       | symmetry; exact (padStart0_2_length _ Hdb)]].
    change (" " ++ ?s) with (String " " s) in Heq. injection Heq as Heq.
    assert (Hm' : JSDate.month (JSDate.civil_of_day na)
                  = JSDate.month (JSDate.civil_of_day nb))
      by exact (Ima _ Hmb Hm).
    assert (Hd' : JSDate.mday (JSDate.civil_of_day na)
                  = JSDate.mday (JSDate.civil_of_day nb)).
    { apply (f_equal JSDate.number_of) in Hd.
      rewrite !number_of_padStart0 in Hd
        by (apply Z.le_trans with 1; [lia | first [exact (proj1 Hda) | exact (proj1 Hdb)]]).
      injection Hd as Hd. exact Hd. }
    assert (Hy' : JSDate.year (JSDate.civil_of_day na)
                  = JSDate.year (JSDate.civil_of_day nb)).
    { apply (f_equal readYear) in Heq. rewrite !readYear_yearText in Heq.
      injection Heq as Hy. exact Hy. }
    rewrite <- (day_of_civil_of_day na), <- (day_of_civil_of_day nb).
    cbv zeta. rewrite Hm', Hd', Hy'. reflexivity.
  - intros Heq. rewrite !toDateString_text.
    unfold JSDate.localCivil, JSDate.getDay. rewrite Heq. reflexivity.
Qed.

(** A time inside the loop's window falls on a weekday up to today's, and on
    today's weekday only when it falls on today's date. *)
Lemma window_weekday tz today t :
  WeeklyStreak.weekStart tz today <= t <= today ->
  JSDate.getDay tz t <= JSDate.getDay tz today
  /\ (JSDate.getDay tz t = JSDate.getDay tz today ->
      JSDate.localDay tz t = JSDate.localDay tz today).
Proof.
  unfold WeeklyStreak.weekStart, JSDate.addDays.
  pose proof (getDay_range tz today) as Hg.
  set (g := JSDate.getDay tz today) in *.
  intros Hw.
  assert (Hl : JSDate.localDay tz today - g <= JSDate.localDay tz t
               <= JSDate.localDay tz today).
  { unfold JSDate.localDay, JSDate.msPerDay in *.
    assert (E : (today + - g * (1000 * 60 * 60 * 24) + tz) / (1000 * 60 * 60 * 24)
                = (today + tz) / (1000 * 60 * 60 * 24) - g).
    { replace (today + - g * (1000 * 60 * 60 * 24) + tz)
        with (today + tz + (- g) * (1000 * 60 * 60 * 24)) by lia.
      rewrite Z.div_add by lia. lia. }
    split.
    - rewrite <- E. apply Z.div_le_mono; lia.
    - apply Z.div_le_mono; lia. }
  subst g. unfold JSDate.getDay in *.
  set (L := JSDate.localDay tz today) in *. set (l := JSDate.localDay tz t) in *.
  clearbody L l. Z.div_mod_to_equations. lia.
Qed.

Section StreakRow.
Variable Date_parse : string -> option Z.
Variable tz : Z.

(** A session marks weekday [k] in the loop when its date parses to a time
    between the week start and now that falls on weekday [k]. *)
Let Marks (today k : Z) (s : Types.StudySession) : Prop :=
  exists t, Date_parse (Types.date s) = Some t
            /\ WeeklyStreak.weekStart tz today <= t <= today
            /\ JSDate.getDay tz t = k.

Lemma mark_step today (m : list bool) (s : Types.StudySession) (k : nat) :
  length m = 7%nat -> (k < 7)%nat ->
  length (WeeklyStreak.mark Date_parse tz today m s) = 7%nat
  /\ (WeeklyStreak.mark Date_parse tz today m s !! k = Some true
      <-> m !! k = Some true \/ Marks today (Z.of_nat k) s).
Proof.
  intros Hlen Hk. unfold WeeklyStreak.mark, Marks.
  destruct (Date_parse (Types.date s)) as [t|].
  2:{ split; [exact Hlen|]. split; [tauto|].
      intros [H|(t & E & _)]; [exact H|discriminate]. }
  pose proof (getDay_range tz t) as Hd.
  set (i := Z.to_nat (JSDate.getDay tz t)).
  assert (Hi : (i < 7)%nat) by (subst i; lia).
  unfold date_ge, date_le.
  destruct (Z.leb_spec (WeeklyStreak.weekStart tz today) t) as [H1|H1];
    destruct (Z.leb_spec t today) as [H2|H2]; simpl;
    try (split; [exact Hlen|]; split; [tauto|];
         intros [H|(t' & E & Hw & _)]; [exact H|]; injection E as <-; lia).
  destruct (m !! i) as [[]|] eqn:Em; simpl.
  - split; [exact Hlen|]. split; [tauto|].
    intros [H|(t' & E & _ & Hg)]; [exact H|]. injection E as <-.
    replace k with i by (subst i; lia). exact Em.
  - split; [rewrite length_insert; exact Hlen|].
    destruct (decide (k = i)) as [->|Hne].
    + rewrite list_lookup_insert_eq by lia. split; [|reflexivity].
      intros _. right. exists t. repeat split; try assumption. subst i. lia.
    + rewrite list_lookup_insert_ne by congruence. split; [tauto|].
      intros [H|(t' & E & _ & Hg)]; [exact H|]. injection E as <-.
      exfalso. apply Hne. subst i. lia.
  - apply lookup_ge_None in Em. lia.
Qed.

Lemma mark_fold today (sessions : list Types.StudySession) (m : list bool) (k : nat) :
  length m = 7%nat -> (k < 7)%nat ->
  length (fold_left (WeeklyStreak.mark Date_parse tz today) sessions m) = 7%nat
  /\ (fold_left (WeeklyStreak.mark Date_parse tz today) sessions m !! k = Some true
      <-> m !! k = Some true \/ exists s, s ∈ sessions /\ Marks today (Z.of_nat k) s).
Proof.
  revert m. induction sessions as [|s l IH]; intros m Hlen Hk.
  - simpl. split; [exact Hlen|]. split; [tauto|].
    intros [H|(s & Hin & _)]; [exact H|]. apply elem_of_nil in Hin. contradiction.
  - cbn [fold_left].
    destruct (mark_step today m s k Hlen Hk) as [L1 S1].
    destruct (IH _ L1 Hk) as [L2 S2].
    split; [exact L2|]. rewrite S2, S1. split.
    + intros [[H|H]|(s' & Hin & H)]; [tauto | |].
      * right. exists s. split; [left|exact H].
      * right. exists s'. split; [right; exact Hin|exact H].
    + intros [H|(s' & Hin & H)]; [tauto|].
      apply elem_of_cons in Hin as [->|Hin]; [tauto|].
      right. exists s'. tauto.
Qed.

Lemma studiedToday_spec today (sessions : list Types.StudySession) :
  WeeklyStreak.studiedToday Date_parse tz today sessions = true
  <-> exists s t, s ∈ sessions /\ Date_parse (Types.date s) = Some t
                  /\ JSDate.localDay tz t = JSDate.localDay tz today.
Proof.
  unfold WeeklyStreak.studiedToday. rewrite existsb_exists. split.
  - intros (s & Hin & Heq). apply String.eqb_eq in Heq.
    destruct (Date_parse (Types.date s)) as [t|] eqn:E.
    + exists s, t. split; [apply list_elem_of_In; exact Hin|]. split; [exact E|].
      apply toDateString_same_day. exact Heq.
    + exfalso. rewrite toDateString_text in Heq.
      pose proof (dayLabel_length _ (getDay_range tz today)) as Hl.
      destruct (nth (Z.to_nat (JSDate.getDay tz today)) WeeklyStreak.dayLabels "")
        as [|c1 [|c2 [|c3 [|c4 r]]]]; try discriminate.
  - intros (s & t & Hin & E & Hday). exists s.
    split; [apply list_elem_of_In; exact Hin|].
    apply String.eqb_eq. rewrite E. apply toDateString_same_day. exact Hday.
Qed.

Lemma dailyStudyMap_spec today (studyTime : list Types.StudySession) (k : nat) :
  (k < 7)%nat ->
  length (WeeklyStreak.dailyStudyMap Date_parse tz today studyTime) = 7%nat
  /\ (WeeklyStreak.dailyStudyMap Date_parse tz today studyTime !! k = Some true
      <-> (exists s, s ∈ studyTime /\ Marks today (Z.of_nat k) s)
          \/ (Z.of_nat k = JSDate.getDay tz today
              /\ WeeklyStreak.studiedToday Date_parse tz today studyTime = true)).
Proof.
  intros Hk. unfold WeeklyStreak.dailyStudyMap.
  destruct (mark_fold today studyTime (replicate 7 false) k eq_refl Hk) as [L S].
  pose proof (getDay_range tz today) as Hg.
  assert (Hrep : replicate 7 false !! k = Some true <-> False).
  { split; [|tauto]. intros H. apply lookup_replicate in H as [H _]. discriminate. }
  destruct (WeeklyStreak.studiedToday Date_parse tz today studyTime).
  - split; [rewrite length_insert; exact L|].
    destruct (decide (k = Z.to_nat (JSDate.getDay tz today))) as [->|Hne].
    + rewrite list_lookup_insert_eq by lia. split; [|reflexivity].
      intros _. right. split; [lia|reflexivity].
    + rewrite list_lookup_insert_ne by congruence. rewrite S, Hrep. split.
      * tauto.
      * intros [H|[E _]]; [tauto|]. exfalso. apply Hne. lia.
  - split; [exact L|]. rewrite S, Hrep. split; [tauto|].
    intros [H|[_ H]]; [tauto|discriminate].
Qed.

End StreakRow.

(** X19. The row always has seven flags, and the flag of a weekday after
    today's is never set, whatever sessions are stored (sessions dated in the
    future included). *)
Theorem days_after_today_unmarked
        (Date_parse : string -> option Z) (tz today : Z)
        (studyTime : list Types.StudySession) (k : Z) :
  length (WeeklyStreak.dailyStudyMap Date_parse tz today studyTime) = 7%nat
  /\ (JSDate.getDay tz today < k < 7 ->
      WeeklyStreak.dailyStudyMap Date_parse tz today studyTime !! Z.to_nat k
      = Some false).
Proof.
  pose proof (getDay_range tz today) as Hg.
  split.
  { exact (proj1 (dailyStudyMap_spec Date_parse tz today studyTime 0 ltac:(lia))). }
  intros Hk.
  destruct (dailyStudyMap_spec Date_parse tz today studyTime (Z.to_nat k) ltac:(lia))
    as [L S].
  destruct (WeeklyStreak.dailyStudyMap Date_parse tz today studyTime !! Z.to_nat k)
    as [[]|] eqn:E.
  - exfalso. apply proj1 in S. destruct (S eq_refl) as [(s & _ & t & _ & Hw & Hd)|[Hd _]].
    + destruct (window_weekday tz today t Hw) as [Hle _]. lia.
    + lia.
  - reflexivity.
  - apply lookup_ge_None in E. lia.
Qed.

Lemma days_after_today_unmarked_witness :
  WeeklyStreak.dailyStudyMap JSDate.parseISO 0 mid_april edge_sessions !! Z.to_nat 6
  = Some false.
Proof.
  apply (days_after_today_unmarked JSDate.parseISO 0 mid_april edge_sessions 6).
  vm_compute. split; reflexivity.
Defined.

(** X20. Today's flag is set exactly when some stored session has a date
    that falls on today's local calendar day, before or after the present
    moment. *)
Theorem today_marked_iff_session_today
        (Date_parse : string -> option Z) (tz today : Z)
        (studyTime : list Types.StudySession) :
  WeeklyStreak.dailyStudyMap Date_parse tz today studyTime
    !! Z.to_nat (JSDate.getDay tz today) = Some true
  <-> exists s t, s ∈ studyTime /\ Date_parse (Types.date s) = Some t
                  /\ JSDate.localDay tz t = JSDate.localDay tz today.
Proof.
  pose proof (getDay_range tz today) as Hg.
  destruct (dailyStudyMap_spec Date_parse tz today studyTime
              (Z.to_nat (JSDate.getDay tz today)) ltac:(lia)) as [_ S].
  rewrite S, studiedToday_spec. split.
  - intros [(s & Hin & t & E & Hw & Hd)|[_ H]]; [|exact H].
    exists s, t. split; [exact Hin|]. split; [exact E|].
    apply (window_weekday tz today t Hw). lia.
  - intros H. right. split; [lia|exact H].
Qed.

(** X21. The window of the loop starts on Sunday at the present time of day,
    not at midnight: when today is not Sunday, sessions of this week's Sunday
    that took place earlier in the day than it is now leave every flag
    unset. *)
Theorem sunday_sessions_before_clock_time_unmarked
        (Date_parse : string -> option Z) (tz today : Z)
        (studyTime : list Types.StudySession) :
  0 < JSDate.getDay tz today ->
  (forall s, s ∈ studyTime ->
             exists t, Date_parse (Types.date s) = Some t
                       /\ DateFns.startOfWeek tz today <= t
                          < DateFns.startOfWeek tz today + JSDate.msIntoDay tz today) ->
  WeeklyStreak.dailyStudyMap Date_parse tz today studyTime = replicate 7 false.
Proof.
  intros Hg Hall.
  assert (Hws : WeeklyStreak.weekStart tz today
                = DateFns.startOfWeek tz today + JSDate.msIntoDay tz today).
  { rewrite startOfWeek_eq.
    unfold WeeklyStreak.weekStart, JSDate.addDays, JSDate.setHours0. lia. }
  assert (Hday : forall t,
             t < DateFns.startOfWeek tz today + JSDate.msIntoDay tz today ->
             JSDate.localDay tz t <> JSDate.localDay tz today).
  { intros t Ht. rewrite startOfWeek_eq in Ht.
    pose proof (getDay_range tz today) as Hr.
    set (g := JSDate.getDay tz today) in *. clearbody g.
    unfold JSDate.setHours0, JSDate.msIntoDay, JSDate.localDay, JSDate.msPerDay in *.
    Z.div_mod_to_equations. nia. }
  apply list_eq. intros k.
  destruct (decide (k < 7)%nat) as [Hk|Hk].
  - destruct (dailyStudyMap_spec Date_parse tz today studyTime k Hk) as [L S].
    rewrite (lookup_replicate_2 7 false k Hk).
    destruct (WeeklyStreak.dailyStudyMap Date_parse tz today studyTime !! k)
      as [[]|] eqn:E.
    + exfalso. apply proj1 in S.
      destruct (S eq_refl) as [(s & Hin & t & Et & Hw & _)|[_ Hst]].
      * destruct (Hall s Hin) as (t' & Et' & Ht'). rewrite Et in Et'.
        injection Et' as <-. lia.
      * apply studiedToday_spec in Hst as (s & t & Hin & Et & Hd).
        destruct (Hall s Hin) as (t' & Et' & Ht'). rewrite Et in Et'.
        injection Et' as <-. apply (Hday t); [lia|exact Hd].
    + reflexivity.
    + apply lookup_ge_None in E. lia.
  - destruct (dailyStudyMap_spec Date_parse tz today studyTime 0 ltac:(lia)) as [L _].
    rewrite !lookup_ge_None_2; [reflexivity| |]; rewrite ?length_replicate; lia.
Qed.

Lemma sunday_sessions_before_clock_time_unmarked_witness :
  WeeklyStreak.dailyStudyMap JSDate.parseISO 0 mid_april sunday_morning
  = replicate 7 false.
Proof.
  apply (sunday_sessions_before_clock_time_unmarked JSDate.parseISO 0 mid_april
           sunday_morning).
  - vm_compute. reflexivity.
  - intros s Hin. apply list_elem_of_singleton in Hin. subst s.
    exists 1744534800000. vm_compute. repeat split; congruence.
Defined.

Example weekly_row_sample :
  WeeklyStreak.dailyStudyMap JSDate.parseISO 0 mid_april edge_sessions
  = [false; false; true; false; false; false; false].
Proof. vm_compute. reflexivity. Qed.

(** ** Dashboard: what a sequence of completed sessions keeps *)

(** X22. Whatever duration the timer reports, the recorded sessions keep
    positive durations, the best streak never goes down, and after a session
    that was accepted the current streak is at least 1 when it was not
    negative before. *)
Theorem complete_session_invariants
        (Date_parse : string -> option Z) (tz : Z)
        (stringify_sessions : list Types.StudySession -> string)
        (stringify_streak : Types.StudyStreak -> string)
        (st : Dashboard.State) (ls : gmap string string)
        (now : Z) (uuid : string) (minutes : Z) :
  Forall (fun s => 0 < Types.durationMinutes s) (Dashboard.studyTime st) ->
  let st' := fst (Dashboard.completeSession Date_parse tz stringify_sessions
                    stringify_streak st ls now uuid minutes) in
  Forall (fun s => 0 < Types.durationMinutes s) (Dashboard.studyTime st')
  /\ Types.bestStreak (Dashboard.streak st) <= Types.bestStreak (Dashboard.streak st')
  /\ (0 < minutes -> 0 <= Types.currentStreak (Dashboard.streak st) ->
      1 <= Types.currentStreak (Dashboard.streak st')).
Proof.
  intros Hall. cbv zeta. unfold Dashboard.completeSession. cbn [fst].
  destruct (Z.leb_spec minutes 0) as [Hm|Hm].
  - assert (H : Dashboard.handleStudySessionComplete Date_parse tz st now uuid minutes = []).
    { unfold Dashboard.handleStudySessionComplete.
      destruct (Z.leb_spec minutes 0); [reflexivity | lia]. }
    rewrite H. simpl. repeat split; [exact Hall | lia | lia].
  - rewrite streak_after_session, studyTime_after_session by assumption.
    cbv zeta. repeat apply conj.
    + apply Forall_app. split; [exact Hall|].
      apply Forall_singleton. simpl. exact Hm.
    + destruct (Dashboard.continues _); simpl; lia.
    + intros _ Hc. destruct (Dashboard.continues _); simpl; lia.
Qed.

Lemma complete_session_invariants_witness :
  Forall (fun s => 0 < Types.durationMinutes s)
         (Dashboard.studyTime
            (fst (Dashboard.completeSession JSDate.parseISO 0 (fun _ => "[]")
                    (fun _ => "{}") fresh_dashboard ∅ two_days_later "u1" (-5)))).
Proof.
  apply (complete_session_invariants JSDate.parseISO 0 (fun _ => "[]") (fun _ => "{}")
           fresh_dashboard ∅ two_days_later "u1" (-5)).
  constructor.
Defined.

(** A local midnight is its own local midnight. *)
Lemma setHours0_idempotent tz t :
  JSDate.setHours0 tz (JSDate.setHours0 tz t) = JSDate.setHours0 tz t.
Proof.
  unfold JSDate.setHours0, JSDate.msIntoDay, JSDate.msPerDay.
  Z.div_mod_to_equations. lia.
Qed.

(** X23. Two completed sessions in a row, the second from the state the
    first one left: the second reads back the date the first one stored,
    which is the local midnight of the first, so that its [timeDiff] is the
    floor of the difference of the two local midnights in days. When that is
    at most 1 the current streak goes up by one again (also for a second
    session of the same day: sessions of one day are not merged); when it is
    more, the current streak restarts at 1 and the best streak stays. The
    date text written by [toISOString] is assumed to parse back to its time
    value. *)
Theorem second_session_reads_first
        (Date_parse : string -> option Z) (tz : Z)
        (st : Dashboard.State) (now1 now2 : Z) (uuid1 uuid2 : string)
        (minutes1 minutes2 : Z) :
  0 < minutes1 -> 0 < minutes2 ->
  Date_parse (JSDate.toISOString (JSDate.setHours0 tz now1))
  = Some (JSDate.setHours0 tz now1) ->
  let st1 := Dashboard.commit st
               (Dashboard.handleStudySessionComplete Date_parse tz st now1 uuid1 minutes1) in
  let st2 := Dashboard.commit st1
               (Dashboard.handleStudySessionComplete Date_parse tz st1 now2 uuid2 minutes2) in
  let midnightDiff :=
    (JSDate.setHours0 tz now2 - JSDate.setHours0 tz now1) / JSDate.msPerDay in
  Dashboard.timeDiff Date_parse tz now2 (Types.lastStudyDate (Dashboard.streak st1))
  = Some midnightDiff
  /\ (midnightDiff <= 1 ->
      Types.currentStreak (Dashboard.streak st2)
      = Types.currentStreak (Dashboard.streak st1) + 1
      /\ Types.bestStreak (Dashboard.streak st2)
         = Z.max (Types.bestStreak (Dashboard.streak st1))
                 (Types.currentStreak (Dashboard.streak st1) + 1))
  /\ (1 < midnightDiff ->
      Types.currentStreak (Dashboard.streak st2) = 1
      /\ Types.bestStreak (Dashboard.streak st2)
         = Types.bestStreak (Dashboard.streak st1)).
Proof.
  intros H1 H2 Hrt. cbv zeta.
  set (st1 := Dashboard.commit st
                (Dashboard.handleStudySessionComplete Date_parse tz st now1 uuid1 minutes1)).
  assert (Hlast : Types.lastStudyDate (Dashboard.streak st1)
                  = JSDate.toISOString (JSDate.setHours0 tz now1)).
  { subst st1. rewrite streak_after_session by assumption. cbv zeta.
    destruct (Dashboard.continues _); reflexivity. }
  assert (Hdiff : Dashboard.timeDiff Date_parse tz now2
                    (Types.lastStudyDate (Dashboard.streak st1))
                  = Some ((JSDate.setHours0 tz now2 - JSDate.setHours0 tz now1)
                            / JSDate.msPerDay)).
  { unfold Dashboard.timeDiff. rewrite Hlast, Hrt, setHours0_idempotent.
    reflexivity. }
  split; [exact Hdiff|].
  rewrite (streak_after_session Date_parse tz st1 now2 uuid2 minutes2 H2). cbv zeta.
  rewrite Hdiff. unfold Dashboard.continues.
  destruct (Z.leb_spec ((JSDate.setHours0 tz now2 - JSDate.setHours0 tz now1)
                          / JSDate.msPerDay) 1);
    split; intros; simpl; try lia; split; reflexivity.
Qed.

Lemma second_session_reads_first_witness :
  let st1 := Dashboard.commit fresh_dashboard
               (Dashboard.handleStudySessionComplete JSDate.parseISO 0 fresh_dashboard
                  two_days_later "u1" 25) in
  let st2 := Dashboard.commit st1
               (Dashboard.handleStudySessionComplete JSDate.parseISO 0 st1
                  (two_days_later + 60000) "u2" 25) in
  Types.currentStreak (Dashboard.streak st2)
  = Types.currentStreak (Dashboard.streak st1) + 1.
Proof.
  pose proof (second_session_reads_first JSDate.parseISO 0 fresh_dashboard
                two_days_later (two_days_later + 60000) "u1" "u2" 25 25
                ltac:(lia) ltac:(lia) ltac:(vm_compute; reflexivity)) as H.
  cbv zeta in H. destruct H as [_ [H _]].
  cbv zeta. apply H. vm_compute. discriminate.
Defined.

(** ** Analytics: loading the stored sessions *)

Lemma startsWith_prefix (p s : string) : JSString.startsWith p (p ++ s) = true.
Proof.
  induction p as [|a p IH]; [reflexivity|].
  change (String a p ++ s) with (String a (p ++ s)).
  cbn [JSString.startsWith]. rewrite Ascii.eqb_refl. exact IH.
Qed.

Lemma drop_prefix (p s : string) : JSString.drop (String.length p) (p ++ s) = s.
Proof.
  induction p as [|a p IH]; [destruct s; reflexivity|].
  change (String a p ++ s) with (String a (p ++ s)). exact IH.
Qed.

(** A pattern that does not contain [c] cannot match across a [c]. *)
Lemma startsWith_before_sep (p b r : string) (c : ascii) :
  JSString.includes p (String c "") = false ->
  JSString.startsWith p (b ++ String c r) = true ->
  JSString.startsWith p b = true.
Proof.
  revert b. induction p as [|a p IH]; intros b Hc H; [reflexivity|].
  cbn [JSString.includes JSString.startsWith] in Hc.
  apply orb_false_iff in Hc as [Hhead Htail].
  destruct b as [|b0 b].
  - exfalso. change ("" ++ String c r) with (String c r) in H.
    cbn [JSString.startsWith] in H. apply andb_true_iff in H as [Hac _].
    apply Ascii.eqb_eq in Hac. subst a.
    cbn [JSString.startsWith] in Hhead. rewrite Ascii.eqb_refl in Hhead.
    destruct p; discriminate.
  - change (String b0 b ++ String c r) with (String b0 (b ++ String c r)) in H.
    cbn [JSString.startsWith] in *. apply andb_true_iff in H as [H1 H2].
    rewrite H1. simpl. apply IH; assumption.
Qed.

Lemma search_skips_subject (p : string) (attempt : string -> option string)
      (subj r : string) (c : ascii) :
  (forall s, JSString.startsWith p s = false -> attempt s = None) ->
  JSString.includes p (String c "") = false ->
  JSString.includes subj p = false ->
  JSString.search attempt (subj ++ String c r)
  = JSString.search attempt (String c r).
Proof.
  intros Hatt Hc. induction subj as [|a subj IH]; intros Hinc; [reflexivity|].
  cbn [JSString.includes] in Hinc. apply orb_false_iff in Hinc as [Hs Hrest].
  change (String a subj ++ String c r) with (String a (subj ++ String c r)).
  cbn [JSString.search].
  rewrite Hatt.
  - apply IH. exact Hrest.
  - destruct (JSString.startsWith p (String a (subj ++ String c r))) eqn:E;
      [|reflexivity].
    change (String a (subj ++ String c r)) with (String a subj ++ String c r) in E.
    apply startsWith_before_sep in E; [congruence|exact Hc].
Qed.

Lemma attemptDuration_needs_prefix (s : string) :
  JSString.startsWith "Duration: " s = false -> AnalyticsLoad.attemptDuration s = None.
Proof. intros H. unfold AnalyticsLoad.attemptDuration. rewrite H. reflexivity. Qed.

Lemma span_dot_subject (subj r : string) :
  forallb_string_dot subj = true ->
  JSString.span AnalyticsLoad.isDot (subj ++ AnalyticsLoad.LF ++ r)
  = (subj, AnalyticsLoad.LF ++ r).
Proof.
  induction subj as [|a subj IH]; intros H; [reflexivity|].
  change (String a subj ++ AnalyticsLoad.LF ++ r)
    with (String a (subj ++ AnalyticsLoad.LF ++ r)).
  cbn [forallb_string_dot] in H. apply andb_true_iff in H as [Ha Hs].
  cbn [JSString.span]. rewrite Ha, (IH Hs). reflexivity.
Qed.

(** The text of some numbers: 2^53 - 1 and 2^53 in full, 2^64 with the 17
    digits that identify it, 2^70 and 10^21 in exponent form. *)
Example number_texts :
  JSNum.toString 9007199254740991 = "9007199254740991"
  /\ JSNum.toString 9007199254740992 = "9007199254740992"
  /\ JSNum.toString 18446744073709551616 = "18446744073709552000"
  /\ JSNum.toString 1180591620717411303424 = "1.1805916207174113e+21"
  /\ JSNum.toString (10 ^ 21) = "1e+21"
  /\ JSNum.toString (- 42) = "-42".
Proof. repeat apply conj; vm_compute; reflexivity. Qed.

(** Up to [Number.MAX_SAFE_INTEGER] a number is printed digit by digit. *)
Lemma toString_safe_integer (n : Z) :
  0 <= n <= JSNum.MAX_SAFE_INTEGER -> JSNum.toString n = JSDate.decimal n.
Proof.
  intros [H0 Hmax]. unfold JSNum.toString, JSNum.toStringAbs.
  destruct (Z.ltb_spec n 0); [lia|].
  destruct (Z.leb_spec n JSNum.MAX_SAFE_INTEGER); [reflexivity | lia].
Qed.

(** X24. A stored session comes back from the text it is turned into while
    loading: when its subject is not empty, contains no line break and not
    the text "Duration: ", its duration is an integer from 0 to
    [Number.MAX_SAFE_INTEGER] (printed digit by digit, not in exponent
    form) and its date is a non-empty text that parses, the loaded session
    has the same subject and minutes, and the local calendar day of the
    date. *)
Theorem stored_session_survives_load
        (Date_parse : string -> option Z) (tz now : Z)
        (session : Types.StudySession) (t : Z) :
  Types.subject session <> "" ->
  forallb_string_dot (Types.subject session) = true ->
  JSString.includes (Types.subject session) "Duration: " = false ->
  0 <= Types.durationMinutes session <= JSNum.MAX_SAFE_INTEGER ->
  Types.date session <> "" ->
  Date_parse (Types.date session) = Some t ->
  AnalyticsLoad.transform Date_parse tz (AnalyticsLoad.toNote now session)
  = JS.Return {| Analytics.date := DateFns.format_yyyy_MM_dd tz t;
                 Analytics.durationMinutes := Types.durationMinutes session;
                 Analytics.subject := Types.subject session |}.
Proof.
  intros Hne Hdot Hinc Hsafe Hdate Hparse.
  pose proof (proj1 Hsafe) as Hdur.
  unfold AnalyticsLoad.transform, AnalyticsLoad.toNote.
  cbn [AnalyticsLoad.content AnalyticsLoad.created_at].
  rewrite truthy_nonempty, Hparse by assumption.
  set (subj := Types.subject session) in *.
  set (n := Types.durationMinutes session) in *.
  rewrite (toString_safe_integer n Hsafe).
  set (tail := "Duration: " ++ JSDate.decimal n ++ " minutes").
  (* the subject pattern matches at the very start *)
  assert (Hs : JSString.search AnalyticsLoad.attemptSubject
                 ("Subject: " ++ subj ++ AnalyticsLoad.LF ++ tail) = Some subj).
  { assert (Ha : AnalyticsLoad.attemptSubject
                   ("Subject: " ++ subj ++ AnalyticsLoad.LF ++ tail) = Some subj).
    { unfold AnalyticsLoad.attemptSubject.
      rewrite startsWith_prefix.
      change 9%nat with (String.length "Subject: "). rewrite drop_prefix.
      rewrite span_dot_subject by assumption.
      destruct (String.eqb_spec subj "") as [E|_]; [contradiction|].
      rewrite startsWith_prefix, orb_true_r. reflexivity. }
    destruct ("Subject: " ++ subj ++ AnalyticsLoad.LF ++ tail);
      cbn [JSString.search]; rewrite Ha; reflexivity. }
  (* the duration pattern matches nowhere before the second line *)
  assert (Hd : JSString.search AnalyticsLoad.attemptDuration
                 ("Subject: " ++ subj ++ AnalyticsLoad.LF ++ tail)
               = Some (JSDate.decimal n)).
  { change ("Subject: " ++ subj ++ AnalyticsLoad.LF ++ tail)
      with (String "S" (String "u" (String "b" (String "j" (String "e" (String "c"
              (String "t" (String ":" (String " "
                 (subj ++ String (ascii_of_nat 10) tail)))))))))).
    do 9 (cbn [JSString.search];
          rewrite attemptDuration_needs_prefix by reflexivity).
    rewrite (search_skips_subject "Duration: " AnalyticsLoad.attemptDuration);
      [| exact attemptDuration_needs_prefix | reflexivity | exact Hinc].
    cbn [JSString.search].
    rewrite attemptDuration_needs_prefix by reflexivity.
    assert (Ha : AnalyticsLoad.attemptDuration tail = Some (JSDate.decimal n)).
    { unfold AnalyticsLoad.attemptDuration. subst tail.
      rewrite startsWith_prefix.
      change 10%nat with (String.length "Duration: "). rewrite drop_prefix.
      rewrite (digits_acc_all_digits (JSDate.decimal n) 0 n).
      - destruct (String.eqb_spec (JSDate.decimal n) "") as [E|_];
          [exfalso; exact (decimal_nonempty n E)|].
        reflexivity.
      - pose proof (number_of_decimal n Hdur) as Hn. unfold JSDate.number_of in Hn.
        destruct (JSDate.decimal n); [discriminate|exact Hn].
      - reflexivity. }
    destruct tail; cbn [JSString.search]; rewrite Ha; reflexivity. }
  rewrite Hs, Hd, (number_of_decimal n Hdur). reflexivity.
Qed.

Lemma stored_session_survives_load_witness :
  AnalyticsLoad.transform JSDate.parseISO 0
    (AnalyticsLoad.toNote mid_april physics_session)
  = JS.Return {| Analytics.date := "2025-04-15"; Analytics.durationMinutes := 400;
                 Analytics.subject := "Physics" |}.
Proof.
  apply (stored_session_survives_load JSDate.parseISO 0 mid_april physics_session
           1744711200000);
    first [reflexivity | discriminate | vm_compute; split; discriminate].
Defined.

(** The first match of the duration pattern may lie in the subject. *)
Example subject_text_taken_for_duration :
  AnalyticsLoad.transform JSDate.parseISO 0
    (AnalyticsLoad.toNote mid_april confusing_session)
  = JS.Return {| Analytics.date := "2025-04-15"; Analytics.durationMinutes := 99;
                 Analytics.subject := "Duration: 99 minutes" |}.
Proof. vm_compute. reflexivity. Qed.

(** From 10^21 on the duration is written in exponent form, which the
    duration pattern does not match: the session loads with 0 minutes. *)
Example exponent_form_loads_as_zero :
  AnalyticsLoad.content (AnalyticsLoad.toNote mid_april endless_session)
  = "Subject: Physics" ++ AnalyticsLoad.LF ++ "Duration: 1e+21 minutes"
  /\ AnalyticsLoad.transform JSDate.parseISO 0
       (AnalyticsLoad.toNote mid_april endless_session)
     = JS.Return {| Analytics.date := "2025-04-15"; Analytics.durationMinutes := 0;
                    Analytics.subject := "Physics" |}.
Proof. split; vm_compute; reflexivity. Qed.

Lemma map_throwing_throws {A B} (f : A -> JS.completion B) (l : list A) (x : A) :
  x ∈ l -> JS.throws (f x) = true ->
  JS.throws (AnalyticsLoad.map_throwing f l) = true.
Proof.
  intros Hin Hx. induction l as [|y l IH]; [apply elem_of_nil in Hin; contradiction|].
  cbn [AnalyticsLoad.map_throwing].
  apply elem_of_cons in Hin as [<-|Hin].
  - destruct (f x); [discriminate|reflexivity].
  - destruct (f y); [|reflexivity].
    specialize (IH Hin). destruct (AnalyticsLoad.map_throwing f l);
      [discriminate|reflexivity].
Qed.

(** X25. One stored session whose date is a non-empty text that does not
    parse makes the whole load fail: the page ends with the error message
    and without any session, the valid ones included. A stored value that
    [JSON.parse] rejects has the same effect, while an absent or empty value
    loads as no sessions and no error. *)
Theorem one_bad_date_fails_the_load
        (Date_parse : string -> option Z) (tz : Z)
        (parse : string -> JS.completion (list Types.StudySession))
        (now : Z) (ls : gmap string string) (raw : string) :
  ls !! "studyTime" = Some raw ->
  raw <> "" ->
  let failed :=
    {| AnalyticsLoad.studyTime := []; AnalyticsLoad.isLoading := false;
       AnalyticsLoad.error :=
         Some "Failed to load study data. Please try refreshing the page." |} in
  (forall sessions bad,
      parse raw = JS.Return sessions -> bad ∈ sessions ->
      Types.date bad <> "" -> Date_parse (Types.date bad) = None ->
      AnalyticsLoad.loadStudySessions Date_parse tz parse now ls = failed)
  /\ (forall e, parse raw = JS.Throw e ->
                AnalyticsLoad.loadStudySessions Date_parse tz parse now ls = failed)
  /\ (forall ls0, ls0 !! "studyTime" = None \/ ls0 !! "studyTime" = Some "" ->
                  AnalyticsLoad.loadStudySessions Date_parse tz parse now ls0
                  = {| AnalyticsLoad.studyTime := []; AnalyticsLoad.isLoading := false;
                       AnalyticsLoad.error := None |}).
Proof.
  intros Hk Hne. cbv zeta.
  unfold AnalyticsLoad.loadStudySessions, Analytics.getStudySessions, Storage.getItem.
  repeat apply conj.
  - intros sessions bad Hp Hin Hd Hnone.
    rewrite Hk, truthy_nonempty, Hp by assumption. simpl.
    pose proof (map_throwing_throws (AnalyticsLoad.transform Date_parse tz)
                  (List.map (AnalyticsLoad.toNote now) sessions)
                  (AnalyticsLoad.toNote now bad)) as Ht.
    destruct (AnalyticsLoad.map_throwing _ _); [|reflexivity].
    exfalso. assert (H : false = true); [|discriminate]. apply Ht.
    + apply list_elem_of_In, in_map, list_elem_of_In. exact Hin.
    + unfold AnalyticsLoad.transform, AnalyticsLoad.toNote.
      cbn [AnalyticsLoad.created_at]. rewrite truthy_nonempty, Hnone by assumption.
      reflexivity.
  - intros e Hp. rewrite Hk, truthy_nonempty, Hp by assumption. reflexivity.
  - intros ls0 [-> | ->]; reflexivity.
Qed.

Lemma one_bad_date_fails_the_load_witness :
  AnalyticsLoad.loadStudySessions JSDate.parseISO 0
    (fun _ => JS.Return [physics_session; undated_session]) mid_april
    some_store
  = {| AnalyticsLoad.studyTime := []; AnalyticsLoad.isLoading := false;
       AnalyticsLoad.error :=
         Some "Failed to load study data. Please try refreshing the page." |}.
Proof.
  destruct (one_bad_date_fails_the_load JSDate.parseISO 0
              (fun _ => JS.Return [physics_session; undated_session]) mid_april
              some_store "[...]" eq_refl ltac:(discriminate))
    as [H _].
  apply (H [physics_session; undated_session] undated_session);
    [reflexivity | right; left | discriminate | reflexivity].
Defined.

(** ** Analytics: the seven bars *)

Lemma sum_by_keys {A} (key : A -> string) (val : A -> Z)
      (keys : list string) (l : list A) :
  NoDup keys ->
  sumZ ((fun k => sumZ (val <$> filter (fun s => key s = k) l)) <$> keys)
  = sumZ (val <$> filter (fun s => key s ∈ keys) l).
Proof.
  induction keys as [|n ns IH]; intros Hnd.
  - rewrite fmap_nil, sumZ_nil. induction l as [|s l IHl]; [reflexivity|].
    rewrite filter_cons, decide_False; [exact IHl|]. apply not_elem_of_nil.
  - apply NoDup_cons in Hnd as [Hn Hnd]. rewrite fmap_cons, sumZ_cons, (IH Hnd).
    clear IH. induction l as [|s l IHl]; [reflexivity|].
    rewrite !filter_cons.
    destruct (decide (key s = n)) as [H1|H1];
      destruct (decide (key s ∈ ns)) as [H2|H2];
      destruct (decide (key s ∈ n :: ns)) as [H3|H3];
      rewrite ?fmap_cons, ?sumZ_cons; try lia; exfalso;
      rewrite ?elem_of_cons in *; intuition congruence.
Qed.

Lemma window_dates_NoDup tz now :
  NoDup ((fun i => DateFns.format_yyyy_MM_dd tz (DateFns.subDays now i))
           <$> [6; 5; 4; 3; 2; 1; 0]).
Proof.
  apply NoDup_fmap_2_strong; [|apply (bool_decide_unpack _); vm_compute; exact I].
  intros i j Hi Hj Heq.
  destruct (decide (i = j)) as [E|E]; [exact E|]. exfalso.
  apply (window_dates_distinct tz now i j); [| |exact E|exact Heq].
  - repeat (apply elem_of_cons in Hi as [->|Hi]; [lia|]).
    apply elem_of_nil in Hi. contradiction.
  - repeat (apply elem_of_cons in Hj as [->|Hj]; [lia|]).
    apply elem_of_nil in Hj. contradiction.
Qed.

Lemma sum_filter_le {A} (val : A -> Z) (P : A -> Prop) `{!forall x, Decision (P x)}
      (l : list A) :
  Forall (fun s => 0 <= val s) l ->
  sumZ (val <$> filter P l) <= sumZ (val <$> l).
Proof.
  induction l as [|s l IH]; intros Hpos; [reflexivity|].
  apply Forall_cons in Hpos as [Hs Hl]. specialize (IH Hl).
  rewrite filter_cons. destruct (decide (P s)); rewrite ?fmap_cons, ?sumZ_cons; lia.
Qed.

(** X26. The seven bars together hold the minutes of exactly the sessions
    dated on one of the seven days of the window, each session once; so with
    no negative durations they never add up to more than the total study
    time shown above them. *)
Theorem bars_count_each_session_once
        (tz now : Z) (studyTime : list Analytics.StudySession) :
  let days := (fun i => DateFns.format_yyyy_MM_dd tz (DateFns.subDays now i))
                <$> [6; 5; 4; 3; 2; 1; 0] in
  sumZ (Analytics.minutes <$> Analytics.last7Days tz now studyTime)
  = sumZ (Analytics.durationMinutes
            <$> filter (fun s => Analytics.date s ∈ days) studyTime)
  /\ (Forall (fun s => 0 <= Analytics.durationMinutes s) studyTime ->
      sumZ (Analytics.minutes <$> Analytics.last7Days tz now studyTime)
      <= Analytics.totalMinutes studyTime).
Proof.
  cbv zeta.
  assert (Heq : sumZ (Analytics.minutes <$> Analytics.last7Days tz now studyTime)
                = sumZ (Analytics.durationMinutes
                          <$> filter (fun s => Analytics.date s
                                               ∈ (fun i => DateFns.format_yyyy_MM_dd tz
                                                             (DateFns.subDays now i))
                                                   <$> [6; 5; 4; 3; 2; 1; 0])
                                     studyTime)).
  { rewrite <- (sum_by_keys Analytics.date Analytics.durationMinutes)
      by apply window_dates_NoDup.
    unfold Analytics.last7Days.
    cbn [seq List.map rev app]. rewrite !dayBar_spec. reflexivity. }
  split; [exact Heq|].
  intros Hpos. rewrite Heq. unfold Analytics.totalMinutes. rewrite reduce_sum_sumZ.
  apply sum_filter_le. exact Hpos.
Qed.

Lemma bars_count_each_session_once_witness :
  sumZ (Analytics.minutes <$> Analytics.last7Days 0 mid_april april_13_sessions)
  <= Analytics.totalMinutes april_13_sessions.
Proof.
  apply (bars_count_each_session_once 0 mid_april april_13_sessions).
  repeat constructor; simpl; lia.
Defined.

Lemma max_list_fold (l : list Z) (a : Z) :
  exists M, fold_left JSNum.max (List.map JS.of_Z l) (JS.of_Z a) = JS.of_Z M
            /\ a <= M /\ (forall x, x ∈ l -> x <= M) /\ (M = a \/ M ∈ l).
Proof.
  revert a. induction l as [|x l IH]; intros a.
  - exists a. repeat split; [lia| |left; reflexivity].
    intros x Hx. apply elem_of_nil in Hx. contradiction.
  - cbn [List.map fold_left].
    assert (Hmax : JSNum.max (JS.of_Z a) (JS.of_Z x) = JS.of_Z (Z.max a x)).
    { unfold JSNum.max, JS.of_Z.
      destruct (Qle_bool (inject_Z a) (inject_Z x)) eqn:E.
      - apply Qle_bool_iff in E. rewrite <- Zle_Qle in E.
        rewrite Z.max_r by lia. reflexivity.
      - assert (Hlt : ~ a <= x).
        { intros H. rewrite Zle_Qle in H. apply Qle_bool_iff in H. congruence. }
        rewrite Z.max_l by lia. reflexivity. }
    rewrite Hmax. destruct (IH (Z.max a x)) as (M & HM & Ha & Hall & Hin).
    exists M. split; [exact HM|]. split; [lia|]. split.
    + intros y Hy. apply elem_of_cons in Hy as [->|Hy]; [lia|]. apply Hall. exact Hy.
    + destruct Hin as [->|Hin].
      * destruct (Z.max_spec a x) as [[_ ->]|[_ ->]]; [right; left|left; reflexivity].
      * right. right. exact Hin.
Qed.

Lemma max_list_of_Z (x : Z) (l : list Z) :
  exists M, JSNum.max_list (List.map JS.of_Z (x :: l)) = JS.of_Z M
            /\ (forall y, y ∈ x :: l -> y <= M) /\ M ∈ x :: l.
Proof.
  unfold JSNum.max_list. cbn [List.map fold_left].
  change (JSNum.max JS.NegInf (JS.of_Z x)) with (JS.of_Z x).
  destruct (max_list_fold l x) as (M & HM & Ha & Hall & Hin).
  exists M. split; [exact HM|]. split.
  - intros y Hy. apply elem_of_cons in Hy as [->|Hy]; [lia|]. apply Hall. exact Hy.
  - destruct Hin as [->|Hin]; [left|right; exact Hin].
Qed.

(** X27. The height of a bar is always a finite number: when every bar is
    empty the divisor is replaced by 1 and the heights are 0; and when no bar
    has negative minutes every height lies between 0 and 100. *)
Theorem bar_height_is_finite (bars : list Analytics.Bar) (day : Analytics.Bar) :
  day ∈ bars ->
  exists q : Q,
    AnalyticsLoad.barHeight bars day = JS.Fin q
    /\ (Forall (fun d => 0 <= Analytics.minutes d) bars -> (0 <= q <= 100)%Q)
    /\ (Forall (fun d => Analytics.minutes d = 0) bars -> (q == 0)%Q).
Proof.
  intros Hin. unfold AnalyticsLoad.barHeight.
  replace (List.map (fun d => JS.of_Z (Analytics.minutes d)) bars)
    with (List.map JS.of_Z (List.map Analytics.minutes bars))
    by apply List.map_map.
  destruct bars as [|b bars]; [apply elem_of_nil in Hin; contradiction|].
  change (List.map Analytics.minutes (b :: bars))
    with (Analytics.minutes b :: List.map Analytics.minutes bars).
  destruct (max_list_of_Z (Analytics.minutes b) (List.map Analytics.minutes bars))
    as (M & HM & Hall & HMin).
  rewrite HM.
  assert (Hday : Analytics.minutes day <= M).
  { apply Hall. change (Analytics.minutes b :: List.map Analytics.minutes bars)
      with (Analytics.minutes <$> (b :: bars)).
    apply list_elem_of_fmap. exists day. split; [reflexivity|exact Hin]. }
  assert (HMbar : exists d, d ∈ b :: bars /\ Analytics.minutes d = M).
  { change (Analytics.minutes b :: List.map Analytics.minutes bars)
      with (Analytics.minutes <$> (b :: bars)) in HMin.
    apply list_elem_of_fmap in HMin as (d & -> & Hd). exists d. split; [exact Hd|reflexivity]. }
  destruct HMbar as (dM & HdM & HdMeq).
  unfold JSNum.or_else, JSNum.truthy, JS.of_Z.
  destruct (Qeq_bool (inject_Z M) 0) eqn:E; cbn [negb].
  - apply Qeq_bool_iff in E.
    assert (HM0 : M = 0).
    { unfold Qeq in E. simpl in E. lia. }
    rewrite HM0 in *.
    cbn [JS.div JS.mul]. change (Qeq_bool 1 0) with false. cbv iota.
    eexists. split; [reflexivity|]. split.
    + intros Hpos.
      assert (H0 : Analytics.minutes day = 0).
      { rewrite Forall_forall in Hpos. specialize (Hpos day Hin). simpl in Hpos. lia. }
      rewrite H0. split; discriminate.
    + intros Hz. rewrite Forall_forall in Hz. rewrite (Hz day Hin). reflexivity.
  - cbn [JS.div JS.mul]. rewrite E.
    eexists. split; [reflexivity|]. split.
    + intros Hpos. rewrite Forall_forall in Hpos.
      assert (HMpos : 0 < M).
      { pose proof (Hpos dM HdM) as H. simpl in H.
        assert (M <> 0).
        { intros HM0. rewrite HM0 in E. discriminate E. }
        lia. }
      pose proof (Hpos day Hin) as Hd0. simpl in Hd0.
      assert (HMq : (0 < inject_Z M)%Q) by (unfold Qlt; simpl; lia).
      split.
      * apply Qmult_le_0_compat; [|discriminate].
        apply Qle_shift_div_l; [exact HMq|]. rewrite Qmult_0_l.
        unfold Qle; simpl; lia.
      * apply Qle_trans with (1 * 100)%Q; [|discriminate].
        apply Qmult_le_compat_r; [|discriminate].
        apply Qle_shift_div_r; [exact HMq|]. rewrite Qmult_1_l.
        rewrite <- Zle_Qle. exact Hday.
    + intros Hz. rewrite Forall_forall in Hz. exfalso.
      assert (HM0 : M = 0) by (rewrite <- HdMeq; apply (Hz dM HdM)).
      rewrite HM0 in E. discriminate E.
Qed.

Lemma bar_height_is_finite_witness :
  exists q : Q,
    AnalyticsLoad.barHeight (Analytics.last7Days 0 mid_april april_13_sessions)
      {| Analytics.label := "Apr 13"; Analytics.minutes := 50 |} = JS.Fin q
    /\ (Forall (fun d => 0 <= Analytics.minutes d)
               (Analytics.last7Days 0 mid_april april_13_sessions) -> (0 <= q <= 100)%Q)
    /\ (Forall (fun d => Analytics.minutes d = 0)
               (Analytics.last7Days 0 mid_april april_13_sessions) -> (q == 0)%Q).
Proof.
  apply (bar_height_is_finite (Analytics.last7Days 0 mid_april april_13_sessions)).
  vm_compute. do 3 right. left.
Defined.

(** ** Profile page and notes hub *)

Lemma filter_index_from {A} (start index : nat) (l : list A) :
  List.map snd
    (List.filter (fun '(i, _) => negb (i =? start + index)%nat)
                 (List.combine (seq start (length l)) l))
  = (take index l ++ drop (S index) l)%list.
Proof.
  revert start index. induction l as [|x l IH]; intros start index.
  - destruct index; reflexivity.
  - cbn [length seq List.combine List.filter].
    destruct index as [|index].
    + rewrite Nat.add_0_r, Nat.eqb_refl. cbn [negb take drop app].
      assert (Hrest : forall (k : nat) (m : list A),
                 List.map snd
                   (List.filter (fun '(i, _) => negb (i =? start)%nat)
                                (List.combine (seq (S start + k) (length m)) m)) = m).
      { intros k m. revert k. induction m as [|y m IHm]; intros k; [reflexivity|].
        cbn [length seq List.combine List.filter].
        destruct (Nat.eqb_spec (S start + k) start); [lia|].
        cbn [negb List.map snd]. f_equal.
        replace (S (S start + k)) with (S start + S k)%nat by lia. apply IHm. }
      specialize (Hrest 0%nat l). rewrite Nat.add_0_r in Hrest. exact Hrest.
    + destruct (Nat.eqb_spec start (start + S index)); [lia|].
      cbn [negb List.map snd take drop app]. f_equal.
      replace (start + S index)%nat with (S start + index)%nat by lia. apply IH.
Qed.

Lemma filter_index_spec {A} (index : nat) (l : list A) :
  Profile.filter_index index l = (take index l ++ drop (S index) l)%list.
Proof. apply (filter_index_from 0 index l). Qed.

(** X28. Removing an achievement drops exactly the entry at the given
    position and keeps the others in order; a position past the end changes
    nothing. An achievement is added, at the end, only when its title and its
    description each contain a character that is not white space, and
    removing that last position again restores the list. *)
Theorem achievements_add_and_remove (st : Profile.State) (index : nat) :
  let l := Profile.achievements (Profile.profile st) in
  Profile.achievements (Profile.profile (Profile.removeAchievement st index))
  = (take index l ++ drop (S index) l)%list
  /\ ((length l <= index)%nat -> Profile.removeAchievement st index = st)
  /\ (JSString.isBlank (Profile.a_title (Profile.newAchievement st)) = true
      \/ JSString.isBlank (Profile.a_description (Profile.newAchievement st)) = true ->
      Profile.addAchievement st = st)
  /\ (JSString.isBlank (Profile.a_title (Profile.newAchievement st)) = false ->
      JSString.isBlank (Profile.a_description (Profile.newAchievement st)) = false ->
      Profile.achievements (Profile.profile (Profile.addAchievement st))
      = (l ++ [Profile.newAchievement st])%list
      /\ Profile.achievements
           (Profile.profile
              (Profile.removeAchievement (Profile.addAchievement st) (length l)))
         = l).
Proof.
  cbv zeta.
  assert (Hrm : forall s i,
             Profile.achievements (Profile.profile (Profile.removeAchievement s i))
             = (take i (Profile.achievements (Profile.profile s))
                ++ drop (S i) (Profile.achievements (Profile.profile s)))%list).
  { intros s i. unfold Profile.removeAchievement. simpl. apply filter_index_spec. }
  split; [apply Hrm|]. split; [|split].
  - intros Hlen. specialize (Hrm st index).
    rewrite take_ge, drop_ge, app_nil_r in Hrm by lia.
    destruct st as [[n e b a sp ach] ed na]. unfold Profile.removeAchievement in *.
    simpl in *. unfold Profile.with_achievements. simpl. rewrite Hrm. reflexivity.
  - intros H. unfold Profile.addAchievement.
    destruct H as [-> | ->]; [reflexivity|]. rewrite andb_false_r. reflexivity.
  - intros Ht Hd.
    assert (Hadd : Profile.achievements (Profile.profile (Profile.addAchievement st))
                   = (Profile.achievements (Profile.profile st)
                      ++ [Profile.newAchievement st])%list).
    { unfold Profile.addAchievement. rewrite Ht, Hd. reflexivity. }
    split; [exact Hadd|].
    rewrite Hrm, Hadd.
    rewrite take_app_length, drop_ge, app_nil_r by (rewrite length_app; simpl; lia).
    reflexivity.
Qed.

Lemma achievements_add_and_remove_witness :
  Profile.removeAchievement editing_profile 5 = editing_profile
  /\ Profile.addAchievement editing_profile = editing_profile.
Proof.
  destruct (achievements_add_and_remove editing_profile 5) as (_ & H1 & H2 & _).
  split; [apply H1; simpl; lia | apply H2; left; reflexivity].
Defined.

(** X29. Saving and cancelling on the profile page: after a save that the
    storage accepted, cancelling any later edit brings back the saved
    profile and ends editing; a save that the storage refused leaves the
    stored value and the editing state as they were; and cancelling with
    nothing stored gives the default profile. *)
Theorem cancel_restores_saved_profile
        (parse : string -> JS.completion Profile.StudentProfile)
        (stringify : Profile.StudentProfile -> string)
        (st edited : Profile.State) (ls : gmap string string) :
  stringify (Profile.profile st) <> "" ->
  parse (stringify (Profile.profile st)) = JS.Return (Profile.profile st) ->
  let saved := Profile.handleSaveChanges stringify false st ls in
  Profile.isEditing (fst saved) = false
  /\ Profile.handleCancelEdit parse edited (snd saved)
     = {| Profile.profile := Profile.profile st; Profile.isEditing := false;
          Profile.newAchievement := Profile.newAchievement edited |}
  /\ Profile.handleSaveChanges stringify true st ls = (st, ls)
  /\ (ls !! "profile" = None ->
      Profile.handleCancelEdit parse edited ls
      = {| Profile.profile := Profile.defaultProfile; Profile.isEditing := false;
           Profile.newAchievement := Profile.newAchievement edited |}).
Proof.
  intros Hne Hp. cbv zeta.
  unfold Profile.handleSaveChanges, Profile.saveProfile, Profile.handleCancelEdit.
  cbn [fst snd].
  pose proof (storage_set_then_get_aux parse stringify ls "profile"
                (Profile.profile st) Profile.defaultProfile Hne Hp) as Hget.
  repeat apply conj.
  - reflexivity.
  - rewrite Hget. reflexivity.
  - reflexivity.
  - intros Hnone.
    unfold Storage.storage_get, Storage.getItem, Storage.parse_or. rewrite Hnone.
    reflexivity.
Qed.

Lemma cancel_restores_saved_profile_witness :
  Profile.handleCancelEdit
    (fun s => if String.eqb s "{saved}"
              then JS.Return (Profile.profile editing_profile)
              else JS.Throw "SyntaxError")
    (Profile.removeAchievement editing_profile 0)
    (snd (Profile.handleSaveChanges (fun _ => "{saved}") false editing_profile ∅))
  = {| Profile.profile := Profile.profile editing_profile;
       Profile.isEditing := false;
       Profile.newAchievement := Profile.newAchievement editing_profile |}.
Proof.
  apply (cancel_restores_saved_profile
           (fun s => if String.eqb s "{saved}"
                     then JS.Return (Profile.profile editing_profile)
                     else JS.Throw "SyntaxError")
           (fun _ => "{saved}") editing_profile
           (Profile.removeAchievement editing_profile 0) ∅).
  - discriminate.
  - reflexivity.
Defined.

Lemma isBlank_spec (s : string) :
  JSString.isBlank s = false
  <-> exists a c b, s = a ++ String c b /\ JSString.isWhiteSpace c = false.
Proof.
  induction s as [|c s IH].
  - split; [discriminate|]. intros (a & c & b & E & _).
    destruct a; discriminate.
  - cbn [JSString.isBlank]. rewrite andb_false_iff, IH. split.
    + intros [Hc|(a & c' & b & -> & Hc')].
      * exists "", c, s. split; [reflexivity|exact Hc].
      * exists (String c a), c', b. split; [reflexivity|exact Hc'].
    + intros (a & c' & b & E & Hc').
      destruct a as [|a0 a].
      * change ("" ++ String c' b) with (String c' b) in E.
        injection E as -> ->. left. exact Hc'.
      * change (String a0 a ++ String c' b) with (String a0 (a ++ String c' b)) in E.
        injection E as -> ->. right. exists a, c', b. split; [reflexivity|exact Hc'].
Qed.

(** X30. A note is accepted only when title and content each contain a
    character that is not white space; otherwise nothing changes. An
    accepted note becomes the first of the list and the inputs are cleared;
    deleting it under its fresh id gives back the notes from before; and
    saving an edit keeps the ids and the order of all notes. *)
Theorem notes_add_delete_edit (st : NotesHub.State) (uuid stamp noteId : string) :
  (NotesHub.addNote st uuid stamp = None
   <-> ~ ((exists a c b, NotesHub.titleInput st = a ++ String c b
                         /\ JSString.isWhiteSpace c = false)
          /\ (exists a c b, NotesHub.contentInput st = a ++ String c b
                            /\ JSString.isWhiteSpace c = false)))
  /\ (forall st', NotesHub.addNote st uuid stamp = Some st' ->
        NotesHub.notes st'
        = {| NotesHub.id := uuid; NotesHub.title := NotesHub.titleInput st;
             NotesHub.content := NotesHub.contentInput st;
             NotesHub.lastUpdated := stamp |} :: NotesHub.notes st
        /\ NotesHub.titleInput st' = "" /\ NotesHub.contentInput st' = ""
        /\ (uuid ∉ NotesHub.id <$> NotesHub.notes st ->
            NotesHub.notes (NotesHub.deleteNote st' uuid) = NotesHub.notes st))
  /\ (forall st', NotesHub.saveEdit st noteId stamp = Some st' ->
        NotesHub.id <$> NotesHub.notes st' = NotesHub.id <$> NotesHub.notes st
        /\ NotesHub.editingId st' = None).
Proof.
  split; [|split].
  - unfold NotesHub.addNote.
    rewrite <- !isBlank_spec.
    destruct (JSString.isBlank (NotesHub.titleInput st)),
             (JSString.isBlank (NotesHub.contentInput st)); simpl;
      split; try reflexivity; try discriminate; intuition congruence.
  - intros st' H. unfold NotesHub.addNote in H.
    destruct (_ || _); [discriminate|]. injection H as <-. simpl.
    repeat split. intros Hfresh.
    rewrite String.eqb_refl. simpl. apply filter_id_absent. exact Hfresh.
  - intros st' H. unfold NotesHub.saveEdit in H.
    destruct (_ || _); [discriminate|]. injection H as <-. simpl.
    split; [|reflexivity].
    change (List.map ?f ?l) with (f <$> l). rewrite <- list_fmap_compose.
    apply list_fmap_ext. intros i n _. simpl.
    destruct (String.eqb (NotesHub.id n) noteId); reflexivity.
Qed.

Lemma notes_add_delete_edit_witness :
  NotesHub.notes
    (NotesHub.deleteNote
       {| NotesHub.notes :=
            [ {| NotesHub.id := "n1"; NotesHub.title := "Limits";
                 NotesHub.content := "epsilon and delta";
                 NotesHub.lastUpdated := "4/16/2025" |} ];
          NotesHub.titleInput := ""; NotesHub.contentInput := "";
          NotesHub.editingId := None; NotesHub.editTitle := "";
          NotesHub.editContent := "" |} "n1")
  = [].
Proof.
  destruct (notes_add_delete_edit empty_hub "n1" "4/16/2025" "n1") as (_ & H & _).
  destruct (H _ eq_refl) as (_ & _ & _ & Hdel).
  apply Hdel. apply not_elem_of_nil.
Defined.
